(** * ExplainFlow: the trace-capture engine

    A shallow embedding of [explainflow/models.py] and [explainflow/tracer.py],
    with the data side of [explainflow/visualizer.py], and the properties of
    the recorder that the specification states.

    The host interpreter is not part of the repository.  It appears here as
    - a small universe of live values ([pyvalue]) together with the built-ins
      the tracer applies to them ([repr], [str], [callable], [hasattr], [!=],
      [copy.deepcopy]), each of which raises where Python's may raise;
    - the outcome of [compile] ([CompileResult]);
    - the [io.StringIO] to which [sys.stdout] and [sys.stderr] are redirected
      while the program runs ([StringIO]): the program may write to it,
      move its position, truncate it and close it;
    - the stream of events that [sys.settrace] delivers while [exec] runs the
      program, with what the program does to the redirected streams between
      two events ([Execution]).
    Everything else (the recorder state, the snapshot builder, the line
    classifier, the explanation synthesiser, the assembly of the trace) is
    translated from the source, function by function, under the source's
    names.

    Two things lie outside this view of the host.  A value that the recorder
    has stored is not changed by the program afterwards (the source stores a
    value that cannot be copied as it is, and the program may go on to mutate
    it).  And the program leaves the [Tracer] instance and the modules that
    the tracer imports alone. *)

From Stdlib Require Import ZArith List String Ascii Bool Lia DecimalString.
Import ListNotations.

Local Open Scope string_scope.
Local Open Scope Z_scope.

(* ================================================================== *)
(** ** Python strings

    A [str] is modelled by a Rocq [string]: a sequence of code points below
    256.  The functions below are the [str] methods the tracer calls. *)

Module PyStr.

Definition chr (n : nat) : ascii := ascii_of_nat n.

Definition newline : ascii := chr 10.

(** [len(s)] *)
Definition len (s : string) : Z := Z.of_nat (String.length s).

(** [str.isspace] on one code point (the white space of [str.strip()]). *)
Definition is_space (c : ascii) : bool :=
  let n := nat_of_ascii c in
  ((9 <=? n) && (n <=? 13) || (28 <=? n) && (n <=? 32)
   || (n =? 133) || (n =? 160))%nat.

Fixpoint lstrip (s : string) : string :=
  match s with
  | String c s' => if is_space c then lstrip s' else s
  | EmptyString => EmptyString
  end.

Fixpoint rstrip (s : string) : string :=
  match s with
  | String c s' =>
      match rstrip s' with
      | EmptyString => if is_space c then EmptyString else String c EmptyString
      | r => String c r
      end
  | EmptyString => EmptyString
  end.

(** [s.strip()] *)
Definition strip (s : string) : string := rstrip (lstrip s).

(** [s.startswith(p)] *)
Definition startswith (s p : string) : bool := String.prefix p s.

(** [s.startswith((p1, p2, ...))] *)
Definition startswith_any (s : string) (ps : list string) : bool :=
  existsb (startswith s) ps.

(** [sub in s] *)
Fixpoint contains (sub s : string) : bool :=
  String.prefix sub s ||
  match s with
  | String _ s' => contains sub s'
  | EmptyString => false
  end.

(** [s[:n]] for [n >= 0] *)
Definition take (n : nat) (s : string) : string := substring 0 n s.

(** [s[n:]] for [n >= 0] *)
Fixpoint drop (n : nat) (s : string) : string :=
  match n, s with
  | O, _ => s
  | S n', String _ s' => drop n' s'
  | S _, EmptyString => EmptyString
  end.

(** [s.split(sep)] for a one-character separator: never empty. *)
Fixpoint split (sep : ascii) (s : string) : list string :=
  match s with
  | EmptyString => [EmptyString]
  | String c s' =>
      if Ascii.eqb c sep then EmptyString :: split sep s'
      else match split sep s' with
           | w :: ws => String c w :: ws
           | [] => [String c EmptyString]
           end
  end.

(** [s.split(sep, 1)]: one piece when [sep] does not occur, else the text
    before its first occurrence and the text after it. *)
Fixpoint split1 (sep : ascii) (s : string) : list string :=
  match s with
  | EmptyString => [EmptyString]
  | String c s' =>
      if Ascii.eqb c sep then [EmptyString; s']
      else match split1 sep s' with
           | w :: ws => String c w :: ws
           | [] => [String c EmptyString]
           end
  end.

(** [str(n)] for an [int] *)
Definition of_int (n : Z) : string := NilZero.string_of_int (Z.to_int n).

Definition hex_digit (n : nat) : ascii :=
  if (n <? 10)%nat then chr (48 + n) else chr (87 + n).

(** The code points [repr] writes as they are. *)
Definition is_printable (c : ascii) : bool :=
  let n := nat_of_ascii c in
  ((32 <=? n) && (n <=? 126) || (161 <=? n) && negb (n =? 173))%nat.

Definition backslash : ascii := chr 92.

Definition escaped (c : ascii) : string := String backslash (String c EmptyString).

Definition escape (quote c : ascii) : string :=
  let n := nat_of_ascii c in
  if Ascii.eqb c quote || Ascii.eqb c backslash then escaped c
  else if (n =? 9)%nat then escaped "t"
  else if (n =? 10)%nat then escaped "n"
  else if (n =? 13)%nat then escaped "r"
  else if is_printable c then String c EmptyString
  else String backslash (String "x"
         (String (hex_digit (n / 16)) (String (hex_digit (n mod 16)) EmptyString))).

Fixpoint escape_all (quote : ascii) (s : string) : string :=
  match s with
  | EmptyString => EmptyString
  | String c s' => escape quote c ++ escape_all quote s'
  end.

Definition apostrophe : ascii := chr 39.
Definition dquote : ascii := chr 34.

(** [repr(s)] for a [str] *)
Definition repr (s : string) : string :=
  let quote :=
    if contains (String apostrophe EmptyString) s
       && negb (contains (String dquote EmptyString) s)
    then dquote else apostrophe in
  String quote (escape_all quote s) ++ String quote EmptyString.

(** [s[:k]] for any integer [k]: a negative [k] counts from the end. *)
Definition slice_to (k : Z) (s : string) : string :=
  if 0 <=? k then take (Z.to_nat k) s
  else take (Z.to_nat (Z.max 0 (len s + k))) s.

(** [c * n] for a one-character string [c] *)
Fixpoint times (c : ascii) (n : nat) : string :=
  match n with
  | O => EmptyString
  | S n' => String c (times c n')
  end.

(** [sep.join(pieces)] *)
Definition join (sep : string) (pieces : list string) : string :=
  String.concat sep pieces.

(** [sub] occurs in [s] counted by the separator [sep]: the number of
    occurrences of one character. *)
Fixpoint count (sep : ascii) (s : string) : nat :=
  match s with
  | EmptyString => O
  | String c s' => (if Ascii.eqb c sep then 1 else 0) + count sep s'
  end.

End PyStr.

(* ================================================================== *)
(** ** Python dictionaries

    A [dict] keeps its keys in insertion order and the recorder iterates over
    its dictionaries, so a [dict] is an association list.  [set] is
    [d[k] = v]: it overwrites in place or appends. *)

Module Dict.

Definition t (V : Type) : Type := list (string * V).

Definition empty {V} : t V := [].

Fixpoint get {V} (d : t V) (k : string) : option V :=
  match d with
  | [] => None
  | (k', v) :: d' => if String.eqb k' k then Some v else get d' k
  end.

Fixpoint set {V} (d : t V) (k : string) (v : V) : t V :=
  match d with
  | [] => [(k, v)]
  | (k', v') :: d' =>
      if String.eqb k' k then (k', v) :: d' else (k', v') :: set d' k v
  end.

Definition items {V} (d : t V) : list (string * V) := d.
Definition keys {V} (d : t V) : list string := map fst d.
Definition values {V} (d : t V) : list V := map snd d.

(** [k in d] *)
Definition mem {V} (d : t V) (k : string) : bool :=
  match get d k with Some _ => true | None => false end.

End Dict.

(* ================================================================== *)
(** ** Calls that may raise *)

(** What a call of a built-in comes to. *)
Inductive Outcome (A : Type) : Type :=
| Ok (a : A)
| RaisesException     (* it raises an [Exception] *)
| RaisesOther.        (* it raises outside [Exception]: [SystemExit], ... *)

Arguments Ok {A} a.
Arguments RaisesException {A}.
Arguments RaisesOther {A}.

(** A loop [for b in l: a = f(a, b)] whose body may raise ([None]). *)
Fixpoint fold_raising {A B : Type} (f : A -> B -> option A) (l : list B) (a : A)
    : option A :=
  match l with
  | [] => Some a
  | b :: l' =>
      match f a b with
      | Some a' => fold_raising f l' a'
      | None => None
      end
  end.

(* ================================================================== *)
(** ** Live values of the traced program *)

(** How [==] and [!=] treat an object. *)
Inductive Comparison : Type :=
| by_content          (* its [__eq__] compares the content *)
| by_identity         (* no [__eq__] of its own: equal to itself only *)
| comparison_raises.  (* its [__eq__] or [__ne__] raises *)

(** What [copy.deepcopy] does with an object. *)
Inductive DeepCopy : Type :=
| fresh_copy      (* a new object with the same content *)
| same_object     (* the object itself, as for a function or a class *)
| copy_fails      (* an [Exception], as for a generator or a module *)
| copy_fatal.     (* a failure outside [Exception] *)

(** An object that is none of the primitive values below, by what the
    built-ins observe of it. *)
Record pyobject : Type := {
  ob_type : string;          (* [type(o).__name__] *)
  ob_state : Z;              (* what [==] compares: the content, or the
                                identity of an object compared by identity *)
  ob_repr : option string;   (* [repr(o)]; [None] when it raises *)
  ob_repr_fatal : bool;      (* when [repr(o)] raises: outside [Exception] *)
  ob_callable : bool;        (* [callable(o)] *)
  ob_traced : bool;          (* [hasattr(o, '__explainflow_traced__')] *)
  ob_getattr_raises : bool;  (* that [hasattr] raises: [__getattr__] fails
                                with another error than [AttributeError] *)
  ob_truthy : bool;          (* [bool(o)] *)
  ob_compare : Comparison;
  ob_deepcopy : DeepCopy;
  ob_copied : bool           (* the object is a copy that [deepcopy] made *)
}.

Inductive pyvalue : Type :=
| PyNone
| PyBool (b : bool)
| PyInt (n : Z)
| PyString (s : string)
| PyObject (o : pyobject).

Module Builtins.

(** [v is None] *)
Definition is_None (v : pyvalue) : bool :=
  match v with PyNone => true | _ => false end.

Definition int_of_bool (b : bool) : Z := if b then 1 else 0.

Definition Comparison_eqb (a b : Comparison) : bool :=
  match a, b with
  | by_content, by_content | by_identity, by_identity
  | comparison_raises, comparison_raises => true
  | _, _ => false
  end.

Definition DeepCopy_eqb (a b : DeepCopy) : bool :=
  match a, b with
  | fresh_copy, fresh_copy | same_object, same_object
  | copy_fails, copy_fails | copy_fatal, copy_fatal => true
  | _, _ => false
  end.

Definition option_string_eqb (a b : option string) : bool :=
  match a, b with
  | Some x, Some y => String.eqb x y
  | None, None => true
  | _, _ => false
  end.

(** The two descriptions agree in everything. *)
Definition same (x y : pyobject) : bool :=
  String.eqb (ob_type x) (ob_type y) && (ob_state x =? ob_state y)
  && option_string_eqb (ob_repr x) (ob_repr y)
  && Bool.eqb (ob_repr_fatal x) (ob_repr_fatal y)
  && Bool.eqb (ob_callable x) (ob_callable y)
  && Bool.eqb (ob_traced x) (ob_traced y)
  && Bool.eqb (ob_getattr_raises x) (ob_getattr_raises y)
  && Bool.eqb (ob_truthy x) (ob_truthy y)
  && Comparison_eqb (ob_compare x) (ob_compare y)
  && DeepCopy_eqb (ob_deepcopy x) (ob_deepcopy y)
  && Bool.eqb (ob_copied x) (ob_copied y).

(** [x is y], where [x] is a value that the recorder holds and [y] a value
    of the program: a copy that [deepcopy] made is an object of its own,
    the same as no object of the program and as no other copy. *)
Definition identical (x y : pyobject) : bool :=
  negb (ob_copied x) && same x y.

(** [a == b], when the comparison returns. *)
Definition eq (a b : pyvalue) : bool :=
  match a, b with
  | PyNone, PyNone => true
  | PyBool x, PyBool y => Bool.eqb x y
  | PyBool x, PyInt y => int_of_bool x =? y
  | PyInt x, PyBool y => x =? int_of_bool y
  | PyInt x, PyInt y => x =? y
  | PyString x, PyString y => String.eqb x y
  | PyObject x, PyObject y =>
      match ob_compare x, ob_compare y with
      | by_identity, by_identity => identical x y
      | _, _ => String.eqb (ob_type x) (ob_type y) && (ob_state x =? ob_state y)
      end
  | _, _ => false
  end.

(** [a != b], when the comparison returns. *)
Definition ne (a b : pyvalue) : bool := negb (eq a b).

(** The comparison method of [v] raises. *)
Definition comparison_fails (v : pyvalue) : bool :=
  match v with
  | PyObject o =>
      match ob_compare o with comparison_raises => true | _ => false end
  | _ => false
  end.

(** The comparison method of [v] leaves the answer to the other operand:
    that of a primitive value does for an operand of another type, that
    of an object compared by identity does for every other object. *)
Definition comparison_defers (v : pyvalue) : bool :=
  match v with
  | PyObject o =>
      match ob_compare o with by_identity => true | _ => false end
  | _ => true
  end.

(** [a != b] raises: the method of [a] is asked first, that of [b] when
    [a] leaves the answer to it. *)
Definition ne_raises (a b : pyvalue) : bool :=
  comparison_fails a || comparison_defers a && comparison_fails b.

(** [repr(v)]; [None] when the call raises. *)
Definition repr (v : pyvalue) : option string :=
  match v with
  | PyNone => Some "None"
  | PyBool true => Some "True"
  | PyBool false => Some "False"
  | PyInt n => Some (PyStr.of_int n)
  | PyString s => Some (PyStr.repr s)
  | PyObject o => ob_repr o
  end.

(** [repr(v)] raises, and what it raises is no [Exception]. *)
Definition repr_fatal (v : pyvalue) : bool :=
  match v with
  | PyObject o =>
      match ob_repr o with
      | None => ob_repr_fatal o
      | Some _ => false
      end
  | _ => false
  end.

(** [str(v)], as an f-string formats [v]; [None] when the call raises.
    An object without [__str__] of its own is written by its [repr]. *)
Definition str (v : pyvalue) : option string :=
  match v with
  | PyString s => Some s
  | _ => repr v
  end.

(** [type(v).__name__] *)
Definition type_name (v : pyvalue) : string :=
  match v with
  | PyNone => "NoneType"
  | PyBool _ => "bool"
  | PyInt _ => "int"
  | PyString _ => "str"
  | PyObject o => ob_type o
  end.

(** [callable(v)] *)
Definition callable (v : pyvalue) : bool :=
  match v with PyObject o => ob_callable o | _ => false end.

(** [hasattr(v, '__explainflow_traced__')], when the call returns. *)
Definition hasattr_traced (v : pyvalue) : bool :=
  match v with PyObject o => ob_traced o | _ => false end.

(** [hasattr(v, '__explainflow_traced__')] raises. *)
Definition hasattr_raises (v : pyvalue) : bool :=
  match v with PyObject o => ob_getattr_raises o | _ => false end.

(** [bool(v)] *)
Definition truthy (v : pyvalue) : bool :=
  match v with
  | PyNone => false
  | PyBool b => b
  | PyInt n => negb (n =? 0)
  | PyString s => negb (String.eqb s EmptyString)
  | PyObject o => ob_truthy o
  end.

(** The copy that [deepcopy] makes of an object. *)
Definition copy_of (o : pyobject) : pyobject :=
  {| ob_type := ob_type o; ob_state := ob_state o; ob_repr := ob_repr o;
     ob_repr_fatal := ob_repr_fatal o; ob_callable := ob_callable o;
     ob_traced := ob_traced o; ob_getattr_raises := ob_getattr_raises o;
     ob_truthy := ob_truthy o; ob_compare := ob_compare o;
     ob_deepcopy := ob_deepcopy o; ob_copied := true |}.

(** [copy.deepcopy(v)]: a primitive value is its own copy. *)
Definition deepcopy (v : pyvalue) : Outcome pyvalue :=
  match v with
  | PyObject o =>
      match ob_deepcopy o with
      | fresh_copy => Ok (PyObject (copy_of o))
      | same_object => Ok v
      | copy_fails => RaisesException
      | copy_fatal => RaisesOther
      end
  | _ => Ok v
  end.

End Builtins.

(* ================================================================== *)
(** ** [io.StringIO]

    The buffer that [Tracer.trace] installs as [sys.stdout] and
    [sys.stderr]: its text, the position of the next write, and whether it
    is closed. *)

Module StringIO.

Record t : Type := {
  content : string;
  position : nat;
  closed : bool
}.

(** [io.StringIO()] *)
Definition new : t :=
  {| content := EmptyString; position := 0; closed := false |}.

(** [b.getvalue()]; [None] stands for the [ValueError] of a closed buffer. *)
Definition getvalue (b : t) : option string :=
  if closed b then None else Some (content b).

(** [b.write(text)]: the text goes to the position, over what is there,
    after null characters when the position is beyond the end.  A closed
    buffer takes nothing (the caller gets a [ValueError]). *)
Definition write (b : t) (text : string) : t :=
  if closed b then b
  else
    let padded :=
      content b
      ++ PyStr.times (PyStr.chr 0) (position b - String.length (content b)) in
    {| content :=
         PyStr.take (position b) padded ++ text
         ++ PyStr.drop (position b + String.length text) padded;
       position := position b + String.length text;
       closed := false |}.

(** [b.seek(pos)] *)
Definition seek (b : t) (pos : nat) : t :=
  if closed b then b
  else {| content := content b; position := pos; closed := false |}.

(** [b.truncate()]: the text is cut at the position. *)
Definition truncate (b : t) : t :=
  if closed b then b
  else {| content := PyStr.take (position b) (content b);
          position := position b; closed := false |}.

(** [b.close()] *)
Definition close (b : t) : t :=
  {| content := content b; position := position b; closed := true |}.

(** A call of a method of the buffer by the traced program ([print] and
    [sys.stdout.write] come to [do_write]). *)
Inductive Call : Type :=
| do_write (text : string)
| do_seek (pos : nat)
| do_truncate
| do_close.

Definition call (b : t) (c : Call) : t :=
  match c with
  | do_write text => write b text
  | do_seek pos => seek b pos
  | do_truncate => truncate b
  | do_close => close b
  end.

End StringIO.

(* ================================================================== *)
(** ** models.py *)

Module Models.

Inductive StepType : Type :=
| LINE | CALL | RETURN | EXCEPTION | ASSIGNMENT
| LOOP_START | LOOP_ITERATION | LOOP_END | CONDITION.

Definition StepType_eqb (a b : StepType) : bool :=
  match a, b with
  | LINE, LINE | CALL, CALL | RETURN, RETURN | EXCEPTION, EXCEPTION
  | ASSIGNMENT, ASSIGNMENT | LOOP_START, LOOP_START
  | LOOP_ITERATION, LOOP_ITERATION | LOOP_END, LOOP_END
  | CONDITION, CONDITION => true
  | _, _ => false
  end.

(** An exception object of the traced program, by what the tracer reads of
    it. *)
Record PyException : Type := {
  exc_type_name : string;        (* [type(e).__name__] *)
  exc_str : option string;       (* [str(e)]; [None] when it raises *)
  exc_is_Exception : bool        (* [isinstance(e, Exception)] *)
}.

(** The dataclass [Variable] ([Variable] is a reserved word here). *)
Record Variable_ : Type := {
  name : string;
  value : pyvalue;
  type_name : string;
  repr_value : string;
  changed : bool
}.

(** [_is_copyable(value)]: whether [copy.deepcopy] goes through; [None]
    when it raises outside [Exception], which the function lets pass. *)
Definition _is_copyable (value : pyvalue) : option bool :=
  match Builtins.deepcopy value with
  | Ok _ => Some true
  | RaisesException => Some false
  | RaisesOther => None
  end.

(** [Variable.from_value(name, value, previous_value)]; [None] when the
    call raises.  The default of [previous_value] is [None]: a caller that
    omits it passes [PyNone]. *)
Definition from_value (name : string) (value previous_value : pyvalue)
    : option Variable_ :=
  match
    match Builtins.repr value with
    | Some repr_val =>
        Some (if 100 <? PyStr.len repr_val
              then PyStr.take 97 repr_val ++ "..."
              else repr_val)
    | None =>
        (* [except Exception] *)
        if Builtins.repr_fatal value then None else Some "<repr error>"
    end
  with
  | None => None
  | Some repr_val =>
      match
        if Builtins.is_None previous_value then Some false
        else if Builtins.ne_raises previous_value value then None
        else Some (Builtins.ne previous_value value)
      with
      | None => None
      | Some changed =>
          match _is_copyable value with
          | None => None
          | Some copyable =>
              match (if copyable then Builtins.deepcopy value else Ok value) with
              | Ok stored =>
                  Some {| name := name;
                          value := stored;
                          type_name := Builtins.type_name value;
                          repr_value := repr_val;
                          changed := changed |}
              | _ => None
              end
          end
      end
  end.

Record ExecutionStep : Type := {
  step_number : Z;
  line_number : Z;
  line_content : string;
  step_type : StepType;
  variables : Dict.t Variable_;
  output : string;
  return_value : pyvalue;
  exception : option PyException;
  function_name : option string;
  call_depth : Z;
  explanation : string
}.

Record ExecutionTrace : Type := {
  code : string;
  steps : list ExecutionStep;
  final_output : string;
  final_variables : Dict.t Variable_;
  success : bool;
  error_message : string;
  total_lines : Z
}.

(** [ExecutionStep.get_variable_summary].  The marker of a changed variable
    is an arrow (U+2192) and a space; the arrow is outside the code points
    of [string], so the marker is the parameter [arrow_marker]. *)
Definition get_variable_summary (arrow_marker : string) (self : ExecutionStep)
    : string :=
  match variables self with
  | [] => "No variables"
  | _ =>
      let parts :=
        map (fun var =>
               let marker := if changed var then arrow_marker else "  " in
               marker ++ name var ++ " = " ++ repr_value var)
            (Dict.values (variables self)) in
      PyStr.join (String PyStr.newline EmptyString) parts
  end.

(** [ExecutionTrace.__len__] *)
Definition __len__ (self : ExecutionTrace) : Z :=
  Z.of_nat (List.length (steps self)).







(** [str(b)] for a [bool] *)
Definition str_of_bool (b : bool) : string := if b then "True" else "False".

(** One line of the variables part of [ExecutionTrace.summary]. *)
Definition summary_variable (var : Variable_) : string :=
  "  " ++ name var ++ " = " ++ repr_value var ++ " (" ++ type_name var ++ ")".

(** [ExecutionTrace.summary] *)
Definition summary (self : ExecutionTrace) : string :=
  let nl := String PyStr.newline EmptyString in
  let lines :=
    ["Execution Summary";
     PyStr.times "=" 40;
     "Total steps: " ++ PyStr.of_int (Z.of_nat (List.length (steps self)));
     "Lines in code: " ++ PyStr.of_int (total_lines self);
     "Success: " ++ str_of_bool (success self)] in
  let lines :=
    if negb (String.eqb (final_output self) EmptyString)
    then List.app lines [nl ++ "Output:" ++ nl ++ final_output self]
    else lines in
  let lines :=
    if negb (success self)
    then List.app lines [nl ++ "Error: " ++ error_message self]
    else lines in
  let lines :=
    match final_variables self with
    | [] => lines
    | _ =>
        List.app (List.app lines [nl ++ "Final Variables:"])
                 (map summary_variable (Dict.values (final_variables self)))
    end in
  PyStr.join nl lines.

End Models.

(* ================================================================== *)
(** ** The host interpreter, as the tracer meets it *)

Module Host.
Import Models.

(** A frame object: [frame.f_code.co_filename], [frame.f_code.co_name],
    [frame.f_lineno] and [frame.f_locals].  The dictionary [f_locals] is
    given by its bindings under [str] keys, in their order, and by its keys
    that are no [str] (the program can put such keys into the namespace of
    a module).  A loop of the tracer over the items raises at a key that
    is no [str], wherever the key stands, so the order between the two
    kinds of key is not kept. *)
Record Frame : Type := {
  co_filename : string;
  co_name : string;
  f_lineno : Z;
  f_locals : Dict.t pyvalue;
  f_locals_other_keys : list pyvalue
}.

(** The [event] argument of a trace function. *)
Inductive Event : Type :=
| ev_call | ev_line | ev_return | ev_exception | ev_opcode.

(** How a run of [exec] ends: what the program did to the redirected
    streams since the last event, the bindings left in [exec_locals] (under
    [str] keys and under other keys, as for [f_locals]), and the exception
    that escapes, if any. *)
Record Finish : Type := {
  last_stream_calls : list StringIO.Call;
  exec_locals : Dict.t pyvalue;
  exec_locals_other_keys : list pyvalue;
  raised : option PyException
}.

(** A run of [exec(compiled, ...)] under [sys.settrace]: the program makes
    the calls [stream_calls] on the redirected streams and then the
    interpreter calls the trace function with [(frame, event, arg)].  When
    the trace function returns, the run goes on as [resumes]; when the
    trace function itself raises, the interpreter unsets it and the error
    enters the traced program, which then ends as [on_fault] without
    further events.  An [Execution] is a run that ends: a traced program
    that runs forever keeps [Tracer.trace] from returning and is not
    described here. *)
Inductive Execution : Type :=
| Finishes (f : Finish)
| Fires (stream_calls : list StringIO.Call) (frame : Frame) (event : Event)
        (arg : pyvalue) (resumes : Execution) (on_fault : Finish).

(** The [SyntaxError] of a source that does not compile: [e.msg] and
    [e.lineno] (which may be [None]). *)
Record SyntaxError : Type := {
  msg : string;
  lineno : option Z
}.

(** [compile(code, filename, 'exec')]: a code object, which is known here
    by how it runs; a [SyntaxError]; or another exception, named by its
    type ([ValueError] for a source with a null character,
    [UnicodeEncodeError], [MemoryError], [RecursionError], ...). *)
Inductive CompileResult : Type :=
| Compiled (program : Execution)
| RaisesSyntaxError (e : SyntaxError)
| RaisesAnother (kind : string).

Definition Compiler : Type := string -> string -> CompileResult.

End Host.

(* ================================================================== *)
(** ** tracer.py *)

Module Tracer.
Import Models Host.

(** The attributes of a [Tracer] instance. *)
Record Tracer : Type := {
  max_steps : Z;
  steps : list ExecutionStep;
  step_count : Z;
  code_lines : list string;
  previous_variables : Dict.t pyvalue;
  current_variables : Dict.t Variable_;
  output_buffer : StringIO.t;
  call_depth : Z;
  traced_filename : string;
  _stopped : bool
}.

(** [Tracer(max_steps)] *)
Definition __init__ (max_steps : Z) : Tracer :=
  {| max_steps := max_steps;
     steps := [];
     step_count := 0;
     code_lines := [];
     previous_variables := Dict.empty;
     current_variables := Dict.empty;
     output_buffer := StringIO.new;
     call_depth := 0;
     traced_filename := "<explainflow>";
     _stopped := false |}.

(** Attribute assignments [self.x = v]. *)
Definition set_stopped (self : Tracer) (v : bool) : Tracer :=
  {| max_steps := max_steps self; steps := steps self;
     step_count := step_count self; code_lines := code_lines self;
     previous_variables := previous_variables self;
     current_variables := current_variables self;
     output_buffer := output_buffer self; call_depth := call_depth self;
     traced_filename := traced_filename self; _stopped := v |}.

Definition set_call_depth (self : Tracer) (v : Z) : Tracer :=
  {| max_steps := max_steps self; steps := steps self;
     step_count := step_count self; code_lines := code_lines self;
     previous_variables := previous_variables self;
     current_variables := current_variables self;
     output_buffer := output_buffer self; call_depth := v;
     traced_filename := traced_filename self; _stopped := _stopped self |}.

Definition set_previous_variables (self : Tracer) (v : Dict.t pyvalue) : Tracer :=
  {| max_steps := max_steps self; steps := steps self;
     step_count := step_count self; code_lines := code_lines self;
     previous_variables := v;
     current_variables := current_variables self;
     output_buffer := output_buffer self; call_depth := call_depth self;
     traced_filename := traced_filename self; _stopped := _stopped self |}.

Definition set_current_variables (self : Tracer) (v : Dict.t Variable_) : Tracer :=
  {| max_steps := max_steps self; steps := steps self;
     step_count := step_count self; code_lines := code_lines self;
     previous_variables := previous_variables self;
     current_variables := v;
     output_buffer := output_buffer self; call_depth := call_depth self;
     traced_filename := traced_filename self; _stopped := _stopped self |}.

Definition set_step_count (self : Tracer) (v : Z) : Tracer :=
  {| max_steps := max_steps self; steps := steps self;
     step_count := v; code_lines := code_lines self;
     previous_variables := previous_variables self;
     current_variables := current_variables self;
     output_buffer := output_buffer self; call_depth := call_depth self;
     traced_filename := traced_filename self; _stopped := _stopped self |}.

(** [self.steps.append(step)] *)
Definition steps_append (self : Tracer) (step : ExecutionStep) : Tracer :=
  {| max_steps := max_steps self; steps := steps self ++ [step];
     step_count := step_count self; code_lines := code_lines self;
     previous_variables := previous_variables self;
     current_variables := current_variables self;
     output_buffer := output_buffer self; call_depth := call_depth self;
     traced_filename := traced_filename self; _stopped := _stopped self |}.

(** What the traced program does to [sys.stdout] or [sys.stderr] while they
    are redirected, it does to [self.output_buffer]. *)
Definition stream (self : Tracer) (c : StringIO.Call) : Tracer :=
  {| max_steps := max_steps self; steps := steps self;
     step_count := step_count self; code_lines := code_lines self;
     previous_variables := previous_variables self;
     current_variables := current_variables self;
     output_buffer := StringIO.call (output_buffer self) c; call_depth := call_depth self;
     traced_filename := traced_filename self; _stopped := _stopped self |}.

Definition streams (self : Tracer) (calls : list StringIO.Call) : Tracer :=
  fold_left stream calls self.

(** [Tracer._determine_line_type] *)
Definition _determine_line_type (line_content : string) : StepType :=
  let stripped := PyStr.strip line_content in
  let has op := PyStr.contains op stripped in
  if String.eqb stripped EmptyString || PyStr.startswith stripped "#" then LINE
  else if has "=" && negb (existsb has ["=="; "!="; "<="; ">="; "+="; "-="; "*="; "/="])
  then ASSIGNMENT
  else if existsb has ["+="; "-="; "*="; "/="; "//="; "%="; "**="; "&="; "|="; "^="]
  then ASSIGNMENT
  else if PyStr.startswith_any stripped ["for "; "while "] then LOOP_START
  else if PyStr.startswith_any stripped ["if "; "elif "; "else"] then CONDITION
  else LINE.

(** The body of the loop of [Tracer._capture_variables] over
    [frame.f_locals.items()]; [None] when it raises. *)
Definition capture_binding (previous_variables : Dict.t pyvalue)
    (variables : Dict.t Variable_) (binding : string * pyvalue)
    : option (Dict.t Variable_) :=
  let '(name, value) := binding in
  if PyStr.startswith name "_" then Some variables
  else if Builtins.callable value && Builtins.hasattr_raises value then None
  else if Builtins.callable value && negb (Builtins.hasattr_traced value)
  then Some variables
  else
    let previous :=
      match Dict.get previous_variables name with
      | Some v => v
      | None => PyNone
      end in
    match from_value name value previous with
    | Some var => Some (Dict.set variables name var)
    | None => None
    end.

(** The loop of [Tracer._capture_variables]; [None] when it raises, which
    it does at a key that is no [str] ([name.startswith]) and when the body
    does. *)
Definition captured (previous_variables : Dict.t pyvalue) (frame : Frame)
    : option (Dict.t Variable_) :=
  match f_locals_other_keys frame with
  | [] =>
      fold_raising (capture_binding previous_variables)
                   (Dict.items (f_locals frame)) Dict.empty
  | _ :: _ => None
  end.

(** [Tracer._capture_variables]: the snapshots, and [self] with
    [previous_variables] replaced; [None] when the loop raises. *)
Definition _capture_variables (self : Tracer) (frame : Frame)
    : option (Dict.t Variable_ * Tracer) :=
  match captured (previous_variables self) frame with
  | Some variables =>
      let self :=
        set_previous_variables self
          (map (fun '(name, var) => (name, value var)) (Dict.items variables)) in
      Some (variables, self)
  | None => None
  end.

(** [Tracer._generate_explanation]; [None] when formatting [arg] raises. *)
Definition _generate_explanation (step_type : StepType) (line_content : string)
    (variables : Dict.t Variable_) (arg : pyvalue) : option string :=
  let stripped := PyStr.strip line_content in
  match step_type with
  | ASSIGNMENT =>
      let changed := filter Models.changed (Dict.values variables) in
      let fallback := Some ("Assignment: " ++ stripped) in
      match changed with
      | var :: _ => Some ("Set " ++ name var ++ " to " ++ repr_value var)
      | [] =>
          if PyStr.contains "=" stripped then
            match PyStr.split1 "=" stripped with
            | [part0; _] =>
                let var_name := PyStr.strip part0 in
                match Dict.get variables var_name with
                | Some var => Some ("Set " ++ var_name ++ " to " ++ repr_value var)
                | None => fallback
                end
            | _ => fallback
            end
          else fallback
      end
  | LOOP_START =>
      if PyStr.startswith stripped "for "
      then Some ("Starting loop: " ++ stripped)
      else Some ("Checking loop condition: " ++ stripped)
  | CONDITION => Some ("Evaluating condition: " ++ stripped)
  | CALL => Some "Calling function"
  | RETURN =>
      if negb (Builtins.is_None arg) then
        match Builtins.repr arg with
        | Some r => Some ("Returning: " ++ r)
        | None => None
        end
      else Some "Returning from function"
  | EXCEPTION =>
      if Builtins.truthy arg then
        match Builtins.str arg with
        | Some s => Some ("Exception: " ++ s)
        | None => None
        end
      else Some "Exception occurred"
  | _ =>
      if negb (String.eqb stripped EmptyString)
      then Some ("Executing: " ++ stripped)
      else Some "Empty line"
  end.

(** What a call of the trace function gives back to the interpreter:
    itself, [None], or an exception. *)
Inductive Signal : Type :=
| keep_tracing | stop_tracing | callback_raises.

(** [Tracer._trace_callback] *)
Definition _trace_callback (self : Tracer) (frame : Frame) (event : Event)
    (arg : pyvalue) : Tracer * Signal :=
  if _stopped self || (max_steps self <=? step_count self)
  then (set_stopped self true, stop_tracing)
  else if negb (String.eqb (co_filename frame) (traced_filename self))
  then (self, keep_tracing)
  else
    let line_no := f_lineno frame in
    let line_content :=
      if (1 <=? line_no) && (line_no <=? Z.of_nat (List.length (code_lines self)))
      then nth (Z.to_nat (line_no - 1)) (code_lines self) EmptyString
      else EmptyString in
    let '(step_type, self) :=
      match event with
      | ev_call => (CALL, set_call_depth self (call_depth self + 1))
      | ev_return => (RETURN, set_call_depth self (Z.max 0 (call_depth self - 1)))
      | ev_exception => (EXCEPTION, self)
      | _ => (_determine_line_type line_content, self)
      end in
    match _capture_variables self frame with
    | None => (self, callback_raises)
    | Some (variables, self) =>
        match _generate_explanation step_type line_content variables arg with
        | None => (self, callback_raises)
        | Some explanation =>
            let self := set_step_count self (step_count self + 1) in
            match StringIO.getvalue (output_buffer self) with
            | None => (self, callback_raises)
            | Some output =>
                let step :=
                  {| step_number := step_count self;
                     line_number := line_no;
                     line_content := line_content;
                     step_type := step_type;
                     variables := variables;
                     output := output;
                     return_value :=
                       match event with ev_return => arg | _ => PyNone end;
                     exception := None;
                     function_name :=
                       if negb (String.eqb (co_name frame) "<module>")
                       then Some (co_name frame) else None;
                     Models.call_depth := call_depth self;
                     explanation := explanation |} in
                let self := steps_append self step in
                let self := set_current_variables self variables in
                (self, keep_tracing)
            end
        end
    end.

(** A call of the trace function, as the interpreter makes it. *)
Definition CallbackCall : Type := (Frame * Event * pyvalue)%type.

(** [sys.settrace(self._trace_callback); exec(compiled, ...)] with the
    [finally: sys.settrace(None)]: the tracer after the run, the calls of
    the trace function that were made, and how the run ended.  Every event
    of the run is offered to the trace function, also after it has answered
    [None]: from then on it is latched and a call changes nothing. *)
Fixpoint exec_traced (self : Tracer) (program : Execution)
    : Tracer * list CallbackCall * Finish :=
  match program with
  | Finishes f => (streams self (last_stream_calls f), [], f)
  | Fires stream_calls frame event arg resumes on_fault =>
      let self := streams self stream_calls in
      let '(self, signal) := _trace_callback self frame event arg in
      match signal with
      | callback_raises =>
          (streams self (last_stream_calls on_fault), [(frame, event, arg)],
           on_fault)
      | _ =>
          let '(self, calls, f) := exec_traced self resumes in
          (self, (frame, event, arg) :: calls, f)
      end
  end.

(** What [Tracer.trace] lets through to its caller instead of returning. *)
Inductive Fault : Type :=
| compile_raises (kind : string)       (* [compile] raises no [SyntaxError] *)
| not_an_Exception (e : PyException)   (* [except Exception] does not match *)
| str_raises (e : PyException)         (* [str(e)] raises in the handler *)
| final_variables_raise                (* the loop over [exec_locals] raises *)
| buffer_closed.                       (* [getvalue()] of the closed buffer *)

Inductive Result : Type :=
| Returns (t : ExecutionTrace)
| Propagates (f : Fault).

(** One call of [Tracer.trace]: the instance afterwards, the calls of the
    trace function made on the way, and what the caller gets. *)
Record Invocation : Type := {
  self_after : Tracer;
  callback_calls : list CallbackCall;
  result : Result
}.

(** The assignments that open [Tracer.trace]. *)
Definition reset (self : Tracer) (code : string) : Tracer :=
  {| max_steps := max_steps self;
     steps := [];
     step_count := 0;
     code_lines := PyStr.split PyStr.newline (PyStr.strip code);
     previous_variables := Dict.empty;
     current_variables := Dict.empty;
     output_buffer := StringIO.new;
     call_depth := 0;
     traced_filename := traced_filename self;
     _stopped := false |}.

(** [e.lineno] inside an f-string. *)
Definition format_lineno (lineno : option Z) : string :=
  match lineno with
  | Some n => PyStr.of_int n
  | None => "None"
  end.

(** [f"SyntaxError: {e.msg} (line {e.lineno})"] *)
Definition syntax_error_message (e : SyntaxError) : string :=
  "SyntaxError: " ++ msg e ++ " (line " ++ format_lineno (lineno e) ++ ")".

(** [steps[-1]] of a list that may be empty. *)
Definition last_step (steps : list ExecutionStep) : option ExecutionStep :=
  match rev steps with
  | step :: _ => Some step
  | [] => None
  end.

(** The [except Exception as e] clause of [Tracer.trace], after
    [error_message] is computed: [if self.steps: self.steps.append(...)]. *)
Definition add_exception_step (self : Tracer) (e : PyException)
    (error_message : string) : Tracer :=
  match last_step (steps self) with
  | Some last_step =>
      steps_append self
        {| step_number := Z.of_nat (List.length (steps self)) + 1;
           line_number := line_number last_step;
           line_content := line_content last_step;
           step_type := EXCEPTION;
           variables := current_variables self;
           output := EmptyString;
           return_value := PyNone;
           exception := Some e;
           function_name := None;
           Models.call_depth := 0;
           explanation := "Exception raised: " ++ error_message |}
  | None => self
  end.

(** The body of the loop that builds [final_vars] from [exec_locals];
    [None] when it raises. *)
Definition final_binding (final_vars : Dict.t Variable_)
    (binding : string * pyvalue) : option (Dict.t Variable_) :=
  let '(name, value) := binding in
  if negb (PyStr.startswith name "_")
  then
    match from_value name value PyNone with
    | Some var => Some (Dict.set final_vars name var)
    | None => None
    end
  else Some final_vars.

(** The loop that builds [final_vars]; [None] when it raises, which it
    does at a key that is no [str] and when the body does. *)
Definition final_variables_of (f : Finish) : option (Dict.t Variable_) :=
  match exec_locals_other_keys f with
  | [] => fold_raising final_binding (Dict.items (exec_locals f)) Dict.empty
  | _ :: _ => None
  end.

(** The end of [Tracer.trace]: the loop over [exec_locals] and the
    [return ExecutionTrace(...)], neither of them inside a [try]. *)
Definition finished_trace (self : Tracer) (code : string) (f : Finish)
    (success : bool) (error_message : string) : Result :=
  match final_variables_of f with
  | None => Propagates final_variables_raise
  | Some final_vars =>
      match StringIO.getvalue (output_buffer self) with
      | None => Propagates buffer_closed
      | Some final_output =>
          Returns
            {| code := code;
               Models.steps := steps self;
               final_output := final_output;
               final_variables := final_vars;
               success := success;
               error_message := error_message;
               total_lines := Z.of_nat (List.length (code_lines self)) |}
      end
  end.

(** [Tracer.trace(code)], with the interpreter's [compile] given. *)
Definition trace (compile : Compiler) (self : Tracer) (code : string) : Invocation :=
  let self := reset self code in
  match compile code (traced_filename self) with
  | RaisesSyntaxError e =>
      {| self_after := self;
         callback_calls := [];
         result :=
           Returns
             {| code := code;
                Models.steps := [];
                final_output := EmptyString;
                final_variables := Dict.empty;
                success := false;
                error_message := syntax_error_message e;
                total_lines := Z.of_nat (List.length (code_lines self)) |} |}
  | RaisesAnother kind =>
      {| self_after := self;
         callback_calls := [];
         result := Propagates (compile_raises kind) |}
  | Compiled program =>
      let '(self, calls, f) := exec_traced self program in
      match raised f with
      | None =>
          {| self_after := self;
             callback_calls := calls;
             result := finished_trace self code f true EmptyString |}
      | Some e =>
          if exc_is_Exception e then
            match exc_str e with
            | Some message =>
                let error_message := exc_type_name e ++ ": " ++ message in
                let self := add_exception_step self e error_message in
                {| self_after := self;
                   callback_calls := calls;
                   result := finished_trace self code f false error_message |}
            | None =>
                {| self_after := self;
                   callback_calls := calls;
                   result := Propagates (str_raises e) |}
            end
          else
            {| self_after := self;
               callback_calls := calls;
               result := Propagates (not_an_Exception e) |}
      end
  end.

End Tracer.

(* ================================================================== *)
(** ** visualizer.py: the data side *)

Module Visualizer.
Import Models.

Definition theme_dark : Dict.t string :=
  [("background", "#1e1e1e"); ("foreground", "#d4d4d4");
   ("line_number", "#858585"); ("current_line", "#264f78");
   ("variable", "#9cdcfe"); ("value", "#ce9178"); ("type", "#4ec9b0");
   ("keyword", "#569cd6"); ("string", "#ce9178"); ("number", "#b5cea8");
   ("comment", "#6a9955"); ("changed", "#dcdcaa"); ("error", "#f44747");
   ("success", "#4ec9b0"); ("border", "#3c3c3c"); ("header", "#569cd6")].

Definition theme_light : Dict.t string :=
  [("background", "#ffffff"); ("foreground", "#1e1e1e");
   ("line_number", "#858585"); ("current_line", "#fff3cd");
   ("variable", "#001080"); ("value", "#a31515"); ("type", "#267f99");
   ("keyword", "#0000ff"); ("string", "#a31515"); ("number", "#098658");
   ("comment", "#008000"); ("changed", "#795e26"); ("error", "#d73a49");
   ("success", "#22863a"); ("border", "#d4d4d4"); ("header", "#0000ff")].

Definition theme_colorblind : Dict.t string :=
  [("background", "#1e1e1e"); ("foreground", "#d4d4d4");
   ("line_number", "#858585"); ("current_line", "#3d5a80");
   ("variable", "#98c1d9"); ("value", "#ee6c4d"); ("type", "#e0fbfc");
   ("keyword", "#98c1d9"); ("string", "#ee6c4d"); ("number", "#e0fbfc");
   ("comment", "#858585"); ("changed", "#ffd166"); ("error", "#ef476f");
   ("success", "#06d6a0"); ("border", "#3c3c3c"); ("header", "#98c1d9")].

(** [THEMES] *)
Definition THEMES : Dict.t (Dict.t string) :=
  [("dark", theme_dark); ("light", theme_light); ("colorblind", theme_colorblind)].

(** The attributes of a [Visualizer] instance. *)
Record Visualizer : Type := {
  theme_name : string;
  theme : Dict.t string;
  show_types : bool
}.

(** [Visualizer(theme, show_types)]: [THEMES.get(theme, THEMES["dark"])]. *)
Definition __init__ (theme : string) (show_types : bool) : Visualizer :=
  {| theme_name := theme;
     theme :=
       match Dict.get THEMES theme with
       | Some colors => colors
       | None => theme_dark
       end;
     show_types := show_types |}.






(** [format_value(value, max_length)] *)
Definition format_value (value : string) (max_length : Z) : string :=
  if max_length <? PyStr.len value
  then PyStr.slice_to (max_length - 3) value ++ "..."
  else value.

End Visualizer.

(* ================================================================== *)
(** ** Runs of small programs

    The event streams below are the ones the interpreter produces for the
    quoted sources (module level: [call], one [line] per statement,
    [exception] when a statement raises, [return]), with the calls that
    the statements make on the redirected streams. *)

Module Scenario.
Import Models Host Tracer.

Definition module_frame (lineno : Z) (locals : Dict.t pyvalue) : Frame :=
  {| co_filename := "<explainflow>";
     co_name := "<module>";
     f_lineno := lineno;
     f_locals := locals;
     f_locals_other_keys := [] |}.

Definition compiles_to (program : Execution) : Compiler :=
  fun _ _ => Compiled program.

Definition finishes (locals : Dict.t pyvalue) (e : option PyException) : Finish :=
  {| last_stream_calls := []; exec_locals := locals;
     exec_locals_other_keys := []; raised := e |}.

(** The [(type, value, traceback)] triple of an [exception] event. *)
Definition exc_info (text : string) : pyvalue :=
  PyObject {| ob_type := "tuple"; ob_state := 0; ob_repr := Some text;
              ob_repr_fatal := false; ob_callable := false;
              ob_traced := false; ob_getattr_raises := false;
              ob_truthy := true; ob_compare := by_content;
              ob_deepcopy := fresh_copy; ob_copied := false |}.

Definition ZeroDivisionError : PyException :=
  {| exc_type_name := "ZeroDivisionError";
     exc_str := Some "division by zero";
     exc_is_Exception := true |}.

Definition SystemExit : PyException :=
  {| exc_type_name := "SystemExit";
     exc_str := Some EmptyString;
     exc_is_Exception := false |}.

Definition lines (ls : list string) : string :=
  String.concat (String PyStr.newline EmptyString) ls.

(** [x = 5] *)
Definition assign_code : string := "x = 5".

Definition assign_run : Execution :=
  Fires [] (module_frame 1 []) ev_call PyNone
 (Fires [] (module_frame 1 []) ev_line PyNone
 (Fires [] (module_frame 1 [("x", PyInt 5)]) ev_return PyNone
 (Finishes (finishes [("x", PyInt 5)] None))
   (finishes [("x", PyInt 5)] None))
   (finishes [] None))
   (finishes [] None).

(** [x = None], [x = 5], [y = 0] on three lines *)
Definition rebind_code : string := lines ["x = None"; "x = 5"; "y = 0"].

Definition rebind_run : Execution :=
  let l0 : Dict.t pyvalue := [] in
  let l1 := [("x", PyNone)] in
  let l2 := [("x", PyInt 5)] in
  let l3 := [("x", PyInt 5); ("y", PyInt 0)] in
  Fires [] (module_frame 1 l0) ev_call PyNone
 (Fires [] (module_frame 1 l0) ev_line PyNone
 (Fires [] (module_frame 2 l1) ev_line PyNone
 (Fires [] (module_frame 3 l2) ev_line PyNone
 (Fires [] (module_frame 3 l3) ev_return PyNone
 (Finishes (finishes l3 None))
   (finishes l3 None))
   (finishes l2 None))
   (finishes l1 None))
   (finishes l0 None))
   (finishes l0 None).

(** [print("hi")], [x = 1/0] on two lines *)
Definition failing_code : string := lines ["print('hi')"; "x = 1/0"].

Definition hi : string := String "h" (String "i" (String PyStr.newline EmptyString)).

Definition raising_run (e : PyException) (info : string) : Execution :=
  Fires [] (module_frame 1 []) ev_call PyNone
 (Fires [] (module_frame 1 []) ev_line PyNone
 (Fires [StringIO.do_write hi] (module_frame 2 []) ev_line PyNone
 (Fires [] (module_frame 2 []) ev_exception (exc_info info)
 (Fires [] (module_frame 2 []) ev_return PyNone
 (Finishes (finishes [] (Some e)))
   (finishes [] (Some e)))
   (finishes [] (Some e)))
   (finishes [] (Some e)))
   (finishes [] (Some e)))
   (finishes [] (Some e)).

Definition failing_run : Execution :=
  raising_run ZeroDivisionError "(<class 'ZeroDivisionError'>, ZeroDivisionError('division by zero'), <traceback object>)".

(** [print("hi")], [raise SystemExit] on two lines *)
Definition exiting_code : string := lines ["print('hi')"; "raise SystemExit"].

Definition exiting_run : Execution :=
  raising_run SystemExit "(<class 'SystemExit'>, SystemExit(), <traceback object>)".

(** A function with a condition and a return value:
    [def f(a):], [if a > 0:], [return a + 1], [x = 1], [print(x)],
    [x = 2], [y = f(x)] on seven lines *)
Definition branch_code : string :=
  lines ["def f(a):"; "    if a > 0:"; "        return a + 1";
         "x = 1"; "print(x)"; "x = 2"; "y = f(x)"].

Definition function_f : pyvalue :=
  PyObject {| ob_type := "function"; ob_state := 1;
              ob_repr := Some "<function f at 0x7f0000000000>";
              ob_repr_fatal := false; ob_callable := true;
              ob_traced := false; ob_getattr_raises := false;
              ob_truthy := true; ob_compare := by_identity;
              ob_deepcopy := same_object; ob_copied := false |}.

Definition frame_of_f (lineno : Z) : Frame :=
  {| co_filename := "<explainflow>";
     co_name := "f";
     f_lineno := lineno;
     f_locals := [("a", PyInt 2)];
     f_locals_other_keys := [] |}.

Definition one : string := String "1" (String PyStr.newline EmptyString).

Definition branch_run : Execution :=
  let l0 : Dict.t pyvalue := [] in
  let l1 := [("f", function_f)] in
  let l2 := [("f", function_f); ("x", PyInt 1)] in
  let l3 := [("f", function_f); ("x", PyInt 2)] in
  let l4 := [("f", function_f); ("x", PyInt 2); ("y", PyInt 3)] in
  Fires [] (module_frame 1 l0) ev_call PyNone
 (Fires [] (module_frame 1 l0) ev_line PyNone
 (Fires [] (module_frame 4 l1) ev_line PyNone
 (Fires [] (module_frame 5 l2) ev_line PyNone
 (Fires [StringIO.do_write one] (module_frame 6 l2) ev_line PyNone
 (Fires [] (module_frame 7 l3) ev_line PyNone
 (Fires [] (frame_of_f 1) ev_call PyNone
 (Fires [] (frame_of_f 2) ev_line PyNone
 (Fires [] (frame_of_f 3) ev_line PyNone
 (Fires [] (frame_of_f 3) ev_return (PyInt 3)
 (Fires [] (module_frame 7 l4) ev_return PyNone
 (Finishes (finishes l4 None))
   (finishes l4 None))
   (finishes l3 None))
   (finishes l3 None))
   (finishes l3 None))
   (finishes l3 None))
   (finishes l2 None))
   (finishes l2 None))
   (finishes l2 None))
   (finishes l1 None))
   (finishes l0 None))
   (finishes l0 None).

(** [x = ] does not compile. *)
Definition malformed_code : string := "x = ".

Definition rejects : Compiler :=
  fun _ _ => RaisesSyntaxError {| msg := "invalid syntax"; lineno := Some 1 |}.

(** A [str] of 200 letters: its [repr] has 202 characters. *)
Fixpoint repeat_char (c : ascii) (n : nat) : string :=
  match n with
  | O => EmptyString
  | S n' => String c (repeat_char c n')
  end.

Definition long_string : pyvalue := PyString (repeat_char "a" 200).

(** An object whose [__repr__] raises. *)
Definition unprintable : pyvalue :=
  PyObject {| ob_type := "Broken"; ob_state := 0; ob_repr := None;
              ob_repr_fatal := false; ob_callable := false;
              ob_traced := false; ob_getattr_raises := false;
              ob_truthy := true; ob_compare := by_identity;
              ob_deepcopy := fresh_copy; ob_copied := false |}.

(** An object whose [__repr__] raises [SystemExit]. *)
Definition exiting_repr : pyvalue :=
  PyObject {| ob_type := "Quitter"; ob_state := 0; ob_repr := None;
              ob_repr_fatal := true; ob_callable := false;
              ob_traced := false; ob_getattr_raises := false;
              ob_truthy := true; ob_compare := by_identity;
              ob_deepcopy := fresh_copy; ob_copied := false |}.

(** An instance of [class A: pass]: compared by identity, copied afresh. *)
Definition plain_instance : pyvalue :=
  PyObject {| ob_type := "A"; ob_state := 7;
              ob_repr := Some "<__main__.A object at 0x7f0000000100>";
              ob_repr_fatal := false; ob_callable := false;
              ob_traced := false; ob_getattr_raises := false;
              ob_truthy := true; ob_compare := by_identity;
              ob_deepcopy := fresh_copy; ob_copied := false |}.

(** The module [sys]: compared by identity, and not to be copied. *)
Definition module_sys : pyvalue :=
  PyObject {| ob_type := "module"; ob_state := 2;
              ob_repr := Some "<module 'sys' (built-in)>";
              ob_repr_fatal := false; ob_callable := false;
              ob_traced := false; ob_getattr_raises := false;
              ob_truthy := true; ob_compare := by_identity;
              ob_deepcopy := copy_fails; ob_copied := false |}.

Definition ValueError_closed : PyException :=
  {| exc_type_name := "ValueError";
     exc_str := Some "I/O operation on closed file";
     exc_is_Exception := true |}.

(** [import sys], [sys.stdout.close()], [x = 1/0] on three lines.  The
    trace function raises at the first event that it records after the
    buffer is closed, and the program ends with that [ValueError]; when
    the trace function records no such event the division fails. *)
Definition closing_code : string :=
  lines ["import sys"; "sys.stdout.close()"; "x = 1/0"].

Definition closing_run : Execution :=
  let l0 : Dict.t pyvalue := [] in
  let l1 := [("sys", module_sys)] in
  let info := "(<class 'ZeroDivisionError'>, ZeroDivisionError('division by zero'), <traceback object>)" in
  Fires [] (module_frame 1 l0) ev_call PyNone
 (Fires [] (module_frame 1 l0) ev_line PyNone
 (Fires [] (module_frame 2 l1) ev_line PyNone
 (Fires [StringIO.do_close] (module_frame 3 l1) ev_line PyNone
 (Fires [] (module_frame 3 l1) ev_exception (exc_info info)
 (Fires [] (module_frame 3 l1) ev_return PyNone
 (Finishes (finishes l1 (Some ZeroDivisionError)))
   (finishes l1 (Some ValueError_closed)))
   (finishes l1 (Some ValueError_closed)))
   (finishes l1 (Some ValueError_closed)))
   (finishes l1 None))
   (finishes l0 None))
   (finishes l0 None).

(** [import sys], [print('hi')], [sys.stdout.seek(0)],
    [sys.stdout.truncate()], [y = 0] on five lines. *)
Definition rewinding_code : string :=
  lines ["import sys"; "print('hi')"; "sys.stdout.seek(0)";
         "sys.stdout.truncate()"; "y = 0"].

Definition rewinding_run : Execution :=
  let l0 : Dict.t pyvalue := [] in
  let l1 := [("sys", module_sys)] in
  let l2 := [("sys", module_sys); ("y", PyInt 0)] in
  Fires [] (module_frame 1 l0) ev_call PyNone
 (Fires [] (module_frame 1 l0) ev_line PyNone
 (Fires [] (module_frame 2 l1) ev_line PyNone
 (Fires [StringIO.do_write hi] (module_frame 3 l1) ev_line PyNone
 (Fires [StringIO.do_seek 0] (module_frame 4 l1) ev_line PyNone
 (Fires [StringIO.do_truncate] (module_frame 5 l1) ev_line PyNone
 (Fires [] (module_frame 5 l2) ev_return PyNone
 (Finishes (finishes l2 None))
   (finishes l2 None))
   (finishes l1 None))
   (finishes l1 None))
   (finishes l1 None))
   (finishes l1 None))
   (finishes l0 None))
   (finishes l0 None).

(** A source with a null character: [compile] raises [ValueError]. *)
Definition null_code : string := "x = 1" ++ String (PyStr.chr 0) EmptyString.

Definition refuses : Compiler := fun _ _ => RaisesAnother "ValueError".

(** A [SyntaxError] on line 12, and one that names no line. *)
Definition rejects_at_12 : Compiler :=
  fun _ _ => RaisesSyntaxError {| msg := "invalid syntax"; lineno := Some 12 |}.

Definition rejects_nowhere : Compiler :=
  fun _ _ => RaisesSyntaxError {| msg := "invalid syntax"; lineno := None |}.

(** An object whose [__eq__] raises. *)
Definition quarrelsome : pyvalue :=
  PyObject {| ob_type := "Touchy"; ob_state := 0; ob_repr := Some "<Touchy>";
              ob_repr_fatal := false; ob_callable := false;
              ob_traced := false; ob_getattr_raises := false;
              ob_truthy := true; ob_compare := comparison_raises;
              ob_deepcopy := fresh_copy; ob_copied := false |}.

(** A list, compared by content: [[1, 2]] has the state 12. *)
Definition list_12 : pyvalue :=
  PyObject {| ob_type := "list"; ob_state := 12; ob_repr := Some "[1, 2]";
              ob_repr_fatal := false; ob_callable := false;
              ob_traced := false; ob_getattr_raises := false;
              ob_truthy := true; ob_compare := by_content;
              ob_deepcopy := fresh_copy; ob_copied := false |}.

Definition AttributeError_startswith : PyException :=
  {| exc_type_name := "AttributeError";
     exc_str := Some "'int' object has no attribute 'startswith'";
     exc_is_Exception := true |}.

(** [locals()[1] = 2], [x = 1] on two lines: the namespace of the module
    gets a key that is no [str], and the trace function raises at the next
    event that it records. *)
Definition odd_key_code : string := lines ["locals()[1] = 2"; "x = 1"].

Definition odd_key_run : Execution :=
  let odd lineno :=
    {| co_filename := "<explainflow>"; co_name := "<module>";
       f_lineno := lineno; f_locals := []; f_locals_other_keys := [PyInt 1] |} in
  let ends (e : option PyException) :=
    {| last_stream_calls := []; exec_locals := [("x", PyInt 1)];
       exec_locals_other_keys := [PyInt 1]; raised := e |} in
  let fails :=
    {| last_stream_calls := []; exec_locals := [];
       exec_locals_other_keys := [PyInt 1];
       raised := Some AttributeError_startswith |} in
  Fires [] (module_frame 1 []) ev_call PyNone
 (Fires [] (module_frame 1 []) ev_line PyNone
 (Fires [] (odd 2) ev_line PyNone
 (Fires [] (odd 2) ev_return PyNone
 (Finishes (ends None))
   fails)
   fails)
   (finishes [] None))
   (finishes [] None).

End Scenario.

(* ================================================================== *)
(** ** The properties the specification states of steps and traces *)

Module Spec.
Import Models Host Tracer.

(** The step numbers of a sequence of steps are 1, 2, ..., N. *)
Definition numbered (steps : list ExecutionStep) : Prop :=
  map step_number steps = map Z.of_nat (seq 1 (List.length steps)).

(** A name that follows the internal-naming convention. *)
Definition internal_name (name : string) : bool := PyStr.startswith name "_".

(** A callable that is not marked as a trace target. *)
Definition untraced_callable (value : pyvalue) : bool :=
  Builtins.callable value && negb (Builtins.hasattr_traced value).

(** A variables map without internally named bindings and without
    callables that are no trace targets. *)
Definition visible_only (variables : Dict.t Variable_) : Prop :=
  forall name var,
    In (name, var) (Dict.items variables) ->
    internal_name name = false /\ untraced_callable (value var) = false.

(** The output fields of a sequence of steps grow by appending, up to
    [final]. *)
Definition monotone_output (steps : list ExecutionStep) (final : string) : Prop :=
  (forall i j earlier later,
     (i < j)%nat ->
     nth_error steps i = Some earlier -> nth_error steps j = Some later ->
     String.prefix (output earlier) (output later) = true) /\
  (forall step, In step steps -> String.prefix (output step) final = true).

(** The explanation of a step of one of the three kinds of which the
    specification gives the text. *)
Definition explained (step : ExecutionStep) : Prop :=
  match step_type step with
  | ASSIGNMENT =>
      forall var,
        filter changed (Dict.values (variables step)) = [var] ->
        explanation step = "Set " ++ name var ++ " to " ++ repr_value var
  | RETURN =>
      return_value step <> PyNone ->
      exists printable,
        Builtins.repr (return_value step) = Some printable /\
        explanation step = "Returning: " ++ printable
  | CONDITION =>
      explanation step = "Evaluating condition: " ++ PyStr.strip (line_content step)
  | _ => True
  end.


(** The program has not closed the buffer of the recorder. *)
Definition open (self : Tracer) : Prop :=
  StringIO.closed (output_buffer self) = false.

(** The traced program does nothing to the redirected streams but write
    to them. *)
Definition is_write (c : StringIO.Call) : bool :=
  match c with StringIO.do_write _ => true | _ => false end.

Fixpoint only_writes (program : Execution) : Prop :=
  match program with
  | Finishes f => forallb is_write (last_stream_calls f) = true
  | Fires stream_calls _ _ _ resumes on_fault =>
      forallb is_write stream_calls = true /\
      only_writes resumes /\
      forallb is_write (last_stream_calls on_fault) = true
  end.

(** The failure that escapes the run, if there is one, is an [Exception]
    with a message that [str] gives. *)
Definition caught (f : Finish) : Prop :=
  match raised f with
  | None => True
  | Some e => exc_is_Exception e = true /\ exc_str e <> None
  end.

(** [Variable.from_value(name, value)] makes a snapshot of the value:
    neither [repr] nor [copy.deepcopy] fails outside [Exception]. *)
Definition snapshot_builds (value : pyvalue) : Prop :=
  Builtins.repr_fatal value = false /\ Builtins.deepcopy value <> RaisesOther.

(** The end of [Tracer.trace] goes through after a run that ended as [f]
    and left the recorder as [recorder]: every key of [exec_locals] is a
    [str], every value under a key without a leading underscore can be
    made a snapshot of, and the buffer is not closed. *)
Definition assembles (recorder : Tracer) (f : Finish) : Prop :=
  exec_locals_other_keys f = [] /\
  (forall name value,
     In (name, value) (Dict.items (exec_locals f)) ->
     PyStr.startswith name "_" = false ->
     snapshot_builds value) /\
  open recorder.

(** The condition under which a call of [Tracer.trace] returns: the
    source is compiled or rejected with a [SyntaxError] and, when it is
    compiled, the failure that escapes the run, if any, is caught and the
    end of [Tracer.trace] goes through. *)
Definition returns_a_trace (compile : Compiler) (self : Tracer) (code : string)
    : Prop :=
  match compile code (traced_filename self) with
  | RaisesSyntaxError _ => True
  | RaisesAnother _ => False
  | Compiled program =>
      let run := exec_traced (reset self code) program in
      caught (snd run) /\ assembles (fst (fst run)) (snd run)
  end.

(** Invariants of the recorder between two events. *)

(** [step_count] counts the recorded steps, which are numbered from 1. *)
Definition counted (self : Tracer) : Prop :=
  step_count self = Z.of_nat (List.length (Tracer.steps self)) /\
  numbered (Tracer.steps self).

(** [step_count] stays below the ceiling [m] of the instance. *)
Definition below_ceiling (m : Z) (self : Tracer) : Prop :=
  max_steps self = m /\ step_count self <= Z.max 0 m.

(** The buffer is open with its position at its end, and the outputs of
    the recorded steps grow up to its text. *)
Definition buffered (self : Tracer) : Prop :=
  StringIO.closed (output_buffer self) = false /\
  StringIO.position (output_buffer self)
  = String.length (StringIO.content (output_buffer self)) /\
  monotone_output (Tracer.steps self) (StringIO.content (output_buffer self)).

(** Only visible bindings are kept, in the steps and in
    [current_variables]. *)
Definition screened (self : Tracer) : Prop :=
  Forall (fun step => visible_only (variables step)) (Tracer.steps self) /\
  visible_only (current_variables self).

(** Every recorded step carries the explanation of its kind. *)
Definition all_explained (self : Tracer) : Prop :=
  Forall explained (Tracer.steps self).



End Spec.

(* ================================================================== *)
(** ** The recorder, event by event *)

Module Effect.
Import Models Host Tracer Spec.

(** The line content that [_trace_callback] resolves for a line number. *)
Definition line_at (code_lines : list string) (line_no : Z) : string :=
  if (1 <=? line_no) && (line_no <=? Z.of_nat (List.length code_lines))
  then nth (Z.to_nat (line_no - 1)) code_lines EmptyString
  else EmptyString.

(** The step type that [_trace_callback] determines for an event. *)
Definition kind_of (event : Event) (line_content : string) : StepType :=
  match event with
  | ev_call => CALL
  | ev_return => RETURN
  | ev_exception => EXCEPTION
  | _ => _determine_line_type line_content
  end.

(** [self.call_depth] after the event. *)
Definition depth_after (depth : Z) (event : Event) : Z :=
  match event with
  | ev_call => depth + 1
  | ev_return => Z.max 0 (depth - 1)
  | _ => depth
  end.

(** [{name: var.value for name, var in variables.items()}] *)
Definition snapshot (variables : Dict.t Variable_) : Dict.t pyvalue :=
  map (fun '(name, var) => (name, value var)) (Dict.items variables).

(** The step that [_trace_callback] appends for an event of the traced
    file, with the captured variables [vars], the explanation [text] and
    the text [out] of the buffer. *)
Definition recorded_step (self : Tracer) (frame : Frame) (event : Event)
    (arg : pyvalue) (vars : Dict.t Variable_) (text out : string)
    : ExecutionStep :=
  {| step_number := step_count self + 1;
     line_number := f_lineno frame;
     line_content := line_at (code_lines self) (f_lineno frame);
     step_type := kind_of event (line_at (code_lines self) (f_lineno frame));
     variables := vars;
     output := out;
     return_value := match event with ev_return => arg | _ => PyNone end;
     exception := None;
     function_name :=
       if negb (String.eqb (co_name frame) "<module>")
       then Some (co_name frame) else None;
     Models.call_depth := depth_after (Tracer.call_depth self) event;
     explanation := text |}.

(** The recorder when the variables of an event are about to be captured. *)
Definition before_capture (self : Tracer) (event : Event) : Tracer :=
  {| max_steps := max_steps self; Tracer.steps := Tracer.steps self;
     step_count := step_count self; code_lines := code_lines self;
     previous_variables := previous_variables self;
     current_variables := current_variables self;
     output_buffer := output_buffer self;
     Tracer.call_depth := depth_after (Tracer.call_depth self) event;
     traced_filename := traced_filename self;
     _stopped := _stopped self |}.

(** The recorder after the variables [vars] of an event are captured. *)
Definition after_capture (self : Tracer) (event : Event)
    (vars : Dict.t Variable_) : Tracer :=
  {| max_steps := max_steps self; Tracer.steps := Tracer.steps self;
     step_count := step_count self; code_lines := code_lines self;
     previous_variables := snapshot vars;
     current_variables := current_variables self;
     output_buffer := output_buffer self;
     Tracer.call_depth := depth_after (Tracer.call_depth self) event;
     traced_filename := traced_filename self;
     _stopped := _stopped self |}.

(** The recorder after the event is counted. *)
Definition after_count (self : Tracer) (event : Event)
    (vars : Dict.t Variable_) : Tracer :=
  {| max_steps := max_steps self; Tracer.steps := Tracer.steps self;
     step_count := step_count self + 1; code_lines := code_lines self;
     previous_variables := snapshot vars;
     current_variables := current_variables self;
     output_buffer := output_buffer self;
     Tracer.call_depth := depth_after (Tracer.call_depth self) event;
     traced_filename := traced_filename self;
     _stopped := _stopped self |}.

(** The recorder after the step of an event is appended. *)
Definition after_record (self : Tracer) (frame : Frame) (event : Event)
    (arg : pyvalue) (vars : Dict.t Variable_) (text out : string) : Tracer :=
  {| max_steps := max_steps self;
     Tracer.steps :=
       Tracer.steps self ++ [recorded_step self frame event arg vars text out];
     step_count := step_count self + 1; code_lines := code_lines self;
     previous_variables := snapshot vars;
     current_variables := vars;
     output_buffer := output_buffer self;
     Tracer.call_depth := depth_after (Tracer.call_depth self) event;
     traced_filename := traced_filename self;
     _stopped := _stopped self |}.

(** The explanation that [_trace_callback] asks for. *)
Definition explanation_of (self : Tracer) (frame : Frame) (event : Event)
    (arg : pyvalue) (vars : Dict.t Variable_) : option string :=
  _generate_explanation
    (kind_of event (line_at (code_lines self) (f_lineno frame)))
    (line_at (code_lines self) (f_lineno frame)) vars arg.

(** The six ways of one call of [_trace_callback], each with its condition
    and its whole effect: the stop is latched; the frame is of another
    file; the capture of the variables raises; the making of the
    explanation raises; [getvalue()] raises because the buffer is closed,
    after the event is counted; the step is appended. *)
Inductive callback_effect (self : Tracer) (frame : Frame) (event : Event)
    (arg : pyvalue) : Tracer * Signal -> Prop :=
| effect_latched :
    _stopped self = true \/ max_steps self <= step_count self ->
    callback_effect self frame event arg (set_stopped self true, stop_tracing)
| effect_foreign :
    _stopped self = false -> step_count self < max_steps self ->
    co_filename frame <> traced_filename self ->
    callback_effect self frame event arg (self, keep_tracing)
| effect_uncaptured :
    _stopped self = false -> step_count self < max_steps self ->
    co_filename frame = traced_filename self ->
    captured (previous_variables self) frame = None ->
    callback_effect self frame event arg
      (before_capture self event, callback_raises)
| effect_unexplained (vars : Dict.t Variable_) :
    _stopped self = false -> step_count self < max_steps self ->
    co_filename frame = traced_filename self ->
    captured (previous_variables self) frame = Some vars ->
    explanation_of self frame event arg vars = None ->
    callback_effect self frame event arg
      (after_capture self event vars, callback_raises)
| effect_closed (vars : Dict.t Variable_) (text : string) :
    _stopped self = false -> step_count self < max_steps self ->
    co_filename frame = traced_filename self ->
    captured (previous_variables self) frame = Some vars ->
    explanation_of self frame event arg vars = Some text ->
    StringIO.closed (output_buffer self) = true ->
    callback_effect self frame event arg
      (after_count self event vars, callback_raises)
| effect_recorded (vars : Dict.t Variable_) (text : string) :
    _stopped self = false -> step_count self < max_steps self ->
    co_filename frame = traced_filename self ->
    captured (previous_variables self) frame = Some vars ->
    explanation_of self frame event arg vars = Some text ->
    StringIO.closed (output_buffer self) = false ->
    callback_effect self frame event arg
      (after_record self frame event arg vars text
                    (StringIO.content (output_buffer self)),
       keep_tracing).

(** The step types that the recorder produces. *)
Definition produced_kind (k : StepType) : bool :=
  match k with
  | LOOP_ITERATION | LOOP_END => false
  | _ => true
  end.

(** The printable representation that [Variable.from_value] gives a
    value, when it returns. *)
Definition printable (value : pyvalue) : string :=
  match Builtins.repr value with
  | Some r => if 100 <? PyStr.len r then PyStr.take 97 r ++ "..." else r
  | None => "<repr error>"
  end.

(** What [Variable.from_value] keeps of a value: the copy that
    [copy.deepcopy] makes, or the value itself when there is none. *)
Definition kept (value : pyvalue) : pyvalue :=
  match Builtins.deepcopy value with
  | Ok copy => copy
  | _ => value
  end.

(** A value as the recorder holds it: an object that [deepcopy] copies
    afresh is held as a copy. *)
Definition held (value : pyvalue) : Prop :=
  match value with
  | PyObject o => ob_copied o = true \/ ob_deepcopy o <> fresh_copy
  | _ => True
  end.

(** A variables map made of snapshots built by [Variable.from_value], one
    per name. *)
Definition built (variables : Dict.t Variable_) : Prop :=
  NoDup (Dict.keys variables) /\
  forall key var,
    In (key, var) (Dict.items variables) ->
    exists value previous, from_value key value previous = Some var.

(** The changed flags of [later] are those of a comparison with the values
    of [earlier]. *)
Definition changed_since (earlier later : Dict.t Variable_) : Prop :=
  forall key var,
    In (key, var) (Dict.items later) ->
    (changed var = true <->
     exists old,
       Dict.get earlier key = Some old /\
       value old <> PyNone /\
       Builtins.ne (value old) (value var) = true).

(** Each step's changed flags compare with the step before it. *)
Definition linked (steps : list ExecutionStep) : Prop :=
  (forall first,
     nth_error steps 0 = Some first ->
     changed_since Dict.empty (variables first)) /\
  (forall k earlier later,
     nth_error steps k = Some earlier ->
     nth_error steps (S k) = Some later ->
     changed_since (variables earlier) (variables later)).

(** Invariants of the recorder between two events. *)

Definition depth_kept (self : Tracer) : Prop :=
  0 <= Tracer.call_depth self /\
  Forall (fun step => 0 <= Models.call_depth step) (Tracer.steps self).

Definition lines_kept (lines : list string) (self : Tracer) : Prop :=
  code_lines self = lines /\
  Forall (fun step => line_content step = line_at lines (line_number step))
         (Tracer.steps self).

Definition snapshots_kept (self : Tracer) : Prop :=
  Forall (fun step => built (variables step)) (Tracer.steps self) /\
  built (current_variables self).

Definition kinds_kept (self : Tracer) : Prop :=
  Forall (fun step =>
            produced_kind (step_type step) = true /\
            explanation step <> EmptyString /\
            exception step = None)
         (Tracer.steps self).

Definition configured (m : Z) (filename : string) (self : Tracer) : Prop :=
  max_steps self = m /\ traced_filename self = filename.

Definition chained (self : Tracer) : Prop :=
  linked (Tracer.steps self) /\
  built (current_variables self) /\
  previous_variables self = snapshot (current_variables self) /\
  match last_step (Tracer.steps self) with
  | Some step => variables step = current_variables self
  | None => current_variables self = Dict.empty
  end.

(** The calls of the trace function with a frame of the file [filename]. *)
Definition own_calls (filename : string) (calls : list CallbackCall) : nat :=
  List.length
    (filter (fun '(frame, _, _) => String.eqb (co_filename frame) filename) calls).

(** The call depth of a step, from the depth [before] it and its kind. *)
Definition depth_step (before : Z) (step : ExecutionStep) : Prop :=
  Models.call_depth step =
  match step_type step with
  | CALL => before + 1
  | RETURN => Z.max 0 (before - 1)
  | _ => before
  end.

(** The call depths of a sequence of steps follow from one another,
    starting from depth 0. *)
Definition depth_linked (steps : list ExecutionStep) : Prop :=
  (forall first, nth_error steps 0 = Some first -> depth_step 0 first) /\
  (forall k earlier later,
     nth_error steps k = Some earlier ->
     nth_error steps (S k) = Some later ->
     depth_step (Models.call_depth earlier) later).

Definition depth_chained (self : Tracer) : Prop :=
  depth_linked (Tracer.steps self) /\
  Tracer.call_depth self =
  match last_step (Tracer.steps self) with
  | Some step => Models.call_depth step
  | None => 0
  end.

(** The [ExecutionTrace] that [Tracer.trace] returns from the recorder
    [recorder], the final variables [final_vars] and the text [out] of the
    buffer. *)
Definition assembled (recorder : Tracer) (code : string)
    (final_vars : Dict.t Variable_) (out : string) (success : bool)
    (error_message : string) : ExecutionTrace :=
  {| code := code;
     Models.steps := Tracer.steps recorder;
     final_output := out;
     final_variables := final_vars;
     success := success;
     error_message := error_message;
     total_lines := Z.of_nat (List.length (code_lines recorder)) |}.

(** How [Tracer.trace] ended, when it returned [t]. *)
Inductive trace_ending (compile : Compiler) (self : Tracer) (code : string)
    (t : ExecutionTrace) : Prop :=
| ended_unparsed (e : SyntaxError) :
    compile code (traced_filename self) = RaisesSyntaxError e ->
    trace compile self code
    = {| self_after := reset self code;
         callback_calls := [];
         result := Returns t |} ->
    t = {| code := code; Models.steps := []; final_output := EmptyString;
           final_variables := Dict.empty; success := false;
           error_message := syntax_error_message e;
           total_lines := Z.of_nat (List.length (code_lines (reset self code))) |} ->
    trace_ending compile self code t
| ended_well (program : Execution) (recorder : Tracer)
    (calls : list CallbackCall) (f : Finish)
    (final_vars : Dict.t Variable_) (out : string) :
    compile code (traced_filename self) = Compiled program ->
    exec_traced (reset self code) program = (recorder, calls, f) ->
    raised f = None ->
    final_variables_of f = Some final_vars ->
    StringIO.getvalue (output_buffer recorder) = Some out ->
    trace compile self code
    = {| self_after := recorder; callback_calls := calls; result := Returns t |} ->
    t = assembled recorder code final_vars out true EmptyString ->
    trace_ending compile self code t
| ended_badly (program : Execution) (recorder : Tracer)
    (calls : list CallbackCall) (f : Finish) (e : PyException)
    (message : string) (final_vars : Dict.t Variable_) (out : string) :
    compile code (traced_filename self) = Compiled program ->
    exec_traced (reset self code) program = (recorder, calls, f) ->
    raised f = Some e ->
    exc_is_Exception e = true ->
    exc_str e = Some message ->
    final_variables_of f = Some final_vars ->
    StringIO.getvalue (output_buffer recorder) = Some out ->
    trace compile self code
    = {| self_after :=
           add_exception_step recorder e (exc_type_name e ++ ": " ++ message);
         callback_calls := calls; result := Returns t |} ->
    t = assembled
          (add_exception_step recorder e (exc_type_name e ++ ": " ++ message))
          code final_vars out false (exc_type_name e ++ ": " ++ message) ->
    trace_ending compile self code t.

(** The step that [Tracer.trace] appends after a caught failure. *)
Definition added_step (recorder : Tracer) (e : PyException)
    (error_message : string) (last : ExecutionStep) : ExecutionStep :=
  {| step_number := Z.of_nat (List.length (Tracer.steps recorder)) + 1;
     line_number := line_number last;
     line_content := line_content last;
     step_type := EXCEPTION;
     variables := current_variables recorder;
     output := EmptyString;
     return_value := PyNone;
     exception := Some e;
     function_name := None;
     Models.call_depth := 0;
     explanation := "Exception raised: " ++ error_message |}.

(** All the invariants together, for a recorder with ceiling [m] that
    traces the lines [lines]. *)
Definition sound (m : Z) (lines : list string) (recorder : Tracer) : Prop :=
  counted recorder /\
  below_ceiling m recorder /\
  depth_kept recorder /\
  lines_kept lines recorder /\
  snapshots_kept recorder /\
  kinds_kept recorder /\
  linked (Tracer.steps recorder) /\
  depth_linked (Tracer.steps recorder).

(** The steps of a returned trace: those of the recorder, with the added
    step when a failure was caught and the recorder held a step. *)
Inductive trace_steps (recorder : Tracer) (t : ExecutionTrace) : Prop :=
| steps_as_recorded :
    Models.steps t = Tracer.steps recorder ->
    success t = true \/ Tracer.steps recorder = [] ->
    trace_steps recorder t
| steps_and_added (e : PyException) (error_message : string)
    (last : ExecutionStep) :
    success t = false ->
    last_step (Tracer.steps recorder) = Some last ->
    Models.steps t
    = (Tracer.steps recorder ++ [added_step recorder e error_message last])%list ->
    trace_steps recorder t.

(** [current_variables] holds the variables of the last recorded step. *)
Definition current_kept (self : Tracer) : Prop :=
  match last_step (Tracer.steps self) with
  | Some step => variables step = current_variables self
  | None => current_variables self = Dict.empty
  end.

(** The explanation of a step of a kind whose text needs nothing but the
    step itself. *)
Definition told (step : ExecutionStep) : Prop :=
  let stripped := PyStr.strip (line_content step) in
  match step_type step with
  | CALL => explanation step = "Calling function"
  | LOOP_START =>
      explanation step
      = if PyStr.startswith stripped "for "
        then "Starting loop: " ++ stripped
        else "Checking loop condition: " ++ stripped
  | LINE =>
      explanation step
      = if negb (String.eqb stripped EmptyString)
        then "Executing: " ++ stripped
        else "Empty line"
  | RETURN =>
      return_value step = PyNone ->
      explanation step = "Returning from function"
  | _ => True
  end.

Definition told_kept (self : Tracer) : Prop :=
  Forall told (Tracer.steps self).

(** [chosen l l']: the list [l] is made of elements of [l'], in their
    order. *)
Inductive chosen {A : Type} : list A -> list A -> Prop :=
| chosen_nil : chosen [] []
| chosen_take (x : A) (l l' : list A) : chosen l l' -> chosen (x :: l) (x :: l')
| chosen_skip (x : A) (l l' : list A) : chosen l l' -> chosen l (x :: l').



End Effect.

(* ================================================================== *)
(** * Properties *)

Import Models Host Tracer Spec Effect.

(** ** Strings *)

Section StringFacts.

Lemma prefix_nil (s : string) : String.prefix EmptyString s = true.
Proof. destruct s; reflexivity. Qed.

Lemma prefix_cons (a b : ascii) (p s : string) :
  String.prefix (String a p) (String b s) = true <-> a = b /\ String.prefix p s = true.
Proof.
  simpl. destruct (ascii_dec a b) as [->|Hne].
  - tauto.
  - split; [discriminate | intros [E _]; contradiction].
Qed.

Lemma prefix_refl (s : string) : String.prefix s s = true.
Proof.
  induction s as [|a s IH]; [reflexivity|].
  apply prefix_cons. auto.
Qed.

Lemma prefix_app (p s t : string) :
  String.prefix p s = true -> String.prefix p (s ++ t) = true.
Proof.
  revert s. induction p as [|a p IH]; intros s H.
  - apply prefix_nil.
  - destruct s as [|b s]; [discriminate|].
    apply prefix_cons in H as [-> H]. simpl append.
    apply prefix_cons. auto.
Qed.

Lemma prefix_app_self (s t : string) : String.prefix s (s ++ t) = true.
Proof. apply prefix_app, prefix_refl. Qed.

Lemma prefix_trans (p q s : string) :
  String.prefix p q = true -> String.prefix q s = true -> String.prefix p s = true.
Proof.
  revert q s. induction p as [|a p IH]; intros q s Hpq Hqs.
  - apply prefix_nil.
  - destruct q as [|b q]; [discriminate|].
    destruct s as [|c s]; [discriminate|].
    apply prefix_cons in Hpq as [-> Hpq].
    apply prefix_cons in Hqs as [-> Hqs].
    apply prefix_cons. eauto.
Qed.

Lemma append_assoc (a b c : string) : (a ++ b) ++ c = a ++ (b ++ c).
Proof. induction a as [|x a IH]; simpl; [reflexivity | now rewrite IH]. Qed.

Lemma append_nil_r (a : string) : a ++ EmptyString = a.
Proof. induction a as [|x a IH]; simpl; [reflexivity | now rewrite IH]. Qed.

Lemma length_append (a b : string) :
  String.length (a ++ b) = (String.length a + String.length b)%nat.
Proof. induction a as [|x a IH]; simpl; [reflexivity | now rewrite IH]. Qed.

Lemma contains_prefix (sub s : string) :
  String.prefix sub s = true -> PyStr.contains sub s = true.
Proof. intros H. destruct s; cbn [PyStr.contains]; rewrite H; reflexivity. Qed.

(** [sub in (before + sub + after)] *)
Lemma contains_infix (sub before after : string) :
  PyStr.contains sub (before ++ sub ++ after) = true.
Proof.
  induction before as [|c before IH]; simpl append.
  - apply contains_prefix, prefix_app_self.
  - simpl. rewrite IH. apply orb_true_r.
Qed.

(** [len(s[:n]) == n] when [s] has at least [n] characters. *)
Lemma length_take (n : nat) (s : string) :
  (n <= String.length s)%nat -> String.length (PyStr.take n s) = n.
Proof.
  unfold PyStr.take. revert s. induction n as [|n IH]; intros s H.
  - destruct s; reflexivity.
  - destruct s as [|c s]; simpl in *; [lia|]. rewrite IH; lia.
Qed.

Lemma take_all (s t : string) : PyStr.take (String.length s) (s ++ t) = s.
Proof.
  unfold PyStr.take. induction s as [|c s IH]; simpl.
  - destruct t; reflexivity.
  - now rewrite IH.
Qed.

Lemma drop_all (s : string) (n : nat) :
  PyStr.drop (String.length s + n) s = EmptyString.
Proof. induction s as [|c s IH]; simpl; [destruct n; reflexivity | exact IH]. Qed.

End StringFacts.

(** ** The buffer *)

(** A write at the end of an open buffer appends, and leaves the position
    at the end. *)
Lemma write_at_end (b : StringIO.t) (text : string) :
  StringIO.closed b = false ->
  StringIO.position b = String.length (StringIO.content b) ->
  StringIO.write b text
  = {| StringIO.content := StringIO.content b ++ text;
       StringIO.position := String.length (StringIO.content b ++ text);
       StringIO.closed := false |}.
Proof.
  intros Hopen Hpos. unfold StringIO.write. rewrite Hopen, Hpos, Nat.sub_diag.
  simpl PyStr.times. rewrite append_nil_r.
  rewrite <- (append_nil_r (StringIO.content b)) at 2.
  rewrite take_all, drop_all, append_nil_r, length_append. reflexivity.
Qed.

(** No call reopens a closed buffer. *)
Lemma call_closed (b : StringIO.t) (c : StringIO.Call) :
  StringIO.closed b = true -> StringIO.closed (StringIO.call b c) = true.
Proof.
  intros H. destruct c; simpl;
    unfold StringIO.write, StringIO.seek, StringIO.truncate, StringIO.close;
    try rewrite H; auto.
Qed.

(** ** The embedding on the inputs of the test suite *)

Example repr_of_int : Builtins.repr (PyInt (-42)) = Some "-42".
Proof. reflexivity. Qed.

Example repr_of_str : Builtins.repr (PyString "hello") = Some "'hello'".
Proof. reflexivity. Qed.

Example strip_of_line : PyStr.strip "    if a > 0:  " = "if a > 0:".
Proof. reflexivity. Qed.

Example split_of_code :
  PyStr.split PyStr.newline Scenario.failing_code = ["print('hi')"; "x = 1/0"].
Proof. reflexivity. Qed.

Example line_types :
  map _determine_line_type
      ["x = 5"; "total += i"; "for i in range(3):"; "while x <= 3:";
       "if x == 1:"; "else:"; "print(x)"; "# x = 1"; EmptyString]
  = [ASSIGNMENT; ASSIGNMENT; LOOP_START; LOOP_START;
     CONDITION; CONDITION; LINE; LINE; LINE].
Proof. reflexivity. Qed.

Example changed_detection :
  option_map changed (from_value "x" (PyInt 5) (PyInt 5)) = Some false /\
  option_map changed (from_value "x" (PyInt 10) (PyInt 5)) = Some true.
Proof. split; reflexivity. Qed.

(** An instance that is compared by identity is marked changed whenever
    the step before held it, for what the step before holds is a copy. *)
Example changed_of_plain_instance :
  option_map changed
    (from_value "a" Scenario.plain_instance (kept Scenario.plain_instance))
  = Some true.
Proof. reflexivity. Qed.

(** The module [sys] cannot be copied and is held as it is. *)
Example module_held_by_reference :
  option_map (fun var => (value var, changed var))
    (from_value "sys" Scenario.module_sys (kept Scenario.module_sys))
  = Some (Scenario.module_sys, false).
Proof. reflexivity. Qed.

Example trace_of_assignment :
  exists t x,
    result (trace (Scenario.compiles_to Scenario.assign_run)
                  (__init__ 1000) Scenario.assign_code) = Returns t /\
    success t = true /\
    Dict.get (final_variables t) "x" = Some x /\
    repr_value x = "5".
Proof. do 2 eexists. split; [vm_compute; reflexivity|]. repeat split. Qed.

(** A write after [seek(0)] goes over the text that is there, a write
    beyond the end comes after null characters, and a closed buffer gives
    no text. *)
Example write_after_seek :
  StringIO.getvalue
    (StringIO.write (StringIO.seek (StringIO.write StringIO.new "hello") 0) "HE")
  = Some "HEllo" /\
  StringIO.getvalue
    (StringIO.write (StringIO.seek (StringIO.write StringIO.new "ab") 4) "Z")
  = Some ("ab" ++ String (PyStr.chr 0) (String (PyStr.chr 0) "Z")) /\
  StringIO.getvalue
    (StringIO.truncate (StringIO.seek (StringIO.write StringIO.new "hello") 2))
  = Some "he" /\
  StringIO.getvalue (StringIO.close (StringIO.write StringIO.new "hello")) = None.
Proof. repeat split. Qed.

(** A comparison raises when the method that is asked raises: that of the
    previous value, or that of the new value when the previous value is a
    primitive one; the method of a list answers by itself. *)
Example comparison_may_raise :
  from_value "x" (PyInt 1) Scenario.quarrelsome = None /\
  from_value "x" Scenario.quarrelsome (PyInt 1) = None /\
  from_value "x" Scenario.quarrelsome PyNone <> None /\
  option_map changed (from_value "x" Scenario.quarrelsome Scenario.list_12)
  = Some true /\
  option_map changed
    (from_value "x" Scenario.list_12 (kept Scenario.list_12)) = Some false.
Proof. repeat split. discriminate. Qed.

(** After [sys.stdout.close()] the trace function raises at [getvalue()],
    when it has counted the event and before it appends the step; and the
    end of [Tracer.trace] raises again. *)
Example closed_buffer_faults :
  let recorder :=
    fst (fst (exec_traced (reset (__init__ 1000) Scenario.closing_code)
                          Scenario.closing_run)) in
  step_count recorder = 4 /\
  List.length (Tracer.steps recorder) = 3%nat /\
  result (trace (Scenario.compiles_to Scenario.closing_run)
                (__init__ 1000) Scenario.closing_code)
  = Propagates buffer_closed.
Proof. cbv zeta. split; [|split]; vm_compute; reflexivity. Qed.

(** A key that is no [str] makes the trace function raise, and the end of
    [Tracer.trace] as well. *)
Example odd_key_faults :
  let run := trace (Scenario.compiles_to Scenario.odd_key_run)
                   (__init__ 1000) Scenario.odd_key_code in
  List.length (callback_calls run) = 3%nat /\
  step_count (self_after run) = 2 /\
  result run = Propagates final_variables_raise.
Proof. cbv zeta. split; [|split]; vm_compute; reflexivity. Qed.

(** ** Dictionaries *)

Section DictFacts.

Context {V : Type}.

Lemma get_set_same (d : Dict.t V) (k : string) (v : V) :
  Dict.get (Dict.set d k v) k = Some v.
Proof.
  induction d as [|[k' v'] d IH]; simpl.
  - now rewrite String.eqb_refl.
  - destruct (String.eqb k' k) eqn:E; simpl; rewrite E; auto.
Qed.

Lemma in_set (d : Dict.t V) (k : string) (v : V) (entry : string * V) :
  In entry (Dict.set d k v) -> fst entry = k /\ snd entry = v \/ In entry d.
Proof.
  induction d as [|[k' v'] d IH]; simpl.
  - intros [<-|[]]. auto.
  - destruct (String.eqb k' k) eqn:E; simpl.
    + apply String.eqb_eq in E as ->. intros [<-|H]; auto.
    + intros [<-|H]; auto. destruct (IH H); auto.
Qed.

End DictFacts.

(** ** Dictionaries with one entry per key *)

Section DictKeys.

Context {V : Type}.

Lemma in_keys_set (d : Dict.t V) (k : string) (v : V) (x : string) :
  In x (Dict.keys (Dict.set d k v)) -> x = k \/ In x (Dict.keys d).
Proof.
  unfold Dict.keys. intros H. apply in_map_iff in H as ([k' v'] & <- & Hin).
  apply in_set in Hin as [[Hk _]|Hin]; [left; exact Hk|].
  right. apply in_map_iff. exists (k', v'). auto.
Qed.

Lemma NoDup_keys_set (d : Dict.t V) (k : string) (v : V) :
  NoDup (Dict.keys d) -> NoDup (Dict.keys (Dict.set d k v)).
Proof.
  induction d as [|[k' v'] d IH]; simpl; intros Hnd.
  - constructor; [intros [] | constructor].
  - inversion Hnd as [|? ? Hnotin Hnd']; subst.
    destruct (String.eqb k' k) eqn:E; simpl.
    + constructor; assumption.
    + constructor; [|auto].
      intros Hin. apply in_keys_set in Hin as [->|Hin]; [|contradiction].
      now rewrite String.eqb_refl in E.
Qed.

Lemma get_In (d : Dict.t V) (k : string) (v : V) :
  Dict.get d k = Some v -> In (k, v) d.
Proof.
  induction d as [|[k' v'] d IH]; simpl; [discriminate|].
  destruct (String.eqb k' k) eqn:E.
  - apply String.eqb_eq in E as ->. intros H. injection H as ->. now left.
  - auto.
Qed.

Lemma In_get (d : Dict.t V) (k : string) (v : V) :
  NoDup (Dict.keys d) -> In (k, v) d -> Dict.get d k = Some v.
Proof.
  induction d as [|[k' v'] d IH]; simpl; [contradiction|].
  intros Hnd Hin. inversion Hnd as [|? ? Hnotin Hnd']; subst.
  destruct Hin as [E|Hin].
  - injection E as -> ->. now rewrite String.eqb_refl.
  - destruct (String.eqb k' k) eqn:E; [|auto].
    apply String.eqb_eq in E as ->. exfalso. apply Hnotin.
    unfold Dict.keys. apply in_map_iff. exists (k, v). auto.
Qed.

Lemma get_None_not_key (d : Dict.t V) (k : string) :
  Dict.get d k = None <-> ~ In k (Dict.keys d).
Proof.
  induction d as [|[k' v'] d IH]; simpl; [tauto|].
  destruct (String.eqb k' k) eqn:E.
  - apply String.eqb_eq in E as ->. split; [discriminate | intros H; exfalso; auto].
  - apply String.eqb_neq in E. rewrite IH. tauto.
Qed.

End DictKeys.

Lemma in_keys_set_iff {V : Type} (d : Dict.t V) (k : string) (v : V) (x : string) :
  In x (Dict.keys (Dict.set d k v)) <-> x = k \/ In x (Dict.keys d).
Proof.
  split; [apply in_keys_set|].
  induction d as [|[k' v'] d IH]; simpl.
  - intros [->|[]]. now left.
  - destruct (String.eqb k' k) eqn:E; simpl.
    + apply String.eqb_eq in E as ->. intros [->|[->|H]]; auto.
    + intros [->|[->|H]]; auto.
Qed.

Lemma mem_keys {V : Type} (d : Dict.t V) (k : string) :
  Dict.mem d k = true <-> In k (Dict.keys d).
Proof.
  unfold Dict.mem. pose proof (get_None_not_key d k) as H.
  destruct (Dict.get d k).
  - split; [intros _ | reflexivity].
    destruct (in_dec string_dec k (Dict.keys d)) as [Hin|Hnot]; [exact Hin|].
    apply H in Hnot. discriminate.
  - split; [discriminate|]. intros Hin. exfalso. now apply H.
Qed.

(** ** The snapshot builder: [Variable.from_value] *)

Lemma repr_fatal_None (value : pyvalue) :
  Builtins.repr_fatal value = true -> Builtins.repr value = None.
Proof.
  destruct value as [| | | |o]; try discriminate. simpl.
  destruct (ob_repr o); [discriminate | reflexivity].
Qed.

(** What a call of [Variable.from_value] that returns has made. *)
Lemma from_value_Some (name : string) (value previous : pyvalue)
    (var : Variable_) :
  from_value name value previous = Some var ->
  Models.name var = name /\
  Models.value var = kept value /\
  type_name var = Builtins.type_name value /\
  repr_value var = printable value /\
  changed var
  = negb (Builtins.is_None previous) && Builtins.ne previous value.
Proof.
  unfold from_value, _is_copyable, kept, printable.
  destruct (Builtins.repr value) as [r|];
    [|destruct (Builtins.repr_fatal value); [discriminate|]];
    (destruct (Builtins.is_None previous);
     [|destruct (Builtins.ne_raises previous value); [discriminate|]]);
    destruct (Builtins.deepcopy value) as [copy| |];
    intros H; try discriminate; injection H as <-; simpl; repeat split.
Qed.

(** When a call of [Variable.from_value] returns. *)
Lemma from_value_returns (name : string) (value previous : pyvalue) :
  (exists var, from_value name value previous = Some var) <->
  Builtins.repr_fatal value = false /\
  (Builtins.is_None previous = false ->
   Builtins.ne_raises previous value = false) /\
  Builtins.deepcopy value <> RaisesOther.
Proof.
  unfold from_value, _is_copyable.
  pose proof (repr_fatal_None value) as Hfatal.
  destruct (Builtins.repr value) as [r|];
    destruct (Builtins.repr_fatal value);
    try (specialize (Hfatal eq_refl); discriminate);
    destruct (Builtins.is_None previous);
    destruct (Builtins.ne_raises previous value);
    destruct (Builtins.deepcopy value) as [copy| |];
    (split;
     [ intros [var H]; try discriminate;
       repeat split; try reflexivity; try discriminate; intros; discriminate
     | intros (H1 & H2 & H3); try discriminate;
       try (specialize (H2 eq_refl); discriminate);
       try (now contradiction H3);
       eexists; reflexivity ]).
Qed.

Lemma printable_short (value : pyvalue) : PyStr.len (printable value) <= 100.
Proof.
  unfold printable.
  destruct (Builtins.repr value) as [r|]; [|vm_compute; discriminate].
  destruct (100 <? PyStr.len r) eqn:E.
  - apply Z.ltb_lt in E. unfold PyStr.len in *.
    rewrite length_append, length_take by lia. simpl. lia.
  - now apply Z.ltb_ge in E.
Qed.

(** What the recorder keeps of a value has the type, the callability and
    the mark of the value. *)
Lemma kept_observed (value : pyvalue) :
  Builtins.type_name (kept value) = Builtins.type_name value /\
  Builtins.callable (kept value) = Builtins.callable value /\
  Builtins.hasattr_traced (kept value) = Builtins.hasattr_traced value.
Proof.
  unfold kept, Builtins.deepcopy.
  destruct value as [| | | |o]; try destruct (ob_deepcopy o); repeat split.
Qed.

Lemma kept_held (value : pyvalue) : held (kept value).
Proof.
  unfold kept, Builtins.deepcopy, held.
  destruct value as [| | | |o]; try exact I.
  destruct (ob_deepcopy o) eqn:E; simpl; try (right; congruence).
  now left.
Qed.

Lemma kept_None (value : pyvalue) : kept value = PyNone <-> value = PyNone.
Proof.
  unfold kept, Builtins.deepcopy.
  destruct value as [| | | |o]; try tauto.
  destruct (ob_deepcopy o); split; discriminate.
Qed.

Lemma same_fields (x y : pyobject) :
  Builtins.same x y = true ->
  ob_deepcopy x = ob_deepcopy y /\ ob_copied x = ob_copied y.
Proof.
  unfold Builtins.same. rewrite !andb_true_iff.
  intros (((_ & _) & Hd) & Hc). split.
  - destruct (ob_deepcopy x), (ob_deepcopy y); try discriminate; reflexivity.
  - now apply Bool.eqb_prop.
Qed.

(** A value that the recorder holds compares with a value of the program
    as it compares with what the recorder keeps of that value. *)
Lemma eq_kept (old value : pyvalue) :
  held old -> Builtins.eq old (kept value) = Builtins.eq old value.
Proof.
  intros Hheld. unfold kept, Builtins.deepcopy.
  destruct value as [| | | |y]; try reflexivity.
  destruct (ob_deepcopy y) eqn:Ey; try reflexivity.
  destruct old as [| | | |x]; try reflexivity.
  simpl. destruct (ob_compare x), (ob_compare y); try reflexivity.
  unfold Builtins.identical.
  destruct (ob_copied x) eqn:Ex; [reflexivity|]. simpl.
  destruct (Builtins.same x (Builtins.copy_of y)) eqn:E1.
  { apply same_fields in E1 as [_ E1]. simpl in E1. congruence. }
  destruct (Builtins.same x y) eqn:E2; [|reflexivity].
  apply same_fields in E2 as [E2 _].
  destruct Hheld as [H|H]; congruence.
Qed.

Lemma ne_kept (old value : pyvalue) :
  held old -> Builtins.ne old (kept value) = Builtins.ne old value.
Proof. intros H. unfold Builtins.ne. now rewrite eq_kept. Qed.

(** The flag is the conjunction the source computes:
    [previous_value is not None and previous_value != value]. *)
Lemma from_value_changed (name : string) (value previous : pyvalue)
    (var : Variable_) :
  from_value name value previous = Some var ->
  (changed var = true <->
   previous <> PyNone /\ Builtins.ne previous value = true).
Proof.
  intros H. apply from_value_Some in H as (_ & _ & _ & _ & ->).
  rewrite andb_true_iff, negb_true_iff.
  destruct previous; simpl; split; intros [H1 H2]; split;
    try discriminate; try congruence; auto.
Qed.

(** ** The recorder: one event *)

Lemma _determine_line_type_not_RETURN (line_content : string) :
  _determine_line_type line_content <> RETURN.
Proof.
  unfold _determine_line_type.
  repeat match goal with
         | |- context [if ?c then _ else _] => destruct c
         end; discriminate.
Qed.

Lemma _trace_callback_effect (self : Tracer) (frame : Frame) (event : Event)
    (arg : pyvalue) :
  callback_effect self frame event arg (_trace_callback self frame event arg).
Proof.
  unfold _trace_callback.
  destruct (_stopped self || (max_steps self <=? step_count self)) eqn:Hstop.
  { apply effect_latched. apply orb_true_iff in Hstop as [H|H]; [auto|].
    right. now apply Z.leb_le. }
  apply orb_false_iff in Hstop as [Hs Hlim]. apply Z.leb_gt in Hlim.
  destruct (co_filename frame =? traced_filename self)%string eqn:Hfile; simpl negb;
    cbv iota.
  2:{ apply effect_foreign; try assumption. now apply String.eqb_neq. }
  apply String.eqb_eq in Hfile.
  match goal with
  | |- callback_effect _ _ _ _ ?r =>
      replace r with
        (match captured (previous_variables self) frame with
         | None => (before_capture self event, callback_raises)
         | Some vars =>
             match explanation_of self frame event arg vars with
             | None => (after_capture self event vars, callback_raises)
             | Some text =>
                 if StringIO.closed (output_buffer self)
                 then (after_count self event vars, callback_raises)
                 else (after_record self frame event arg vars text
                                    (StringIO.content (output_buffer self)),
                       keep_tracing)
             end
         end)
  end.
  - destruct (captured (previous_variables self) frame) as [vars|] eqn:Hcap;
      [|now apply effect_uncaptured].
    destruct (explanation_of self frame event arg vars) as [text|] eqn:Hexpl;
      [|now apply effect_unexplained].
    destruct (StringIO.closed (output_buffer self)) eqn:Hclosed.
    + now apply effect_closed with (text := text).
    + now apply effect_recorded.
  - destruct self as [m steps count lines previous current buffer depth file stopped].
    destruct event;
      cbv beta iota zeta delta
        [explanation_of line_at kind_of _capture_variables StringIO.getvalue
         before_capture after_capture after_count after_record recorded_step
         set_call_depth set_previous_variables set_step_count steps_append
         set_current_variables max_steps Tracer.steps step_count code_lines
         previous_variables current_variables output_buffer Tracer.call_depth
         traced_filename _stopped depth_after snapshot];
      destruct (captured previous frame) as [vars|]; try reflexivity;
      match goal with
      | |- context [_generate_explanation ?k ?l ?v ?a] =>
          destruct (_generate_explanation k l v a)
      end; try reflexivity;
      destruct (StringIO.closed buffer); reflexivity.
Qed.

Ltac by_effect self frame event arg :=
  destruct (_trace_callback_effect self frame event arg)
    as [ Hlatch
       | Hs Hlim Hfile
       | Hs Hlim Hfile Hcap
       | vars Hs Hlim Hfile Hcap Hexpl
       | vars text Hs Hlim Hfile Hcap Hexpl Hclosed
       | vars text Hs Hlim Hfile Hcap Hexpl Hopen ];
  cbn [fst snd].

(** Once the stop is latched the trace function records nothing more. *)
Lemma _trace_callback_latched (self : Tracer) (frame : Frame) (event : Event)
    (arg : pyvalue) :
  _stopped self = true ->
  _trace_callback self frame event arg = (set_stopped self true, stop_tracing) /\
  Tracer.steps (set_stopped self true) = Tracer.steps self.
Proof. intros H. unfold _trace_callback. rewrite H. split; reflexivity. Qed.

(** The trace function does not touch the buffer. *)
Lemma _trace_callback_buffer (self : Tracer) (frame : Frame) (event : Event)
    (arg : pyvalue) :
  output_buffer (fst (_trace_callback self frame event arg)) = output_buffer self.
Proof. by_effect self frame event arg; reflexivity. Qed.

(** ** The recorder: a whole run *)

Section Invariant.

Variable P : Tracer -> Prop.

Hypothesis P_stream :
  forall self c, P self -> P (stream self c).

Hypothesis P_trace_callback :
  forall self frame event arg,
    P self -> P (fst (_trace_callback self frame event arg)).

Lemma streams_invariant (calls : list StringIO.Call) :
  forall self, P self -> P (streams self calls).
Proof.
  unfold streams. induction calls as [|c calls IH]; intros self HP; simpl; auto.
Qed.

Lemma exec_traced_invariant (program : Execution) :
  forall self, P self -> P (fst (fst (exec_traced self program))).
Proof.
  induction program as [f | calls frame event arg resumes IH on_fault];
    intros self HP; simpl.
  - now apply streams_invariant.
  - pose proof (P_trace_callback (streams self calls) frame event arg
                  (streams_invariant calls self HP)) as Hcb.
    destruct (_trace_callback (streams self calls) frame event arg)
      as [self' signal].
    simpl in Hcb.
    destruct signal;
      try (specialize (IH self' Hcb);
           destruct (exec_traced self' resumes) as [[self'' calls'] f];
           exact IH).
    simpl. now apply streams_invariant.
Qed.

End Invariant.

(** A property [P] of the recorder that every event keeps until the trace
    function raises, and a weaker [Q] that the calls on the streams keep,
    give [Q] at the end of the run. *)
Section InvariantUntilFault.

Variables P Q : Tracer -> Prop.

Hypothesis P_Q : forall self, P self -> Q self.

Hypothesis P_stream :
  forall self c, P self -> P (stream self c).

Hypothesis Q_stream :
  forall self c, Q self -> Q (stream self c).

Hypothesis P_trace_callback :
  forall self frame event arg,
    P self ->
    match snd (_trace_callback self frame event arg) with
    | callback_raises => Q (fst (_trace_callback self frame event arg))
    | _ => P (fst (_trace_callback self frame event arg))
    end.

Lemma exec_traced_invariant_until_fault (program : Execution) :
  forall self, P self -> Q (fst (fst (exec_traced self program))).
Proof.
  induction program as [f | calls frame event arg resumes IH on_fault];
    intros self HP; simpl.
  - apply P_Q. now apply streams_invariant.
  - pose proof (P_trace_callback (streams self calls) frame event arg
                  (streams_invariant P P_stream calls self HP)) as Hcb.
    destruct (_trace_callback (streams self calls) frame event arg)
      as [self' signal].
    cbn [fst snd] in Hcb.
    destruct signal;
      try (specialize (IH self' Hcb);
           destruct (exec_traced self' resumes) as [[self'' calls'] f];
           exact IH).
    simpl. now apply streams_invariant.
Qed.

End InvariantUntilFault.

(** *** The buffer, once closed, stays closed *)

Lemma closed_exec_traced (self : Tracer) (program : Execution) :
  StringIO.closed (output_buffer self) = true ->
  StringIO.closed (output_buffer (fst (fst (exec_traced self program)))) = true.
Proof.
  apply (exec_traced_invariant
           (fun s => StringIO.closed (output_buffer s) = true)).
  - intros s c H. now apply call_closed.
  - intros s frame event arg H. now rewrite _trace_callback_buffer.
Qed.

(** A property of the recorder that every event keeps while the buffer is
    open holds at the end of a run that leaves the buffer open. *)
Section InvariantWhileOpen.

Variable P : Tracer -> Prop.

Hypothesis P_stream :
  forall self c, P self -> P (stream self c).

Hypothesis P_trace_callback :
  forall self frame event arg,
    open self -> P self -> P (fst (_trace_callback self frame event arg)).

Lemma exec_traced_invariant_while_open (program : Execution) (self : Tracer) :
  P self ->
  open (fst (fst (exec_traced self program))) ->
  P (fst (fst (exec_traced self program))).
Proof.
  intros HP.
  apply (exec_traced_invariant (fun s => open s -> P s)); [| |auto].
  - intros s c H Hopen. apply P_stream, H.
    unfold open in *. destruct (StringIO.closed (output_buffer s)) eqn:E;
      [|reflexivity].
    apply (call_closed _ c) in E. simpl in Hopen. congruence.
  - intros s frame event arg H Hopen.
    unfold open in Hopen. rewrite _trace_callback_buffer in Hopen. auto.
Qed.

End InvariantWhileOpen.

(** *** The fields that the calls on the streams leave alone *)

Lemma streams_fields (calls : list StringIO.Call) :
  forall self,
    streams self calls
    = {| max_steps := max_steps self; Tracer.steps := Tracer.steps self;
         step_count := step_count self; code_lines := code_lines self;
         previous_variables := previous_variables self;
         current_variables := current_variables self;
         output_buffer := fold_left StringIO.call calls (output_buffer self);
         Tracer.call_depth := Tracer.call_depth self;
         traced_filename := traced_filename self;
         _stopped := _stopped self |}.
Proof.
  unfold streams. induction calls as [|c calls IH]; intros self; simpl.
  - destruct self; reflexivity.
  - rewrite IH. reflexivity.
Qed.

(** *** Loops that may raise *)

Lemma fold_raising_invariant {A B : Type} (P : A -> Prop)
    (f : A -> B -> option A) :
  (forall a b a', P a -> f a b = Some a' -> P a') ->
  forall l a a', P a -> fold_raising f l a = Some a' -> P a'.
Proof.
  intros Hstep. induction l as [|b l IH]; intros a a' HP H; simpl in H.
  - now injection H as <-.
  - destruct (f a b) as [a1|] eqn:E; [|discriminate]. eauto.
Qed.

(** *** Numbering *)

Lemma numbered_snoc (steps : list ExecutionStep) (step : ExecutionStep) :
  numbered steps ->
  step_number step = Z.of_nat (List.length steps) + 1 ->
  numbered (steps ++ [step]).
Proof.
  unfold numbered. intros Hn Hs.
  rewrite map_app, length_app, Nat.add_1_r, seq_S, map_app, Hn.
  simpl. rewrite Hs. do 2 f_equal. lia.
Qed.

Lemma counted_trace_callback (self : Tracer) (frame : Frame) (event : Event)
    (arg : pyvalue) :
  open self ->
  counted self -> counted (fst (_trace_callback self frame event arg)).
Proof.
  unfold open. intros Ho [Hc Hn]. by_effect self frame event arg;
    try (split; assumption); [congruence|].
  split; simpl.
  - rewrite length_app. simpl. lia.
  - apply numbered_snoc; [assumption | simpl; lia].
Qed.

(** *** The ceiling *)

Lemma below_ceiling_trace_callback (m : Z) (self : Tracer) (frame : Frame)
    (event : Event) (arg : pyvalue) :
  below_ceiling m self ->
  below_ceiling m (fst (_trace_callback self frame event arg)).
Proof.
  intros [Hm Hc]. by_effect self frame event arg;
    try (split; assumption); split; simpl; try assumption; lia.
Qed.

(** *** Visible bindings *)

Lemma visible_only_empty : visible_only Dict.empty.
Proof. intros name var []. Qed.

Lemma capture_binding_visible (previous : Dict.t pyvalue)
    (variables : Dict.t Variable_) (binding : string * pyvalue)
    (result : Dict.t Variable_) :
  visible_only variables ->
  capture_binding previous variables binding = Some result ->
  visible_only result.
Proof.
  intros Hvis. destruct binding as [name value]. unfold capture_binding.
  destruct (PyStr.startswith name "_") eqn:Hname;
    [intros H; now injection H as <-|].
  destruct (Builtins.callable value && Builtins.hasattr_raises value);
    [discriminate|].
  destruct (Builtins.callable value && negb (Builtins.hasattr_traced value))
    eqn:Hcall; [intros H; now injection H as <-|].
  destruct (from_value name value _) as [var|] eqn:Hvar; [|discriminate].
  intros H. injection H as <-.
  intros n v Hin. apply in_set in Hin as [[Hn Hv]|Hin]; [|auto].
  simpl in Hn, Hv. subst n v. split; [assumption|].
  apply from_value_Some in Hvar as (_ & -> & _).
  unfold untraced_callable.
  destruct (kept_observed value) as (_ & -> & ->). exact Hcall.
Qed.

Lemma captured_visible (previous : Dict.t pyvalue) (frame : Frame)
    (vars : Dict.t Variable_) :
  captured previous frame = Some vars -> visible_only vars.
Proof.
  unfold captured. destruct (f_locals_other_keys frame); [|discriminate].
  apply (fold_raising_invariant visible_only); [|apply visible_only_empty].
  intros a b a' Ha Hb. eapply capture_binding_visible; eassumption.
Qed.

Lemma screened_trace_callback (self : Tracer) (frame : Frame) (event : Event)
    (arg : pyvalue) :
  screened self -> screened (fst (_trace_callback self frame event arg)).
Proof.
  intros [Hsteps Hcur]. by_effect self frame event arg;
    try (split; assumption).
  apply captured_visible in Hcap.
  split; simpl; [|assumption].
  apply Forall_app. split; [assumption | constructor; [assumption | constructor]].
Qed.

(** *** Explanations *)

Lemma kind_of_RETURN (event : Event) (line_content : string) :
  kind_of event line_content = RETURN -> event = ev_return.
Proof.
  destruct event; simpl; try discriminate; try reflexivity;
    intros H; now apply _determine_line_type_not_RETURN in H.
Qed.

Lemma recorded_step_explained (self : Tracer) (frame : Frame) (event : Event)
    (arg : pyvalue) (vars : Dict.t Variable_) (text out : string) :
  explanation_of self frame event arg vars = Some text ->
  explained (recorded_step self frame event arg vars text out).
Proof.
  unfold explanation_of, explained, recorded_step.
  cbn [step_type line_content explanation return_value variables].
  set (line := line_at (code_lines self) (f_lineno frame)).
  intros Hexpl. unfold _generate_explanation in Hexpl.
  destruct (kind_of event line) eqn:Ek; try exact I.
  - (* RETURN *)
    apply kind_of_RETURN in Ek. subst event. intros Hsome.
    assert (Hnn : negb (Builtins.is_None arg) = true)
      by (destruct arg; auto; contradiction).
    rewrite Hnn in Hexpl.
    destruct (Builtins.repr arg) as [printable|]; [|discriminate].
    injection Hexpl as <-. eauto.
  - (* ASSIGNMENT *)
    intros var Hchanged. rewrite Hchanged in Hexpl. now injection Hexpl as <-.
  - (* CONDITION *)
    now injection Hexpl as <-.
Qed.

Lemma all_explained_trace_callback (self : Tracer) (frame : Frame)
    (event : Event) (arg : pyvalue) :
  all_explained self ->
  all_explained (fst (_trace_callback self frame event arg)).
Proof.
  unfold all_explained. intros H. by_effect self frame event arg;
    try assumption.
  apply Forall_app. split; [assumption|].
  constructor; [|constructor].
  now apply recorded_step_explained.
Qed.

(** *** Steps are never taken back *)


(** Once the stop is latched, the rest of the run leaves the steps as they
    are, whatever events it still delivers. *)
Lemma latched_run_records_nothing (self : Tracer) (program : Execution) :
  _stopped self = true ->
  Tracer.steps (fst (fst (exec_traced self program))) = Tracer.steps self.
Proof.
  intros Hstop.
  apply (exec_traced_invariant
           (fun s => _stopped s = true /\ Tracer.steps s = Tracer.steps self));
    [ intros s c H; exact H | | split; [assumption | reflexivity] ].
  intros s frame event arg [Hs Hsteps].
  destruct (_trace_callback_latched s frame event arg Hs) as [-> _].
  split; [reflexivity | exact Hsteps].
Qed.

(** *** The exception step *)

Lemma last_step_None (steps : list ExecutionStep) :
  last_step steps = None -> steps = [].
Proof.
  unfold last_step. intros H.
  destruct (rev steps) as [|step rest] eqn:E; [|discriminate].
  apply (f_equal (@rev _)) in E. now rewrite rev_involutive in E.
Qed.

Lemma last_step_snoc (steps : list ExecutionStep) (step : ExecutionStep) :
  last_step (steps ++ [step]) = Some step.
Proof. unfold last_step. now rewrite rev_unit. Qed.

Lemma add_exception_step_Some (self : Tracer) (e : PyException)
    (error_message : string) (last : ExecutionStep) :
  last_step (Tracer.steps self) = Some last ->
  add_exception_step self e error_message
  = steps_append self (added_step self e error_message last).
Proof. intros H. unfold add_exception_step. now rewrite H. Qed.

Lemma add_exception_step_None (self : Tracer) (e : PyException)
    (error_message : string) :
  last_step (Tracer.steps self) = None ->
  add_exception_step self e error_message = self.
Proof. intros H. unfold add_exception_step. now rewrite H. Qed.

Lemma add_exception_step_fields (self : Tracer) (e : PyException)
    (error_message : string) :
  let self' := add_exception_step self e error_message in
  output_buffer self' = output_buffer self /\
  step_count self' = step_count self /\
  code_lines self' = code_lines self /\
  max_steps self' = max_steps self /\
  traced_filename self' = traced_filename self.
Proof.
  cbv zeta. unfold add_exception_step.
  destruct (last_step (Tracer.steps self)); repeat split.
Qed.

(** ** Call depth *)

Lemma depth_after_nonneg (depth : Z) (event : Event) :
  0 <= depth -> 0 <= depth_after depth event.
Proof. destruct event; simpl; lia. Qed.

Lemma depth_kept_trace_callback (self : Tracer) (frame : Frame) (event : Event)
    (arg : pyvalue) :
  depth_kept self -> depth_kept (fst (_trace_callback self frame event arg)).
Proof.
  intros [Hd Hsteps]. by_effect self frame event arg;
    try (split; assumption);
    try (split; simpl; [now apply depth_after_nonneg | assumption]).
  split; simpl; [now apply depth_after_nonneg|].
  apply Forall_app. split; [assumption|].
  constructor; [|constructor]. simpl. now apply depth_after_nonneg.
Qed.

(** ** Line contents *)

Lemma lines_kept_trace_callback (lines : list string) (self : Tracer)
    (frame : Frame) (event : Event) (arg : pyvalue) :
  lines_kept lines self ->
  lines_kept lines (fst (_trace_callback self frame event arg)).
Proof.
  intros [Hl Hsteps]. by_effect self frame event arg;
    try (split; assumption).
  split; simpl; [assumption|].
  apply Forall_app. split; [assumption|].
  constructor; [|constructor]. simpl. now rewrite Hl.
Qed.

(** ** Configuration *)

Lemma configured_trace_callback (m : Z) (filename : string) (self : Tracer)
    (frame : Frame) (event : Event) (arg : pyvalue) :
  configured m filename self ->
  configured m filename (fst (_trace_callback self frame event arg)).
Proof.
  intros [Hm Hf]. by_effect self frame event arg; split; assumption.
Qed.

(** ** Kinds and explanations *)

Lemma _determine_line_type_produced (line_content : string) :
  produced_kind (_determine_line_type line_content) = true.
Proof.
  unfold _determine_line_type.
  repeat match goal with
         | |- context [if ?c then _ else _] => destruct c
         end; reflexivity.
Qed.

Lemma kind_of_produced (event : Event) (line_content : string) :
  produced_kind (kind_of event line_content) = true.
Proof.
  destruct event; simpl; try reflexivity; apply _determine_line_type_produced.
Qed.

Lemma _generate_explanation_nonempty (step_type : StepType)
    (line_content : string) (variables : Dict.t Variable_) (arg : pyvalue)
    (text : string) :
  _generate_explanation step_type line_content variables arg = Some text ->
  text <> EmptyString.
Proof.
  unfold _generate_explanation. intros H.
  repeat match type of H with
         | context [match ?x with _ => _ end] => destruct x
         end;
    try discriminate; injection H as <-; discriminate.
Qed.

Lemma kinds_kept_trace_callback (self : Tracer) (frame : Frame) (event : Event)
    (arg : pyvalue) :
  kinds_kept self -> kinds_kept (fst (_trace_callback self frame event arg)).
Proof.
  unfold kinds_kept. intros Hsteps. by_effect self frame event arg;
    try assumption.
  apply Forall_app. split; [assumption|].
  constructor; [|constructor]. simpl. split; [apply kind_of_produced|].
  split; [|reflexivity]. eapply _generate_explanation_nonempty, Hexpl.
Qed.

(** ** Snapshots in the steps *)

Lemma built_empty : built Dict.empty.
Proof. split; [constructor | intros key var []]. Qed.

Lemma capture_binding_built (previous : Dict.t pyvalue)
    (variables : Dict.t Variable_) (binding : string * pyvalue)
    (result : Dict.t Variable_) :
  built variables ->
  capture_binding previous variables binding = Some result ->
  built result.
Proof.
  intros [Hnd Hall]. destruct binding as [name value]. unfold capture_binding.
  destruct (PyStr.startswith name "_");
    [intros H; injection H as <-; split; assumption|].
  destruct (Builtins.callable value && Builtins.hasattr_raises value);
    [discriminate|].
  destruct (Builtins.callable value && negb (Builtins.hasattr_traced value));
    [intros H; injection H as <-; split; assumption|].
  destruct (from_value name value _) as [var|] eqn:Hvar; [|discriminate].
  intros H. injection H as <-.
  split; [now apply NoDup_keys_set|].
  intros key v Hin. apply in_set in Hin as [[Hk Hv]|Hin]; [|auto].
  simpl in Hk, Hv. subst key v. eauto.
Qed.

Lemma captured_built (previous : Dict.t pyvalue) (frame : Frame)
    (vars : Dict.t Variable_) :
  captured previous frame = Some vars -> built vars.
Proof.
  unfold captured. destruct (f_locals_other_keys frame); [|discriminate].
  apply (fold_raising_invariant built); [|apply built_empty].
  intros a b a' Ha Hb. eapply capture_binding_built; eassumption.
Qed.

Lemma snapshots_kept_trace_callback (self : Tracer) (frame : Frame)
    (event : Event) (arg : pyvalue) :
  snapshots_kept self ->
  snapshots_kept (fst (_trace_callback self frame event arg)).
Proof.
  intros [Hsteps Hcur]. by_effect self frame event arg;
    try (split; assumption).
  apply captured_built in Hcap.
  split; simpl; [|assumption].
  apply Forall_app. split; [assumption|].
  constructor; [assumption | constructor].
Qed.

(** What a snapshot of a built map is. *)
Lemma built_entry (variables : Dict.t Variable_) (key : string) (var : Variable_) :
  built variables ->
  In (key, var) (Dict.items variables) ->
  name var = key /\
  type_name var = Builtins.type_name (value var) /\
  PyStr.len (repr_value var) <= 100 /\
  Dict.get variables key = Some var /\
  held (value var).
Proof.
  intros [Hnd Hall] Hin. destruct (Hall key var Hin) as (value & previous & H).
  apply from_value_Some in H as (Hn & Hv & Ht & Hr & _).
  rewrite Hn, Hv, Ht, Hr. destruct (kept_observed value) as (-> & _).
  repeat split.
  - apply printable_short.
  - now apply In_get.
  - apply kept_held.
Qed.

(** ** Changed flags, step after step *)

Lemma get_snapshot (variables : Dict.t Variable_) (key : string) :
  Dict.get (snapshot variables) key
  = option_map Models.value (Dict.get variables key).
Proof.
  unfold snapshot, Dict.items.
  induction variables as [|[k var] variables IH]; simpl; [reflexivity|].
  destruct (String.eqb k key); [reflexivity | exact IH].
Qed.

Lemma capture_entries (previous : Dict.t pyvalue) (locals : list (string * pyvalue)) :
  forall variables result key var,
    fold_raising (capture_binding previous) locals variables = Some result ->
    In (key, var) result ->
    In (key, var) variables \/
    exists value,
      from_value key value
        match Dict.get previous key with Some v => v | None => PyNone end
      = Some var.
Proof.
  induction locals as [|[name value] locals IH];
    intros variables result key var Hfold Hin; cbn [fold_raising] in Hfold.
  - injection Hfold as <-. auto.
  - destruct (capture_binding previous variables (name, value)) as [v1|] eqn:Hb;
      [|discriminate].
    destruct (IH _ _ _ _ Hfold Hin) as [Hin1|Hex]; [|auto].
    unfold capture_binding in Hb.
    destruct (PyStr.startswith name "_"); [injection Hb as <-; auto|].
    destruct (Builtins.callable value && Builtins.hasattr_raises value);
      [discriminate|].
    destruct (Builtins.callable value && negb (Builtins.hasattr_traced value));
      [injection Hb as <-; auto|].
    destruct (from_value name value _) as [var1|] eqn:Hvar; [|discriminate].
    injection Hb as <-.
    apply in_set in Hin1 as [[Hk Hv]|Hin1]; [|auto].
    simpl in Hk, Hv. subst key var. eauto.
Qed.

Lemma changed_since_capture (previous : Dict.t pyvalue) (frame : Frame)
    (current vars : Dict.t Variable_) :
  built current ->
  previous = snapshot current ->
  captured previous frame = Some vars ->
  changed_since current vars.
Proof.
  intros Hbuilt -> Hcap key var Hin. unfold captured in Hcap.
  destruct (f_locals_other_keys frame); [|discriminate].
  destruct (capture_entries _ _ _ _ _ _ Hcap Hin) as [[]|[value Hvar]].
  rewrite (from_value_changed _ _ _ _ Hvar).
  apply from_value_Some in Hvar as (_ & -> & _).
  rewrite get_snapshot.
  destruct (Dict.get current key) as [old|] eqn:Hget; cbn [option_map].
  - assert (Hheld : held (Models.value old)).
    { apply get_In in Hget.
      now destruct (built_entry current key old Hbuilt Hget) as (_ & _ & _ & _ & H). }
    split.
    + intros [H1 H2]. exists old. rewrite (ne_kept _ _ Hheld). auto.
    + intros (old' & E & H1 & H2). injection E as <-.
      rewrite (ne_kept _ _ Hheld) in H2. auto.
  - split.
    + intros [H _]. contradiction.
    + intros (old' & E & _). discriminate.
Qed.

Lemma last_step_Some (steps : list ExecutionStep) (step : ExecutionStep) :
  last_step steps = Some step -> exists front, steps = (front ++ [step])%list.
Proof.
  unfold last_step. intros H.
  destruct (rev steps) as [|s rest] eqn:E; [discriminate|].
  injection H as ->. exists (rev rest).
  apply (f_equal (@rev _)) in E. rewrite rev_involutive in E. exact E.
Qed.

Lemma linked_snoc (steps : list ExecutionStep) (step : ExecutionStep) :
  linked steps ->
  match last_step steps with
  | Some last => changed_since (variables last) (variables step)
  | None => changed_since Dict.empty (variables step)
  end ->
  linked (steps ++ [step]).
Proof.
  intros [Hfirst Hnext] Hlast. split.
  - intros first H0. destruct steps as [|s steps]; simpl in H0.
    + injection H0 as <-. exact Hlast.
    + apply Hfirst. exact H0.
  - intros k earlier later Hk HSk.
    assert (Hlen : (S k < List.length (steps ++ [step]))%nat)
      by (apply nth_error_Some; congruence).
    rewrite length_app in Hlen. simpl in Hlen.
    rewrite nth_error_app1 in Hk by lia.
    destruct (Nat.eq_dec (S k) (List.length steps)) as [E|Hne].
    + rewrite nth_error_app2, E, Nat.sub_diag in HSk by lia.
      injection HSk as <-.
      destruct (last_step steps) as [last|] eqn:El.
      * apply last_step_Some in El as [front ->].
        rewrite length_app in E. simpl in E.
        rewrite nth_error_app2 in Hk by lia.
        replace (k - List.length front)%nat with 0%nat in Hk by lia.
        injection Hk as <-. exact Hlast.
      * apply last_step_None in El. subst steps. discriminate.
    + rewrite nth_error_app1 in HSk by lia. eauto.
Qed.

Lemma chained_trace_callback (self : Tracer) (frame : Frame) (event : Event)
    (arg : pyvalue) :
  chained self ->
  match snd (_trace_callback self frame event arg) with
  | callback_raises => linked (Tracer.steps (fst (_trace_callback self frame event arg)))
  | _ => chained (fst (_trace_callback self frame event arg))
  end.
Proof.
  intros (Hlinked & Hbuilt & Hprev & Hlast). by_effect self frame event arg;
    try exact Hlinked.
  - unfold chained. simpl. auto.
  - unfold chained. auto.
  - pose proof (changed_since_capture _ _ _ _ Hbuilt Hprev Hcap) as Hsince.
    split; [|split; [|split]]; simpl.
    + apply linked_snoc; [assumption|]. simpl.
      destruct (last_step (Tracer.steps self)) as [last|].
      * now rewrite Hlast.
      * now rewrite <- Hlast.
    + eapply captured_built, Hcap.
    + reflexivity.
    + now rewrite last_step_snoc.
Qed.

(** ** Call depth, step after step *)

Lemma depth_step_recorded (self : Tracer) (frame : Frame) (event : Event)
    (arg : pyvalue) (vars : Dict.t Variable_) (text out : string) :
  depth_step (Tracer.call_depth self)
             (recorded_step self frame event arg vars text out).
Proof.
  unfold depth_step, recorded_step. cbn [Models.call_depth step_type].
  destruct event; cbn [kind_of depth_after]; try reflexivity;
    pose proof (_determine_line_type_produced
                  (line_at (code_lines self) (f_lineno frame))) as Hp;
    pose proof (_determine_line_type_not_RETURN
                  (line_at (code_lines self) (f_lineno frame))) as Hr;
    destruct (_determine_line_type (line_at (code_lines self) (f_lineno frame)))
      eqn:E; try reflexivity; try contradiction;
    exfalso; revert E; unfold _determine_line_type;
    repeat match goal with
           | |- context [if ?c then _ else _] => destruct c
           end; discriminate.
Qed.

Lemma depth_linked_snoc (steps : list ExecutionStep) (step : ExecutionStep) :
  depth_linked steps ->
  depth_step match last_step steps with
             | Some last => Models.call_depth last
             | None => 0
             end step ->
  depth_linked (steps ++ [step]).
Proof.
  intros [Hfirst Hnext] Hlast. split.
  - intros first H0. destruct steps as [|s steps]; simpl in H0.
    + injection H0 as <-. exact Hlast.
    + apply Hfirst. exact H0.
  - intros k earlier later Hk HSk.
    assert (Hlen : (S k < List.length (steps ++ [step]))%nat)
      by (apply nth_error_Some; congruence).
    rewrite length_app in Hlen. simpl in Hlen.
    rewrite nth_error_app1 in Hk by lia.
    destruct (Nat.eq_dec (S k) (List.length steps)) as [E|Hne].
    + rewrite nth_error_app2, E, Nat.sub_diag in HSk by lia.
      injection HSk as <-.
      destruct (last_step steps) as [last|] eqn:El.
      * apply last_step_Some in El as [front ->].
        rewrite length_app in E. simpl in E.
        rewrite nth_error_app2 in Hk by lia.
        replace (k - List.length front)%nat with 0%nat in Hk by lia.
        injection Hk as <-. exact Hlast.
      * apply last_step_None in El. subst steps. discriminate.
    + rewrite nth_error_app1 in HSk by lia. eauto.
Qed.

Lemma depth_chained_trace_callback (self : Tracer) (frame : Frame)
    (event : Event) (arg : pyvalue) :
  depth_chained self ->
  match snd (_trace_callback self frame event arg) with
  | callback_raises =>
      depth_linked (Tracer.steps (fst (_trace_callback self frame event arg)))
  | _ => depth_chained (fst (_trace_callback self frame event arg))
  end.
Proof.
  intros (Hlinked & Hdepth). by_effect self frame event arg;
    try exact Hlinked.
  - unfold depth_chained. simpl. auto.
  - unfold depth_chained. auto.
  - split; simpl.
    + apply depth_linked_snoc; [assumption|]. rewrite <- Hdepth.
      apply depth_step_recorded.
    + now rewrite last_step_snoc.
Qed.

Lemma current_kept_trace_callback (self : Tracer) (frame : Frame)
    (event : Event) (arg : pyvalue) :
  current_kept self -> current_kept (fst (_trace_callback self frame event arg)).
Proof.
  unfold current_kept. intros H. by_effect self frame event arg;
    try exact H.
  simpl. now rewrite last_step_snoc.
Qed.

(** *** The recorder after [exec] *)

Lemma counted_reset (self : Tracer) (code : string) : counted (reset self code).
Proof. split; reflexivity. Qed.

Lemma recorder_after_exec (self : Tracer) (code : string) (program : Execution) :
  let recorder := fst (fst (exec_traced (reset self code) program)) in
  (open recorder -> counted recorder) /\
  below_ceiling (max_steps self) recorder /\
  screened recorder /\ all_explained recorder.
Proof.
  cbv zeta. split; [|split; [|split]].
  - apply (exec_traced_invariant_while_open counted
             (fun _ _ H => H) counted_trace_callback).
    apply counted_reset.
  - apply (exec_traced_invariant (below_ceiling (max_steps self))
             (fun _ _ H => H) (below_ceiling_trace_callback (max_steps self))).
    split; simpl; [reflexivity | lia].
  - apply (exec_traced_invariant screened
             (fun _ _ H => H) screened_trace_callback).
    split; [constructor | apply visible_only_empty].
  - apply (exec_traced_invariant all_explained
             (fun _ _ H => H) all_explained_trace_callback).
    constructor.
Qed.

Lemma linked_after_exec (self : Tracer) (code : string) (program : Execution) :
  linked (Tracer.steps (fst (fst (exec_traced (reset self code) program)))).
Proof.
  apply (exec_traced_invariant_until_fault chained
           (fun s => linked (Tracer.steps s))).
  - intros s H. apply H.
  - intros s c H. exact H.
  - intros s c H. exact H.
  - apply chained_trace_callback.
  - split; [|split; [|split]]; simpl; try reflexivity; [|apply built_empty].
    split; intros; [discriminate | destruct k; discriminate].
Qed.

Lemma depth_linked_after_exec (self : Tracer) (code : string)
    (program : Execution) :
  depth_linked (Tracer.steps (fst (fst (exec_traced (reset self code) program)))).
Proof.
  apply (exec_traced_invariant_until_fault depth_chained
           (fun s => depth_linked (Tracer.steps s))).
  - intros s H. apply H.
  - intros s c H. exact H.
  - intros s c H. exact H.
  - apply depth_chained_trace_callback.
  - split; simpl; [|reflexivity].
    split; intros; [discriminate | destruct k; discriminate].
Qed.

Lemma current_kept_after_exec (self : Tracer) (code : string)
    (program : Execution) :
  current_kept (fst (fst (exec_traced (reset self code) program))).
Proof.
  apply (exec_traced_invariant current_kept
           (fun _ _ H => H) current_kept_trace_callback).
  reflexivity.
Qed.

(** *** Output *)

Lemma monotone_output_grows (steps : list ExecutionStep) (final text : string) :
  monotone_output steps final -> monotone_output steps (final ++ text).
Proof.
  intros [Hpair Hfinal]. split; [exact Hpair|].
  intros step Hin. apply prefix_app. auto.
Qed.

Lemma monotone_output_snoc (steps : list ExecutionStep) (step : ExecutionStep)
    (final : string) :
  monotone_output steps final ->
  output step = final ->
  monotone_output (steps ++ [step]) final.
Proof.
  intros [Hpair Hfinal] Hout. split.
  - intros i j earlier later Hij Hi Hj.
    assert (Hjlen : (j < List.length (steps ++ [step]))%nat)
      by (apply nth_error_Some; congruence).
    rewrite length_app in Hjlen. simpl in Hjlen.
    rewrite nth_error_app1 in Hi by lia.
    destruct (Nat.eq_dec j (List.length steps)) as [->|Hne].
    + rewrite nth_error_app2, Nat.sub_diag in Hj by lia.
      injection Hj as <-. rewrite Hout.
      apply Hfinal. eapply nth_error_In; eassumption.
    + rewrite nth_error_app1 in Hj by lia. eauto.
  - intros s Hin. apply in_app_or in Hin as [Hin|[<-|[]]].
    + auto.
    + rewrite Hout. apply prefix_refl.
Qed.

Lemma buffered_streams (calls : list StringIO.Call) :
  forallb is_write calls = true ->
  forall self, buffered self -> buffered (streams self calls).
Proof.
  unfold streams. induction calls as [|c calls IH]; intros Hw self Hb;
    simpl; [exact Hb|].
  simpl in Hw. apply andb_true_iff in Hw as [Hc Hw].
  apply IH; [exact Hw|].
  destruct c as [text| | |]; try discriminate.
  destruct Hb as (Hopen & Hpos & Hmono).
  unfold buffered, stream. cbn [output_buffer Tracer.steps StringIO.call].
  rewrite (write_at_end _ text Hopen Hpos). cbn.
  split; [reflexivity|]. split; [reflexivity|].
  now apply monotone_output_grows.
Qed.

Lemma buffered_trace_callback (self : Tracer) (frame : Frame) (event : Event)
    (arg : pyvalue) :
  buffered self -> buffered (fst (_trace_callback self frame event arg)).
Proof.
  intros (Ho & Hpos & Hmono). by_effect self frame event arg;
    try (split; [|split]; assumption).
  split; [|split]; simpl; try assumption.
  now apply monotone_output_snoc.
Qed.

(** A program that only writes to the redirected streams leaves the
    buffer open, and the outputs of the recorded steps grow up to its
    text. *)
Lemma buffered_after_exec (program : Execution) :
  only_writes program ->
  forall self, buffered self -> buffered (fst (fst (exec_traced self program))).
Proof.
  induction program as [f | calls frame event arg resumes IH on_fault];
    intros Hw self Hb; simpl in *.
  - now apply buffered_streams.
  - destruct Hw as (Hcalls & Hres & Hfault).
    pose proof (buffered_trace_callback (streams self calls) frame event arg
                  (buffered_streams calls Hcalls self Hb)) as Hcb.
    destruct (_trace_callback (streams self calls) frame event arg)
      as [self' signal].
    simpl in Hcb.
    destruct signal;
      try (specialize (IH Hres self' Hcb);
           destruct (exec_traced self' resumes) as [[self'' calls'] f];
           exact IH).
    simpl. now apply buffered_streams.
Qed.

(** *** The first event *)


(** ** The entry point: [Tracer.trace] *)

Lemma getvalue_Some (b : StringIO.t) (out : string) :
  StringIO.getvalue b = Some out ->
  StringIO.closed b = false /\ out = StringIO.content b.
Proof.
  unfold StringIO.getvalue. destruct (StringIO.closed b); [discriminate|].
  intros H. injection H as <-. auto.
Qed.

Lemma trace_anatomy (compile : Compiler) (self : Tracer) (code : string)
    (t : ExecutionTrace) :
  result (trace compile self code) = Returns t ->
  trace_ending compile self code t.
Proof.
  assert (Hunfold : trace compile self code = trace compile self code)
    by reflexivity.
  revert Hunfold. unfold trace at 2 3. cbv zeta.
  change (traced_filename (reset self code)) with (traced_filename self).
  destruct (compile code (traced_filename self)) as [program|e|kind] eqn:Hc.
  - destruct (exec_traced (reset self code) program) as [[recorder calls] f] eqn:Hx.
    destruct (raised f) as [e|] eqn:Hr.
    + destruct (exc_is_Exception e) eqn:He; [|discriminate].
      destruct (exc_str e) as [message|] eqn:Hm; [|discriminate].
      unfold finished_trace.
      rewrite (proj1 (add_exception_step_fields recorder e _)).
      destruct (final_variables_of f) as [final_vars|] eqn:Hf; [|discriminate].
      destruct (StringIO.getvalue (output_buffer recorder)) as [out|] eqn:Hg;
        [|discriminate].
      cbn [result]. intros Hunfold H. injection H as <-.
      eapply ended_badly; eauto.
    + unfold finished_trace.
      destruct (final_variables_of f) as [final_vars|] eqn:Hf; [|discriminate].
      destruct (StringIO.getvalue (output_buffer recorder)) as [out|] eqn:Hg;
        [|discriminate].
      cbn [result]. intros Hunfold H. injection H as <-.
      eapply ended_well; eauto.
  - cbn [result]. intros Hunfold H. injection H as <-.
    eapply ended_unparsed; eauto.
  - discriminate.
Qed.

Lemma sound_reset (self : Tracer) (code : string) :
  sound (max_steps self) (code_lines (reset self code)) (reset self code).
Proof.
  unfold sound, counted, below_ceiling, depth_kept, lines_kept,
    snapshots_kept, kinds_kept, numbered; simpl.
  repeat split; try constructor; try lia; try (intros key var []);
    intros; try discriminate; destruct k; discriminate.
Qed.

Lemma sound_after_exec (self : Tracer) (code : string) (program : Execution) :
  open (fst (fst (exec_traced (reset self code) program))) ->
  sound (max_steps self) (code_lines (reset self code))
        (fst (fst (exec_traced (reset self code) program))).
Proof.
  intros Hopen.
  destruct (recorder_after_exec self code program) as (Hc & Hb & _).
  destruct (sound_reset self code) as (_ & _ & Hd & Hl & Hs & Hk & _).
  split; [exact (Hc Hopen)|]. split; [exact Hb|].
  split; [|split; [|split; [|split; [|split]]]].
  - now apply (exec_traced_invariant depth_kept
                 (fun _ _ H => H) depth_kept_trace_callback).
  - now apply (exec_traced_invariant (lines_kept (code_lines (reset self code)))
                 (fun _ _ H => H)
                 (lines_kept_trace_callback (code_lines (reset self code)))).
  - now apply (exec_traced_invariant snapshots_kept
                 (fun _ _ H => H) snapshots_kept_trace_callback).
  - now apply (exec_traced_invariant kinds_kept
                 (fun _ _ H => H) kinds_kept_trace_callback).
  - apply linked_after_exec.
  - apply depth_linked_after_exec.
Qed.

(** Every returned trace comes from a sound recorder. *)
Lemma trace_from_recorder (compile : Compiler) (self : Tracer) (code : string)
    (t : ExecutionTrace) :
  result (trace compile self code) = Returns t ->
  exists recorder,
    sound (max_steps self) (code_lines (reset self code)) recorder /\
    step_count (self_after (trace compile self code)) = step_count recorder /\
    trace_steps recorder t.
Proof.
  intros H. destruct (trace_anatomy compile self code t H)
    as [e Hc Hrun Ht | program recorder calls f final_vars out Hc Hx Hr Hf Hg Hrun Ht
        | program recorder calls f e message final_vars out
            Hc Hx Hr He Hm Hf Hg Hrun Ht].
  - exists (reset self code). split; [apply sound_reset|].
    rewrite Hrun. split; [reflexivity|].
    apply steps_as_recorded; subst t; simpl; auto.
  - exists recorder. pose proof (sound_after_exec self code program) as Hs.
    rewrite Hx in Hs. apply getvalue_Some in Hg as [Hopen _].
    split; [exact (Hs Hopen)|]. rewrite Hrun.
    split; [reflexivity|].
    apply steps_as_recorded; subst t; simpl; auto.
  - exists recorder. pose proof (sound_after_exec self code program) as Hs.
    rewrite Hx in Hs. apply getvalue_Some in Hg as [Hopen _].
    split; [exact (Hs Hopen)|]. rewrite Hrun. cbn [self_after].
    destruct (last_step (Tracer.steps recorder)) as [last|] eqn:El.
    + rewrite (add_exception_step_Some _ _ _ last El) in Ht |- *.
      split; [reflexivity|].
      apply (steps_and_added recorder t e
               (exc_type_name e ++ ": " ++ message) last);
        subst t; [reflexivity | exact El | reflexivity].
    + rewrite (add_exception_step_None _ _ _ El) in Ht |- *.
      split; [reflexivity|].
      apply steps_as_recorded; subst t; simpl; auto.
      right. now apply last_step_None.
Qed.

(** A returned trace has the steps of the recorder, with one EXCEPTION step
    more when a failure was caught and the recorder held a step; the
    buffer of the recorder is open and its text is the final output. *)
Lemma trace_returned (compile : Compiler) (self : Tracer) (code : string)
    (t : ExecutionTrace) :
  result (trace compile self code) = Returns t ->
  (exists e,
     compile code (traced_filename self) = RaisesSyntaxError e /\
     Models.steps t = []) \/
  (exists program,
     compile code (traced_filename self) = Compiled program /\
     let recorder := fst (fst (exec_traced (reset self code) program)) in
     open recorder /\
     final_output t = StringIO.content (output_buffer recorder) /\
     step_count (self_after (trace compile self code)) = step_count recorder /\
     (Models.steps t = Tracer.steps recorder \/
      exists final,
        Models.steps t = (Tracer.steps recorder ++ [final])%list /\
        step_number final = Z.of_nat (List.length (Tracer.steps recorder)) + 1 /\
        step_type final = EXCEPTION /\
        variables final = current_variables recorder)).
Proof.
  intros H. destruct (trace_anatomy compile self code t H)
    as [e Hc Hrun Ht | program recorder calls f final_vars out Hc Hx Hr Hf Hg Hrun Ht
        | program recorder calls f e message final_vars out
            Hc Hx Hr He Hm Hf Hg Hrun Ht].
  - left. exists e. split; [exact Hc | now subst t].
  - right. exists program. split; [exact Hc|]. cbv zeta. rewrite Hx, Hrun.
    apply getvalue_Some in Hg as [Hopen ->]. subst t. simpl. auto.
  - right. exists program. split; [exact Hc|]. cbv zeta. rewrite Hx, Hrun.
    apply getvalue_Some in Hg as [Hopen ->]. cbn [fst self_after].
    split; [exact Hopen|]. split; [now subst t|].
    split; [apply add_exception_step_fields|].
    destruct (last_step (Tracer.steps recorder)) as [last|] eqn:El.
    + rewrite (add_exception_step_Some _ _ _ last El) in Ht.
      right. eexists. subst t. simpl. repeat split.
    + rewrite (add_exception_step_None _ _ _ El) in Ht.
      left. now subst t.
Qed.


Lemma in_trace_steps (recorder : Tracer) (t : ExecutionTrace)
    (step : ExecutionStep) :
  trace_steps recorder t ->
  In step (Models.steps t) ->
  In step (Tracer.steps recorder) \/
  exists e error_message last,
    success t = false /\
    last_step (Tracer.steps recorder) = Some last /\
    last_step (Models.steps t) = Some step /\
    step = added_step recorder e error_message last.
Proof.
  intros [E _ | e m last Hs Hl E] Hin; rewrite E in Hin; [auto|].
  apply in_app_or in Hin as [Hin | [<- | []]]; [auto|].
  right. exists e, m, last. rewrite E, last_step_snoc. auto.
Qed.

(** Runs a scenario inside a witness: the first conjunct is the equation
    that [Tracer.trace] returns the trace. *)
Ltac run_returns H :=
  match goal with
  | |- ?hyp /\ _ => assert (H : hyp) by (vm_compute; reflexivity);
                    split; [exact H|]
  end.

(** ** The properties that the specification states *)

(** *** Change detection *)

(** C1, at the input where the code departs from it: in the run of
    [x = None], [x = 5], [y = 0] the third recorded step binds [x] to [None],
    the fourth binds [x] to [5], the two values are unequal, and yet the
    fourth step's snapshot of [x] is not marked changed. *)
Theorem changed_not_set_after_None :
  let run := trace (Scenario.compiles_to Scenario.rebind_run)
                   (__init__ 1000) Scenario.rebind_code in
  exists t before after old new,
    result run = Returns t /\
    nth_error (Models.steps t) 2 = Some before /\
    nth_error (Models.steps t) 3 = Some after /\
    Dict.get (variables before) "x" = Some old /\
    Dict.get (variables after) "x" = Some new /\
    value old = PyNone /\ value new = PyInt 5 /\
    Builtins.ne (value old) (value new) = true /\
    changed new = false.
Proof.
  cbv zeta. do 5 eexists.
  split; [vm_compute; reflexivity|].
  repeat (split; [reflexivity|]). reflexivity.
Qed.

(** *** The printable representation *)

(** C5 is not what the code does: a rendering of 202 characters is cut to
    its first 97 characters, not to its first 100, before the marker; and
    for a value whose [__repr__] raises [SystemExit] no sentinel is
    substituted, the failure leaves [Variable.from_value]. *)
Lemma repr_value_not_100_plus_marker :
  (exists r var,
     Builtins.repr Scenario.long_string = Some r /\
     100 < PyStr.len r /\
     from_value "long" Scenario.long_string PyNone = Some var /\
     repr_value var <> PyStr.take 100 r ++ "...") /\
  (Builtins.repr Scenario.exiting_repr = None /\
   from_value "q" Scenario.exiting_repr PyNone = None).
Proof.
  split; [|split; reflexivity].
  do 2 eexists. split; [reflexivity|]. split; [vm_compute; reflexivity|].
  split; [reflexivity|].
  intros H. apply (f_equal String.length) in H. vm_compute in H. discriminate.
Qed.

(** C5 (amended): in the snapshot that [Variable.from_value] returns,
    when the rendering of the value has more than 100 characters the
    printable representation is its first 97 characters followed by the
    three-character marker, 100 characters in all (so at most 103); a
    rendering of at most 100 characters is kept whole; and when rendering
    fails with an [Exception] the printable representation is the fixed
    text [<repr error>].  When rendering fails outside [Exception]
    ([SystemExit], [KeyboardInterrupt]) there is no snapshot: the failure
    leaves [Variable.from_value]. *)
Theorem from_value_repr_value (name : string) (value previous : pyvalue) :
  (forall var,
     from_value name value previous = Some var ->
     (forall r, Builtins.repr value = Some r -> 100 < PyStr.len r ->
        repr_value var = PyStr.take 97 r ++ "..." /\
        PyStr.len (repr_value var) = 100 /\
        PyStr.len (repr_value var) <= 103) /\
     (forall r, Builtins.repr value = Some r -> PyStr.len r <= 100 ->
        repr_value var = r) /\
     (Builtins.repr value = None ->
        Builtins.repr_fatal value = false /\
        repr_value var = "<repr error>")) /\
  (Builtins.repr value = None -> Builtins.repr_fatal value = true ->
   from_value name value previous = None).
Proof.
  split.
  - intros var Hvar.
    assert (Hfatal : Builtins.repr_fatal value = false)
      by (apply (from_value_returns name value previous); eauto).
    apply from_value_Some in Hvar as (_ & _ & _ & -> & _). unfold printable.
    split; [|split].
    + intros r H Hlt. rewrite H.
      assert (Hlen : PyStr.len (PyStr.take 97 r ++ "...") = 100).
      { unfold PyStr.len in *. rewrite length_append, length_take by lia.
        reflexivity. }
      apply Z.ltb_lt in Hlt as ->. rewrite Hlen. repeat split. lia.
    + intros r H Hlen. rewrite H.
      destruct (100 <? PyStr.len r) eqn:E; [apply Z.ltb_lt in E; lia | reflexivity].
    + intros ->. split; [exact Hfatal | reflexivity].
  - intros Hnone Hfatal.
    destruct (from_value name value previous) as [var|] eqn:Hvar; [|reflexivity].
    assert (H : Builtins.repr_fatal value = false)
      by (apply (from_value_returns name value previous); eauto).
    congruence.
Qed.

Lemma from_value_repr_value_witness :
  (exists var,
     from_value "long" Scenario.long_string PyNone = Some var /\
     repr_value var
     = PyStr.take 97 (PyStr.repr (Scenario.repeat_char "a" 200)) ++ "..." /\
     PyStr.len (repr_value var) = 100 /\
     PyStr.len (repr_value var) <= 103) /\
  (exists var,
     from_value "n" (PyInt 5) PyNone = Some var /\ repr_value var = "5") /\
  (exists var,
     from_value "b" Scenario.unprintable PyNone = Some var /\
     repr_value var = "<repr error>") /\
  from_value "q" Scenario.exiting_repr PyNone = None.
Proof.
  split; [|split; [|split]].
  - eexists. split; [reflexivity|].
    apply (proj1 (proj1 (from_value_repr_value "long" Scenario.long_string PyNone)
                    _ eq_refl));
      [reflexivity | vm_compute; reflexivity].
  - eexists. split; [reflexivity|].
    apply (proj1 (proj2 (proj1 (from_value_repr_value "n" (PyInt 5) PyNone)
                           _ eq_refl)));
      [reflexivity | vm_compute; discriminate].
  - eexists. split; [reflexivity|].
    apply (proj2 (proj2 (proj1 (from_value_repr_value "b" Scenario.unprintable
                                  PyNone) _ eq_refl))).
    reflexivity.
  - apply (proj2 (from_value_repr_value "q" Scenario.exiting_repr PyNone));
      reflexivity.
Defined.

(** *** Parse failure *)

(** C7 is not what the code does for every source that does not compile:
    for a source with a null character [compile] raises [ValueError], which
    is no [SyntaxError], and [Tracer.trace] returns no trace at all. *)
Lemma compile_failure_not_always_reported :
  Scenario.refuses Scenario.null_code "<explainflow>" = RaisesAnother "ValueError" /\
  ~ exists t,
      result (trace Scenario.refuses (__init__ 1000) Scenario.null_code)
      = Returns t.
Proof. split; [reflexivity|]. intros [t H]. vm_compute in H. discriminate. Qed.

(** C7 (amended): when [compile] rejects the source with a [SyntaxError],
    the trace function is never called, the recorder is left as the reset
    made it, and the returned trace has no step, no success, and the error
    message [SyntaxError: <msg> (line <n>)] made of the compiler's
    diagnostic and the line number [n] that the error names, both of which
    it therefore contains; when the error names no line, the text [None]
    stands in the place of the number.  When [compile] fails with another
    exception, the trace function is not called either and the exception
    reaches the caller of [Tracer.trace]. *)
Theorem parse_failure_trace (compile : Compiler) (self : Tracer) (code : string) :
  let run := trace compile self code in
  (forall e,
     compile code (traced_filename self) = RaisesSyntaxError e ->
     callback_calls run = [] /\
     self_after run = reset self code /\
     exists t,
       result run = Returns t /\
       Models.steps t = [] /\
       success t = false /\
       PyStr.contains (msg e) (error_message t) = true /\
       (forall n,
          lineno e = Some n ->
          error_message t
          = "SyntaxError: " ++ msg e ++ " (line " ++ PyStr.of_int n ++ ")" /\
          PyStr.contains (PyStr.of_int n) (error_message t) = true) /\
       (lineno e = None ->
        error_message t = "SyntaxError: " ++ msg e ++ " (line None)")) /\
  (forall kind,
     compile code (traced_filename self) = RaisesAnother kind ->
     callback_calls run = [] /\
     result run = Propagates (compile_raises kind)).
Proof.
  cbv zeta. unfold trace. cbv zeta.
  change (traced_filename (reset self code)) with (traced_filename self).
  split.
  - intros e Hc. rewrite Hc. cbn [callback_calls self_after result].
    split; [reflexivity|]. split; [reflexivity|].
    eexists. split; [reflexivity|].
    cbn [Models.steps success error_message]. unfold syntax_error_message.
    split; [reflexivity|]. split; [reflexivity|].
    split; [apply contains_infix|]. split.
    + intros n ->. cbn [format_lineno]. split; [reflexivity|].
      rewrite <- (append_assoc "SyntaxError: " (msg e)).
      rewrite <- (append_assoc _ " (line ").
      apply contains_infix.
    + intros ->. reflexivity.
  - intros kind Hc. rewrite Hc. split; reflexivity.
Qed.

Lemma parse_failure_trace_witness :
  (let run := trace Scenario.rejects_at_12 (__init__ 1000) Scenario.malformed_code in
   callback_calls run = [] /\
   self_after run = reset (__init__ 1000) Scenario.malformed_code /\
   exists t,
     result run = Returns t /\
     Models.steps t = [] /\
     success t = false /\
     PyStr.contains "invalid syntax" (error_message t) = true /\
     error_message t = "SyntaxError: invalid syntax (line 12)" /\
     PyStr.contains "12" (error_message t) = true) /\
  (let run := trace Scenario.refuses (__init__ 1000) Scenario.null_code in
   callback_calls run = [] /\
   result run = Propagates (compile_raises "ValueError")).
Proof.
  split.
  - destruct (proj1 (parse_failure_trace Scenario.rejects_at_12 (__init__ 1000)
                       Scenario.malformed_code)
                {| msg := "invalid syntax"; lineno := Some 12 |} eq_refl)
      as (Hcalls & Hself & t & Ht & Hsteps & Hsuccess & Hmsg & Hline & _).
    split; [exact Hcalls|]. split; [exact Hself|].
    exists t. destruct (Hline 12 eq_refl) as [Htext Hnumber].
    repeat split; assumption.
  - apply (proj2 (parse_failure_trace Scenario.refuses (__init__ 1000)
                    Scenario.null_code) "ValueError").
    reflexivity.
Defined.

(** *** Faults that reach the caller *)









(** On the runs above: a trace for a [ZeroDivisionError], none for
    [SystemExit], none after [sys.stdout.close()], none for a source with
    a null character. *)
Example trace_returns_or_not :
  returns_a_trace (Scenario.compiles_to Scenario.failing_run)
                  (__init__ 1000) Scenario.failing_code /\
  ~ returns_a_trace (Scenario.compiles_to Scenario.exiting_run)
                    (__init__ 1000) Scenario.exiting_code /\
  ~ returns_a_trace (Scenario.compiles_to Scenario.closing_run)
                    (__init__ 2) Scenario.closing_code /\
  ~ returns_a_trace Scenario.refuses (__init__ 1000) Scenario.null_code.
Proof.
  split; [|split; [|split]].
  - unfold returns_a_trace.
    cbv beta iota zeta delta [Scenario.compiles_to]. split.
    + unfold caught. vm_compute. split; [reflexivity | discriminate].
    + unfold assembles. split; [vm_compute; reflexivity|].
      split; [|vm_compute; reflexivity].
      intros name value Hin. vm_compute in Hin. contradiction.
  - unfold returns_a_trace.
    cbv beta iota zeta delta [Scenario.compiles_to].
    intros [H _]. vm_compute in H. destruct H as [H _]. discriminate.
  - unfold returns_a_trace.
    cbv beta iota zeta delta [Scenario.compiles_to].
    intros [_ (_ & _ & H)]. vm_compute in H. discriminate.
  - intros H. exact H.
Qed.

(** *** Step numbers *)



(** *** The ceiling *)

(** The steps that the trace function records stay within the ceiling; the
    returned trace may hold one step more. *)
Lemma steps_within_ceiling_plus_one (compile : Compiler) (self : Tracer)
    (code : string) (t : ExecutionTrace) :
  result (trace compile self code) = Returns t ->
  step_count (self_after (trace compile self code)) <= Z.max 0 (max_steps self) /\
  Z.of_nat (List.length (Models.steps t))
    <= step_count (self_after (trace compile self code)) + 1.
Proof.
  intros H. pose proof H as H'. apply trace_returned in H'
    as [(e & Hc & Hnil) | (program & _ & Hopen & _ & Hcount & Hsteps)].
  - rewrite Hnil. unfold trace. cbv zeta.
    change (traced_filename (reset self code)) with (traced_filename self).
    rewrite Hc. simpl. lia.
  - destruct (recorder_after_exec self code program)
      as (Hcounted & (_ & Hb) & _).
    destruct (Hcounted Hopen) as [Hc _].
    rewrite Hcount. split; [assumption|].
    destruct Hsteps as [-> | (final & -> & _)].
    + lia.
    + rewrite length_app. simpl. lia.
Qed.

(** C2, at the input where the code departs from it: with [max_steps = 1]
    the [call] event of [print('hi')], [x = 1/0] uses up the ceiling, the
    [ZeroDivisionError] escapes afterwards, and the returned trace has two
    steps, the second being the EXCEPTION step added by [Tracer.trace]. *)
Theorem exception_step_exceeds_ceiling :
  let tracer := __init__ 1 in
  let run := trace (Scenario.compiles_to Scenario.failing_run)
                   tracer Scenario.failing_code in
  exists t,
    result run = Returns t /\
    max_steps tracer = 1 /\
    step_count (self_after run) = 1 /\
    List.length (Models.steps t) = 2%nat /\
    map step_type (Models.steps t) = [CALL; EXCEPTION].
Proof.
  cbv zeta. eexists. split; [vm_compute; reflexivity|].
  repeat split.
Qed.

(** *** Visible bindings *)

Lemma visible_steps_of_trace (compile : Compiler) (self : Tracer)
    (code : string) (t : ExecutionTrace) :
  result (trace compile self code) = Returns t ->
  Forall (fun step => visible_only (variables step)) (Models.steps t).
Proof.
  intros H. apply trace_returned in H
    as [(e & _ & ->) | (program & _ & _ & _ & _ & Hsteps)]; [constructor|].
  destruct (recorder_after_exec self code program)
    as (_ & _ & (Hall & Hcur) & _).
  destruct Hsteps as [-> | (final & -> & _ & _ & Hv)]; [exact Hall|].
  apply Forall_app. split; [exact Hall|].
  constructor; [now rewrite Hv | constructor].
Qed.

(** C9: no step of a returned trace holds a binding whose name starts with
    an underscore, nor a callable that lacks the mark of a trace target. *)
Theorem steps_hold_visible_bindings_only (compile : Compiler) (self : Tracer)
    (code : string) (t : ExecutionTrace) (step : ExecutionStep)
    (name : string) (var : Variable_) :
  result (trace compile self code) = Returns t ->
  In step (Models.steps t) ->
  In (name, var) (Dict.items (variables step)) ->
  PyStr.startswith name "_" = false /\
  (Builtins.callable (value var) = true ->
   Builtins.hasattr_traced (value var) = true).
Proof.
  intros H Hstep Hin.
  assert (Hvis : visible_only (variables step)).
  { apply visible_steps_of_trace in H. rewrite Forall_forall in H. auto. }
  destruct (Hvis name var Hin) as [Hname Hcall]. split; [exact Hname|].
  unfold untraced_callable in Hcall. intros Hc. rewrite Hc in Hcall.
  simpl in Hcall. now apply negb_false_iff in Hcall.
Qed.

Lemma steps_hold_visible_bindings_only_witness :
  exists t step var,
    result (trace (Scenario.compiles_to Scenario.branch_run)
                  (__init__ 1000) Scenario.branch_code) = Returns t /\
    nth_error (Models.steps t) 5 = Some step /\
    variables step = [("x", var)] /\
    PyStr.startswith "x" "_" = false /\
    (Builtins.callable (value var) = true ->
     Builtins.hasattr_traced (value var) = true).
Proof.
  do 3 eexists. split; [vm_compute; reflexivity|].
  split; [reflexivity|]. split; [reflexivity|].
  eapply (steps_hold_visible_bindings_only
            (Scenario.compiles_to Scenario.branch_run)
            (__init__ 1000) Scenario.branch_code).
  - vm_compute. reflexivity.
  - do 5 right. left. reflexivity.
  - left. reflexivity.
Defined.

(** *** Captured output *)

(** C10 is not what the code does for every traced program.  The buffer is
    the program's [sys.stdout]: in the run of [print('hi')],
    [sys.stdout.seek(0)], [sys.stdout.truncate()], [y = 0] the step of the
    fourth line holds the output [hi] and the step of the fifth line, which
    follows it, holds no output, and neither does the final output. *)
Lemma output_not_always_monotone :
  exists t earlier later,
    result (trace (Scenario.compiles_to Scenario.rewinding_run)
                  (__init__ 1000) Scenario.rewinding_code) = Returns t /\
    step_count (self_after (trace (Scenario.compiles_to Scenario.rewinding_run)
                                  (__init__ 1000) Scenario.rewinding_code)) = 7 /\
    nth_error (Models.steps t) 4 = Some earlier /\
    nth_error (Models.steps t) 5 = Some later /\
    output earlier = Scenario.hi /\
    output later = EmptyString /\
    final_output t = EmptyString /\
    String.prefix (output earlier) (output later) = false /\
    String.prefix (output earlier) (final_output t) = false.
Proof.
  do 3 eexists. split; [vm_compute; reflexivity|].
  split; [vm_compute; reflexivity|].
  repeat (split; [reflexivity|]). reflexivity.
Qed.

(** C10 (amended): for a traced program that does nothing to the
    redirected streams but write to them (it does not move their position,
    truncate them or close them), among the steps that the trace function
    recorded, which are the first [step_count] steps of the returned trace,
    the output of an earlier step is a prefix of the output of a later one,
    and the output of each is a prefix of the final output. *)
Theorem output_grows_by_appending (compile : Compiler) (self : Tracer)
    (code : string) (t : ExecutionTrace) :
  (forall program,
     compile code (traced_filename self) = Compiled program ->
     only_writes program) ->
  result (trace compile self code) = Returns t ->
  let recorded := step_count (self_after (trace compile self code)) in
  (forall i j earlier later,
     (i < j)%nat -> Z.of_nat j < recorded ->
     nth_error (Models.steps t) i = Some earlier ->
     nth_error (Models.steps t) j = Some later ->
     String.prefix (output earlier) (output later) = true) /\
  (forall i step,
     Z.of_nat i < recorded ->
     nth_error (Models.steps t) i = Some step ->
     String.prefix (output step) (final_output t) = true).
Proof.
  intros Hwrites H. pose proof H as H'. apply trace_returned in H'
    as [(e & Hc & Hnil) | (program & Hc & Hopen & Hout & Hcount & Hsteps)];
    cbv zeta.
  - rewrite Hnil. split; intros; destruct i; discriminate.
  - destruct (recorder_after_exec self code program) as (Hcounted & _).
    destruct (Hcounted Hopen) as [Hn _].
    assert (Hbuf : buffered (fst (fst (exec_traced (reset self code) program)))).
    { apply buffered_after_exec; [now apply Hwrites|].
      split; [reflexivity|]. split; [reflexivity|].
      split; intros; [destruct i; discriminate | contradiction]. }
    destruct Hbuf as (_ & _ & Hpair & Hfinal).
    rewrite Hcount, Hn, Hout.
    assert (Hnth : forall i, (i < List.length (Tracer.steps
                     (fst (fst (exec_traced (reset self code) program)))))%nat ->
              nth_error (Models.steps t) i
              = nth_error (Tracer.steps
                  (fst (fst (exec_traced (reset self code) program)))) i).
    { intros i Hi. destruct Hsteps as [-> | (final & -> & _)];
        [reflexivity | now apply nth_error_app1]. }
    split.
    + intros i j earlier later Hij Hj Hi Hj'.
      rewrite Hnth in Hi, Hj' by lia. eauto.
    + intros i step Hi Hs. rewrite Hnth in Hs by lia.
      eapply Hfinal, nth_error_In, Hs.
Qed.

Lemma output_grows_by_appending_witness :
  exists t earlier later,
    result (trace (Scenario.compiles_to Scenario.failing_run)
                  (__init__ 1000) Scenario.failing_code) = Returns t /\
    nth_error (Models.steps t) 1 = Some earlier /\
    nth_error (Models.steps t) 2 = Some later /\
    output earlier = EmptyString /\ output later = Scenario.hi /\
    final_output t = Scenario.hi /\
    String.prefix (output earlier) (output later) = true /\
    String.prefix (output later) (final_output t) = true.
Proof.
  do 3 eexists.
  match goal with
  | |- ?hyp /\ _ => assert (H : hyp) by (vm_compute; reflexivity)
  end.
  split; [exact H|].
  do 5 (split; [reflexivity|]).
  assert (Hwrites : forall program,
            Scenario.compiles_to Scenario.failing_run Scenario.failing_code
              (traced_filename (__init__ 1000)) = Compiled program ->
            only_writes program).
  { intros program Hc. injection Hc as <-. vm_compute. repeat split. }
  pose proof (output_grows_by_appending
                (Scenario.compiles_to Scenario.failing_run)
                (__init__ 1000) Scenario.failing_code _ Hwrites H)
    as [Hpair Hfinal].
  split.
  - apply (Hpair 1%nat 2%nat); [lia | vm_compute | |]; reflexivity.
  - apply (Hfinal 2%nat); [vm_compute|]; reflexivity.
Defined.

(** *** Explanations *)

(** C8: in a returned trace, an ASSIGNMENT step with exactly one changed
    variable is explained by [Set <name> to <printable>] with that
    variable's printable representation, a RETURN step that carries a value
    by [Returning: <printable>] with the rendering of the value, and a
    CONDITION step by [Evaluating condition: <line>] with the trimmed line. *)
Theorem explanations_by_kind (compile : Compiler) (self : Tracer)
    (code : string) (t : ExecutionTrace) (step : ExecutionStep) :
  result (trace compile self code) = Returns t ->
  In step (Models.steps t) ->
  (step_type step = ASSIGNMENT ->
   forall var,
     filter changed (Dict.values (variables step)) = [var] ->
     explanation step = "Set " ++ name var ++ " to " ++ repr_value var) /\
  (step_type step = RETURN ->
   return_value step <> PyNone ->
   exists printable,
     Builtins.repr (return_value step) = Some printable /\
     explanation step = "Returning: " ++ printable) /\
  (step_type step = CONDITION ->
   explanation step = "Evaluating condition: " ++ PyStr.strip (line_content step)).
Proof.
  intros H Hstep.
  assert (Hex : explained step).
  { apply trace_returned in H
      as [(e & _ & Hnil) | (program & _ & _ & _ & _ & Hsteps)].
    - rewrite Hnil in Hstep. contradiction.
    - destruct (recorder_after_exec self code program)
        as (_ & _ & _ & Hall).
      unfold all_explained in Hall. rewrite Forall_forall in Hall.
      destruct Hsteps as [E | (final & E & _ & Hkind & _)];
        rewrite E in Hstep; [auto|].
      apply in_app_or in Hstep as [Hstep | [<- | []]]; [auto|].
      unfold explained. now rewrite Hkind. }
  unfold explained in Hex.
  repeat split; intros Hkind; rewrite Hkind in Hex; exact Hex.
Qed.

Lemma explanations_by_kind_witness :
  exists t assignment returning condition var,
    result (trace (Scenario.compiles_to Scenario.branch_run)
                  (__init__ 1000) Scenario.branch_code) = Returns t /\
    nth_error (Models.steps t) 5 = Some assignment /\
    nth_error (Models.steps t) 7 = Some condition /\
    nth_error (Models.steps t) 9 = Some returning /\
    filter changed (Dict.values (variables assignment)) = [var] /\
    explanation assignment = "Set x to 2" /\
    explanation returning = "Returning: 3" /\
    explanation condition = "Evaluating condition: if a > 0:".
Proof.
  do 5 eexists.
  match goal with
  | |- ?hyp /\ _ => assert (H : hyp) by (vm_compute; reflexivity)
  end.
  split; [exact H|].
  do 4 (split; [reflexivity|]).
  pose proof (fun step => explanations_by_kind
                (Scenario.compiles_to Scenario.branch_run)
                (__init__ 1000) Scenario.branch_code _ step H) as Hsteps.
  split; [|split].
  - edestruct Hsteps as (Hassign & _ & _);
      [do 5 right; left; reflexivity|].
    exact (Hassign eq_refl _ eq_refl).
  - edestruct Hsteps as (_ & Hret & _);
      [do 9 right; left; reflexivity|].
    destruct (Hret eq_refl) as (printable & Hrepr & Hexpl); [discriminate|].
    injection Hrepr as <-. exact Hexpl.
  - edestruct Hsteps as (_ & _ & Hcond);
      [do 7 right; left; reflexivity|].
    apply (Hcond eq_refl).
Defined.

(** *** Runtime failure *)





(* ================================================================== *)
(** * Further properties of the recorder, the trace and its readers *)

(** ** Call depth *)

(** X1: the call depth of every step of a returned trace is at least 0. *)
Theorem call_depth_never_negative (compile : Compiler) (self : Tracer)
    (code : string) (t : ExecutionTrace) (step : ExecutionStep) :
  result (trace compile self code) = Returns t ->
  In step (Models.steps t) ->
  0 <= Models.call_depth step.
Proof.
  intros H Hin.
  destruct (trace_from_recorder compile self code t H)
    as (recorder & Hsound & _ & Hsteps).
  destruct Hsound as (_ & _ & (_ & Hdepth) & _).
  destruct (in_trace_steps recorder t step Hsteps Hin)
    as [Hrec | (e & m & last & _ & _ & _ & ->)].
  - rewrite Forall_forall in Hdepth. auto.
  - simpl. lia.
Qed.

Lemma call_depth_never_negative_witness :
  exists t step,
    result (trace (Scenario.compiles_to Scenario.branch_run)
                  (__init__ 1000) Scenario.branch_code) = Returns t /\
    nth_error (Models.steps t) 10 = Some step /\
    step_type step = RETURN /\
    0 <= Models.call_depth step.
Proof.
  do 2 eexists. run_returns H. do 2 (split; [reflexivity|]).
  apply (call_depth_never_negative _ _ _ _ _ H).
  do 10 right. left. reflexivity.
Defined.



(** ** Changed flags *)



(** ** Snapshots *)

(** X4: every variable of every step of a returned trace is filed under
    its own name, is found by a lookup of that name, carries the type name
    of its value, and has a printable representation of at most 100
    characters. *)
Theorem step_variables_are_snapshots (compile : Compiler) (self : Tracer)
    (code : string) (t : ExecutionTrace) (step : ExecutionStep)
    (key : string) (var : Variable_) :
  result (trace compile self code) = Returns t ->
  In step (Models.steps t) ->
  In (key, var) (Dict.items (variables step)) ->
  name var = key /\
  type_name var = Builtins.type_name (value var) /\
  PyStr.len (repr_value var) <= 100 /\
  Dict.get (variables step) key = Some var.
Proof.
  intros H Hstep Hin.
  destruct (trace_from_recorder compile self code t H)
    as (recorder & Hsound & _ & Hsteps).
  destruct Hsound as (_ & _ & _ & _ & (Hall & Hcur) & _).
  assert (Hb : built (variables step)).
  { destruct (in_trace_steps recorder t step Hsteps Hstep)
      as [Hrec | (e & m & last & _ & _ & _ & ->)].
    - rewrite Forall_forall in Hall. auto.
    - exact Hcur. }
  destruct (built_entry _ _ _ Hb Hin) as (H1 & H2 & H3 & H4 & _). auto.
Qed.

Lemma step_variables_are_snapshots_witness :
  exists t step var,
    result (trace (Scenario.compiles_to Scenario.branch_run)
                  (__init__ 1000) Scenario.branch_code) = Returns t /\
    nth_error (Models.steps t) 10 = Some step /\
    Dict.get (variables step) "y" = Some var /\
    name var = "y" /\
    type_name var = Builtins.type_name (value var) /\
    PyStr.len (repr_value var) <= 100 /\
    Dict.get (variables step) "y" = Some var.
Proof.
  do 3 eexists. run_returns H. do 2 (split; [reflexivity|]).
  eapply (step_variables_are_snapshots _ _ _ _ _ _ _ H).
  - do 10 right. left. reflexivity.
  - right. left. reflexivity.
Defined.


(** ** Line contents, kinds and explanations *)

Lemma last_step_In (steps : list ExecutionStep) (step : ExecutionStep) :
  last_step steps = Some step -> In step steps.
Proof.
  intros H. apply last_step_Some in H as [front ->].
  apply in_or_app. right. now left.
Qed.

(** X6: the line content of every step of a returned trace is the line of
    the stripped source at the step's line number, and the empty string
    when the line number is outside the stripped source. *)
Theorem line_content_is_source_line (compile : Compiler) (self : Tracer)
    (code : string) (t : ExecutionTrace) (step : ExecutionStep) :
  result (trace compile self code) = Returns t ->
  In step (Models.steps t) ->
  line_content step
  = line_at (PyStr.split PyStr.newline (PyStr.strip code)) (line_number step).
Proof.
  intros H Hstep.
  destruct (trace_from_recorder compile self code t H)
    as (recorder & Hsound & _ & Hsteps).
  destruct Hsound as (_ & _ & _ & (_ & Hall) & _).
  rewrite Forall_forall in Hall. simpl in Hall.
  destruct (in_trace_steps recorder t step Hsteps Hstep)
    as [Hrec | (e & m & last & _ & Hlast & _ & ->)].
  - auto.
  - simpl. apply Hall. now apply last_step_In.
Qed.

Lemma line_content_is_source_line_witness :
  exists t step,
    result (trace (Scenario.compiles_to Scenario.branch_run)
                  (__init__ 1000) Scenario.branch_code) = Returns t /\
    nth_error (Models.steps t) 7 = Some step /\
    line_number step = 2 /\
    line_content step = "    if a > 0:" /\
    line_content step
    = line_at (PyStr.split PyStr.newline (PyStr.strip Scenario.branch_code))
              (line_number step).
Proof.
  do 2 eexists. run_returns H. do 3 (split; [reflexivity|]).
  apply (line_content_is_source_line _ _ _ _ _ H).
  do 7 right. left. reflexivity.
Defined.

(** X7: no step of a returned trace has the kind LOOP_ITERATION or
    LOOP_END, and every step has an explanation that is not empty. *)
Theorem steps_have_produced_kinds (compile : Compiler) (self : Tracer)
    (code : string) (t : ExecutionTrace) (step : ExecutionStep) :
  result (trace compile self code) = Returns t ->
  In step (Models.steps t) ->
  step_type step <> LOOP_ITERATION /\
  step_type step <> LOOP_END /\
  explanation step <> EmptyString.
Proof.
  intros H Hstep.
  destruct (trace_from_recorder compile self code t H)
    as (recorder & Hsound & _ & Hsteps).
  destruct Hsound as (_ & _ & _ & _ & _ & Hall & _).
  unfold kinds_kept in Hall. rewrite Forall_forall in Hall.
  destruct (in_trace_steps recorder t step Hsteps Hstep)
    as [Hrec | (e & m & last & _ & _ & _ & ->)].
  - destruct (Hall step Hrec) as (Hk & He & _).
    repeat split; try assumption; intros E; rewrite E in Hk; discriminate.
  - repeat split; discriminate.
Qed.

Lemma steps_have_produced_kinds_witness :
  exists t step,
    result (trace (Scenario.compiles_to Scenario.failing_run)
                  (__init__ 1000) Scenario.failing_code) = Returns t /\
    nth_error (Models.steps t) 5 = Some step /\
    step_type step <> LOOP_ITERATION /\
    step_type step <> LOOP_END /\
    explanation step <> EmptyString.
Proof.
  do 2 eexists. run_returns H. split; [reflexivity|].
  apply (steps_have_produced_kinds _ _ _ _ _ H).
  do 5 right. left. reflexivity.
Defined.

(** X8: in a returned trace only the step that [Tracer.trace] adds after a
    caught failure carries an exception object: such a step is the last
    one, it follows a recorded step whose variables, line number and line
    content it repeats, its kind is EXCEPTION, its output is empty, its
    call depth is 0, and the trace has no success. *)
Theorem exception_object_only_on_added_step (compile : Compiler)
    (self : Tracer) (code : string) (t : ExecutionTrace) (step : ExecutionStep) :
  result (trace compile self code) = Returns t ->
  In step (Models.steps t) ->
  exception step <> None ->
  (exists front before,
     Models.steps t = (front ++ [before; step])%list /\
     variables step = variables before /\
     line_number step = line_number before /\
     line_content step = line_content before) /\
  step_type step = EXCEPTION /\
  output step = EmptyString /\
  Models.call_depth step = 0 /\
  success t = false.
Proof.
  intros H Hstep Hexc.
  assert (Hkinds : forall program s,
            In s (Tracer.steps (fst (fst (exec_traced (reset self code) program)))) ->
            exception s = None).
  { intros program s Hin.
    assert (Hall : kinds_kept (fst (fst (exec_traced (reset self code) program)))).
    { apply (exec_traced_invariant kinds_kept
               (fun _ _ H => H) kinds_kept_trace_callback).
      constructor. }
    unfold kinds_kept in Hall. rewrite Forall_forall in Hall.
    now apply Hall. }
  destruct (trace_anatomy compile self code t H)
    as [e Hc Hrun Ht | program recorder calls f final_vars out Hc Hx Hr Hf Hg Hrun Ht
        | program recorder calls f e message final_vars out
            Hc Hx Hr He Hm Hf Hg Hrun Ht].
  - subst t. contradiction.
  - specialize (Hkinds program). rewrite Hx in Hkinds.
    subst t. now apply Hkinds in Hstep.
  - specialize (Hkinds program). rewrite Hx in Hkinds. cbn [fst] in Hkinds.
    pose proof (current_kept_after_exec self code program) as Hcur.
    rewrite Hx in Hcur. unfold current_kept in Hcur. cbn [fst] in Hcur.
    destruct (last_step (Tracer.steps recorder)) as [last|] eqn:El.
    + rewrite (add_exception_step_Some _ _ _ last El) in Ht.
      subst t. cbn [Models.steps assembled steps_append Tracer.steps] in *.
      apply in_app_or in Hstep as [Hrec | [<- | []]].
      * now apply Hkinds in Hrec.
      * apply last_step_Some in El as [front Efront].
        split; [|repeat split].
        exists front, last. rewrite Efront, <- app_assoc. simpl.
        repeat split. now rewrite Hcur.
    + rewrite (add_exception_step_None _ _ _ El) in Ht.
      subst t. cbn [Models.steps assembled] in Hstep.
      now apply Hkinds in Hstep.
Qed.

Lemma exception_object_only_on_added_step_witness :
  exists t step,
    result (trace (Scenario.compiles_to Scenario.failing_run)
                  (__init__ 1000) Scenario.failing_code) = Returns t /\
    nth_error (Models.steps t) 5 = Some step /\
    exception step = Some Scenario.ZeroDivisionError /\
    (exists front before,
       Models.steps t = (front ++ [before; step])%list /\
       variables step = variables before /\
       line_number step = line_number before /\
       line_content step = line_content before) /\
    step_type step = EXCEPTION /\
    output step = EmptyString /\
    Models.call_depth step = 0 /\
    success t = false.
Proof.
  do 2 eexists. run_returns H. do 2 (split; [reflexivity|]).
  apply (exception_object_only_on_added_step _ _ _ _ _ H).
  - do 5 right. left. reflexivity.
  - discriminate.
Defined.

(** ** Final variables *)

Lemma final_binding_built (locals : list (string * pyvalue)) :
  forall final_vars result,
    fold_raising final_binding locals final_vars = Some result ->
    NoDup (Dict.keys final_vars) ->
    NoDup (Dict.keys result).
Proof.
  intros final_vars result H Hnd. revert H.
  apply (fold_raising_invariant (fun d => NoDup (Dict.keys d))); [|exact Hnd].
  intros a [name value] a' Ha. unfold final_binding.
  destruct (negb (PyStr.startswith name "_"));
    [|intros E; now injection E as <-].
  destruct (from_value name value PyNone); [|discriminate].
  intros E. injection E as <-. now apply NoDup_keys_set.
Qed.

Lemma final_binding_entries (locals : list (string * pyvalue)) :
  forall final_vars result key var,
    fold_raising final_binding locals final_vars = Some result ->
    In (key, var) result ->
    In (key, var) final_vars \/
    PyStr.startswith key "_" = false /\
    exists value, In (key, value) locals /\ from_value key value PyNone = Some var.
Proof.
  induction locals as [|[name value] locals IH];
    intros final_vars result key var Hfold Hin; cbn [fold_raising] in Hfold.
  - injection Hfold as <-. auto.
  - destruct (final_binding final_vars (name, value)) as [d|] eqn:Hb;
      [|discriminate].
    destruct (IH _ _ _ _ Hfold Hin) as [Hin1 | (Hk & v & Hv & Hvar)].
    + unfold final_binding in Hb.
      destruct (PyStr.startswith name "_") eqn:E; cbn [negb] in Hb;
        [injection Hb as <-; auto|].
      destruct (from_value name value PyNone) as [var1|] eqn:Hvar; [|discriminate].
      injection Hb as <-.
      apply in_set in Hin1 as [[Hk Hv]|Hin1]; [|auto].
      simpl in Hk, Hv. subst key var. right. split; [assumption|].
      exists value. split; [now left | exact Hvar].
    + right. split; [assumption|]. exists v. split; [now right | exact Hvar].
Qed.

Lemma final_binding_keys (locals : list (string * pyvalue)) :
  forall final_vars result key,
    fold_raising final_binding locals final_vars = Some result ->
    (In key (Dict.keys result) <->
     In key (Dict.keys final_vars) \/
     In key (Dict.keys locals) /\ PyStr.startswith key "_" = false).
Proof.
  induction locals as [|[name value] locals IH];
    intros final_vars result key Hfold; cbn [fold_raising] in Hfold.
  - injection Hfold as <-. simpl. tauto.
  - destruct (final_binding final_vars (name, value)) as [d|] eqn:Hb;
      [|discriminate].
    rewrite (IH _ _ _ Hfold). unfold final_binding in Hb. simpl.
    destruct (PyStr.startswith name "_") eqn:E; cbn [negb] in Hb.
    + injection Hb as <-. split; [tauto|].
      intros [H|[[->|H] Hk]]; auto. congruence.
    + destruct (from_value name value PyNone) as [var1|]; [|discriminate].
      injection Hb as <-. rewrite in_keys_set_iff. split.
      * intros [[->|H]|[H Hk]]; auto.
      * intros [H|[[->|H] Hk]]; auto.
Qed.

(** X9: the final variables of a returned trace are snapshots filed under
    their own names, none of them internally named and none of them marked
    changed, each with a printable representation of at most 100
    characters; and a name is among them exactly when the program left it
    bound at module level and it does not start with an underscore, be its
    value callable or not. *)
Theorem final_variables_of_trace (compile : Compiler) (self : Tracer)
    (code : string) (t : ExecutionTrace) :
  result (trace compile self code) = Returns t ->
  (forall key var,
     In (key, var) (Dict.items (final_variables t)) ->
     PyStr.startswith key "_" = false /\
     name var = key /\
     changed var = false /\
     PyStr.len (repr_value var) <= 100 /\
     Dict.get (final_variables t) key = Some var) /\
  (forall program key,
     compile code (traced_filename self) = Compiled program ->
     (Dict.mem (final_variables t) key = true <->
      In key (Dict.keys (exec_locals (snd (exec_traced (reset self code) program))))
      /\ PyStr.startswith key "_" = false)).
Proof.
  intros H.
  assert (Hfinal :
    forall f final_vars,
      final_variables_of f = Some final_vars ->
      (forall key var,
         In (key, var) (Dict.items final_vars) ->
         PyStr.startswith key "_" = false /\
         name var = key /\ changed var = false /\
         PyStr.len (repr_value var) <= 100 /\
         Dict.get final_vars key = Some var) /\
      (forall key,
         Dict.mem final_vars key = true <->
         In key (Dict.keys (exec_locals f)) /\ PyStr.startswith key "_" = false)).
  { intros f final_vars Hf. unfold final_variables_of in Hf.
    destruct (exec_locals_other_keys f); [|discriminate]. split.
    - intros key var Hin.
      destruct (final_binding_entries _ _ _ _ _ Hf Hin)
        as [[] | (Hk & value & _ & Hvar)].
      apply from_value_Some in Hvar as (Hn & _ & _ & Hr & Hc).
      rewrite Hn, Hr, Hc. repeat split; try assumption.
      + apply printable_short.
      + apply In_get; [|exact Hin].
        apply (final_binding_built _ _ _ Hf). constructor.
    - intros key. rewrite mem_keys, (final_binding_keys _ _ _ _ Hf).
      simpl. tauto. }
  destruct (trace_anatomy compile self code t H)
    as [e Hc Hrun Ht | program recorder calls f final_vars out Hc Hx Hr Hf Hg Hrun Ht
        | program recorder calls f e message final_vars out
            Hc Hx Hr He Hm Hf Hg Hrun Ht].
  - split.
    + subst t. intros key var [].
    + intros program key Hc'. congruence.
  - destruct (Hfinal _ _ Hf) as [Hentries Hkeys]. subst t.
    split; [exact Hentries|].
    intros program' key Hc'. rewrite Hc in Hc'. injection Hc' as <-.
    rewrite Hx. apply Hkeys.
  - destruct (Hfinal _ _ Hf) as [Hentries Hkeys]. subst t.
    split; [exact Hentries|].
    intros program' key Hc'. rewrite Hc in Hc'. injection Hc' as <-.
    rewrite Hx. apply Hkeys.
Qed.

Lemma final_variables_of_trace_witness :
  exists t f,
    result (trace (Scenario.compiles_to Scenario.branch_run)
                  (__init__ 1000) Scenario.branch_code) = Returns t /\
    Dict.get (final_variables t) "f" = Some f /\
    Builtins.callable (value f) = true /\
    changed f = false /\
    Dict.keys (final_variables t) = ["f"; "x"; "y"].
Proof.
  do 2 eexists. run_returns H. do 2 (split; [reflexivity|]).
  split; [|reflexivity].
  eapply (proj1 (final_variables_of_trace _ _ _ _ H)).
  left. reflexivity.
Defined.

(** ** Counts and outcome *)

Lemma length_split (sep : ascii) (s : string) :
  List.length (PyStr.split sep s) = S (PyStr.count sep s).
Proof.
  induction s as [|c s IH]; simpl; [reflexivity|].
  destruct (Ascii.eqb c sep); simpl.
  - now rewrite IH.
  - destruct (PyStr.split sep s) as [|w ws]; simpl in *; [discriminate | exact IH].
Qed.

Lemma kind_and_message_nonempty (kind message : string) :
  kind ++ ": " ++ message <> EmptyString.
Proof. destruct kind; discriminate. Qed.

Lemma lines_after_exec (self : Tracer) (code : string) (program : Execution) :
  code_lines (fst (fst (exec_traced (reset self code) program)))
  = code_lines (reset self code).
Proof.
  apply (exec_traced_invariant
           (fun s => code_lines s = code_lines (reset self code)));
    [intros s c H; exact H | | reflexivity].
  intros s frame event arg H. by_effect s frame event arg; exact H.
Qed.

(** X10: a returned trace keeps the source it was given, and its line
    count is one more than the number of newlines of the stripped source:
    never less than 1, and 1 for an empty source. *)
Theorem total_lines_counts_stripped_source (compile : Compiler) (self : Tracer)
    (code : string) (t : ExecutionTrace) :
  result (trace compile self code) = Returns t ->
  Models.code t = code /\
  total_lines t
  = Z.of_nat (PyStr.count PyStr.newline (PyStr.strip code)) + 1 /\
  1 <= total_lines t.
Proof.
  intros H.
  assert (Hlines : forall recorder,
            code_lines recorder = code_lines (reset self code) ->
            Z.of_nat (List.length (code_lines recorder))
            = Z.of_nat (PyStr.count PyStr.newline (PyStr.strip code)) + 1).
  { intros recorder ->. simpl. rewrite length_split. lia. }
  destruct (trace_anatomy compile self code t H)
    as [e Hc Hrun Ht | program recorder calls f final_vars out Hc Hx Hr Hf Hg Hrun Ht
        | program recorder calls f e message final_vars out
            Hc Hx Hr He Hm Hf Hg Hrun Ht];
    subst t; cbn [Models.code total_lines assembled].
  - rewrite Hlines by reflexivity. repeat split. lia.
  - pose proof (lines_after_exec self code program) as Hl. rewrite Hx in Hl.
    rewrite (Hlines recorder Hl). repeat split. lia.
  - pose proof (lines_after_exec self code program) as Hl. rewrite Hx in Hl.
    destruct (add_exception_step_fields recorder e
                (exc_type_name e ++ ": " ++ message)) as (_ & _ & El & _).
    rewrite Hlines by (rewrite El; exact Hl). repeat split. lia.
Qed.

Lemma total_lines_counts_stripped_source_witness :
  exists t,
    result (trace (Scenario.compiles_to (Finishes (Scenario.finishes [] None)))
                  (__init__ 1000) EmptyString) = Returns t /\
    Models.code t = EmptyString /\
    total_lines t = 1 /\
    1 <= total_lines t.
Proof.
  eexists. run_returns H.
  exact (total_lines_counts_stripped_source _ _ _ _ H).
Defined.

(** X11: a returned trace has success exactly when its error message is
    empty. *)
Theorem success_iff_no_error_message (compile : Compiler) (self : Tracer)
    (code : string) (t : ExecutionTrace) :
  result (trace compile self code) = Returns t ->
  (success t = true <-> error_message t = EmptyString).
Proof.
  intros H.
  destruct (trace_anatomy compile self code t H)
    as [e Hc Hrun Ht | program recorder calls f final_vars out Hc Hx Hr Hf Hg Hrun Ht
        | program recorder calls f e message final_vars out
            Hc Hx Hr He Hm Hf Hg Hrun Ht];
    subst t; cbn [success error_message assembled].
  - split; discriminate.
  - split; reflexivity.
  - split; [discriminate|]. intros E.
    now apply kind_and_message_nonempty in E.
Qed.

Lemma success_iff_no_error_message_witness :
  exists t,
    result (trace (Scenario.compiles_to Scenario.failing_run)
                  (__init__ 1000) Scenario.failing_code) = Returns t /\
    success t = false /\
    (success t = true <-> error_message t = EmptyString).
Proof.
  eexists. run_returns H. split; [reflexivity|].
  exact (success_iff_no_error_message _ _ _ _ H).
Defined.

(** X12: a returned trace with success has at most [max(0, max_steps)]
    steps, and a returned trace without success has at most one step more. *)
Theorem steps_within_ceiling (compile : Compiler) (self : Tracer)
    (code : string) (t : ExecutionTrace) :
  result (trace compile self code) = Returns t ->
  Z.of_nat (List.length (Models.steps t))
  <= Z.max 0 (max_steps self) + (if success t then 0 else 1).
Proof.
  intros H.
  destruct (trace_from_recorder compile self code t H)
    as (recorder & Hsound & _ & Hsteps).
  destruct Hsound as ((Hc & _) & (_ & Hb) & _).
  destruct Hsteps as [E [Hs|Hnil] | e m last Hs _ E]; rewrite E.
  - rewrite Hs. lia.
  - rewrite Hnil. simpl. destruct (success t); lia.
  - rewrite Hs, length_app. simpl. lia.
Qed.

Lemma steps_within_ceiling_witness :
  exists t,
    result (trace (Scenario.compiles_to Scenario.branch_run)
                  (__init__ 4) Scenario.branch_code) = Returns t /\
    success t = true /\
    List.length (Models.steps t) = 4%nat /\
    Z.of_nat (List.length (Models.steps t))
    <= Z.max 0 (max_steps (__init__ 4)) + (if success t then 0 else 1).
Proof.
  eexists. run_returns H. do 2 (split; [reflexivity|]).
  exact (steps_within_ceiling _ _ _ _ H).
Defined.

(** X13: with a ceiling of 0 or less a returned trace has no step at all,
    not even the step that reports a caught failure. *)
Theorem no_steps_without_ceiling (compile : Compiler) (self : Tracer)
    (code : string) (t : ExecutionTrace) :
  max_steps self <= 0 ->
  result (trace compile self code) = Returns t ->
  Models.steps t = [].
Proof.
  intros Hmax H.
  destruct (trace_from_recorder compile self code t H)
    as (recorder & Hsound & _ & Hsteps).
  destruct Hsound as ((Hc & _) & (_ & Hb) & _).
  assert (Hnil : Tracer.steps recorder = []).
  { destruct (Tracer.steps recorder); [reflexivity|]. simpl in Hc. lia. }
  destruct Hsteps as [E _ | e m last _ Hlast _].
  - now rewrite E.
  - rewrite Hnil in Hlast. discriminate.
Qed.

Lemma no_steps_without_ceiling_witness :
  exists t,
    result (trace (Scenario.compiles_to Scenario.failing_run)
                  (__init__ 0) Scenario.failing_code) = Returns t /\
    success t = false /\
    Models.steps t = [].
Proof.
  eexists. run_returns H. split; [reflexivity|].
  apply (no_steps_without_ceiling
           (Scenario.compiles_to Scenario.failing_run) (__init__ 0)
           Scenario.failing_code);
    [vm_compute; discriminate | exact H].
Defined.

(** ** Events and steps *)

Lemma own_calls_cons (filename : string) (frame : Frame) (event : Event)
    (arg : pyvalue) (calls : list CallbackCall) :
  own_calls filename ((frame, event, arg) :: calls)
  = ((if String.eqb (co_filename frame) filename then 1 else 0)
     + own_calls filename calls)%nat.
Proof.
  unfold own_calls. simpl.
  destruct (String.eqb (co_filename frame) filename); reflexivity.
Qed.

Lemma exec_traced_own_calls (program : Execution) :
  forall self,
    traced_filename (fst (fst (exec_traced self program))) = traced_filename self /\
    step_count (fst (fst (exec_traced self program)))
    <= step_count self
       + Z.of_nat (own_calls (traced_filename self)
                             (snd (fst (exec_traced self program)))).
Proof.
  induction program as [f | calls frame event arg resumes IH on_fault];
    intros self; cbn [exec_traced].
  - rewrite streams_fields. simpl. split; [reflexivity | unfold own_calls; simpl; lia].
  - assert (Hs0 : traced_filename (streams self calls) = traced_filename self /\
                  step_count (streams self calls) = step_count self)
      by (rewrite streams_fields; split; reflexivity).
    destruct Hs0 as [Hname Hcount].
    set (s0 := streams self calls) in *.
    destruct (_trace_callback_effect s0 frame event arg)
      as [ Hlatch
         | Hs Hlim Hfile
         | Hs Hlim Hfile Hcap
         | vars Hs Hlim Hfile Hcap Hexpl
         | vars text Hs Hlim Hfile Hcap Hexpl Hclosed
         | vars text Hs Hlim Hfile Hcap Hexpl Hopen ].
    + specialize (IH (set_stopped s0 true)).
      destruct (exec_traced (set_stopped s0 true) resumes) as [[self' calls'] f].
      cbn [fst snd set_stopped traced_filename step_count] in *.
      rewrite own_calls_cons, <- Hname, <- Hcount. split; [apply IH | lia].
    + specialize (IH s0).
      destruct (exec_traced s0 resumes) as [[self' calls'] f].
      cbn [fst snd] in *.
      rewrite own_calls_cons, <- Hname, <- Hcount. split; [apply IH | lia].
    + cbn [fst snd]. rewrite streams_fields.
      cbn [traced_filename step_count before_capture].
      rewrite own_calls_cons. split; [exact Hname | lia].
    + cbn [fst snd]. rewrite streams_fields.
      cbn [traced_filename step_count after_capture].
      rewrite own_calls_cons. split; [exact Hname | lia].
    + cbn [fst snd]. rewrite streams_fields.
      cbn [traced_filename step_count after_count].
      rewrite own_calls_cons, <- Hname, Hfile, String.eqb_refl.
      split; [reflexivity | unfold own_calls; simpl; lia].
    + specialize (IH (after_record s0 frame event arg vars text
                                   (StringIO.content (output_buffer s0)))).
      destruct (exec_traced
                  (after_record s0 frame event arg vars text
                                (StringIO.content (output_buffer s0)))
                  resumes) as [[self' calls'] f].
      cbn [fst snd after_record traced_filename step_count] in *.
      rewrite own_calls_cons, <- Hname, Hfile, String.eqb_refl.
      split; [apply IH | lia].
Qed.

(** X14: in every call of [Tracer.trace], the steps that the trace function
    records are at most as many as the events that come from frames of the
    traced file; events of other files never make a step. *)
Theorem recorded_steps_come_from_own_events (compile : Compiler)
    (self : Tracer) (code : string) :
  let run := trace compile self code in
  step_count (self_after run)
  <= Z.of_nat (own_calls (traced_filename self) (callback_calls run)).
Proof.
  cbv zeta. unfold trace. cbv zeta.
  change (traced_filename (reset self code)) with (traced_filename self).
  destruct (compile code (traced_filename self)) as [program|e|kind];
    try (simpl; unfold own_calls; simpl; lia).
  pose proof (exec_traced_own_calls program (reset self code)) as [_ Hcount].
  destruct (exec_traced (reset self code) program) as [[recorder calls] f].
  simpl in Hcount.
  assert (Hadd : forall e m, step_count (add_exception_step recorder e m)
                             = step_count recorder)
    by (intros e m; apply add_exception_step_fields).
  destruct (raised f) as [e|]; [|cbn [self_after callback_calls]; lia].
  destruct (exc_is_Exception e); [|cbn [self_after callback_calls]; lia].
  destruct (exc_str e); cbn [self_after callback_calls]; [rewrite Hadd|]; lia.
Qed.

(** ** One instance, many traces *)

Lemma configured_after_exec (self : Tracer) (program : Execution) :
  configured (max_steps self) (traced_filename self)
             (fst (fst (exec_traced self program))).
Proof.
  apply (exec_traced_invariant
           (configured (max_steps self) (traced_filename self))
           (fun _ _ H => H)
           (configured_trace_callback (max_steps self) (traced_filename self))).
  split; reflexivity.
Qed.

Lemma configured_after_trace (compile : Compiler) (self : Tracer) (code : string) :
  configured (max_steps self) (traced_filename self)
             (self_after (trace compile self code)).
Proof.
  unfold trace. cbv zeta.
  change (traced_filename (reset self code)) with (traced_filename self).
  destruct (compile code (traced_filename self)) as [program|e|kind];
    try (split; reflexivity).
  pose proof (configured_after_exec (reset self code) program) as Hconf.
  destruct (exec_traced (reset self code) program) as [[recorder calls] f].
  cbn [fst] in Hconf.
  assert (Hadd : forall e m, configured (max_steps self) (traced_filename self)
                               (add_exception_step recorder e m)).
  { intros e m. unfold add_exception_step.
    destruct (last_step (Tracer.steps recorder)); exact Hconf. }
  destruct (raised f) as [e|]; [|exact Hconf].
  destruct (exc_is_Exception e); [|exact Hconf].
  destruct (exc_str e); cbn [self_after]; [apply Hadd | exact Hconf].
Qed.

(** X15: what [Tracer.trace] does depends on the instance only through
    [max_steps] and [traced_filename].  An instance that has already
    traced some source therefore traces the next one as a fresh instance
    with the same ceiling would: nothing of the earlier run is left. *)
Theorem tracer_can_be_reused (compile : Compiler) (self : Tracer)
    (earlier code : string) :
  trace compile (self_after (trace compile self earlier)) code
  = trace compile self code
  /\
  (Tracer.traced_filename self = "<explainflow>" ->
   trace compile (self_after (trace compile self earlier)) code
   = trace compile (__init__ (max_steps self)) code).
Proof.
  assert (Hdep : forall a b,
            max_steps a = max_steps b ->
            traced_filename a = traced_filename b ->
            trace compile a code = trace compile b code).
  { intros a b Hm Hf. unfold trace. cbv zeta.
    assert (E : reset a code = reset b code)
      by (unfold reset; rewrite Hm, Hf; reflexivity).
    rewrite E. reflexivity. }
  destruct (configured_after_trace compile self earlier) as [Hm Hf].
  split.
  - now apply Hdep.
  - intros Hname. apply Hdep; [exact Hm | rewrite Hf; exact Hname].
Qed.

Lemma tracer_can_be_reused_witness :
  trace (Scenario.compiles_to Scenario.branch_run)
        (self_after (trace (Scenario.compiles_to Scenario.branch_run)
                           (__init__ 5) Scenario.failing_code))
        Scenario.branch_code
  = trace (Scenario.compiles_to Scenario.branch_run)
          (__init__ (max_steps (__init__ 5))) Scenario.branch_code.
Proof.
  apply (proj2 (tracer_can_be_reused (Scenario.compiles_to Scenario.branch_run)
                  (__init__ 5) Scenario.failing_code Scenario.branch_code)).
  reflexivity.
Defined.

(** ** Looking steps up: [get_step], [__getitem__], [get_variable_history] *)










(** ** Summaries *)

Lemma prefix_app_cancel (a x y : string) :
  String.prefix x y = true -> String.prefix (a ++ x) (a ++ y) = true.
Proof.
  intros H. induction a as [|c a IH]; simpl append; [exact H|].
  apply prefix_cons. auto.
Qed.

Lemma join_cons2 (sep x y : string) (l : list string) :
  PyStr.join sep (x :: y :: l) = x ++ sep ++ PyStr.join sep (y :: l).
Proof. reflexivity. Qed.

Lemma join_In (sep x : string) (l : list string) :
  In x l -> exists before after, PyStr.join sep l = before ++ x ++ after.
Proof.
  induction l as [|a l IH]; [intros []|].
  intros [->|Hin].
  - exists EmptyString. destruct l as [|b l].
    + exists EmptyString. simpl. now rewrite append_nil_r.
    + exists (sep ++ PyStr.join sep (b :: l)). now rewrite join_cons2.
  - destruct l as [|b l]; [destruct Hin|].
    destruct (IH Hin) as (before & after & E).
    exists (a ++ sep ++ before), after.
    rewrite join_cons2, E, !append_assoc. reflexivity.
Qed.

Lemma join_contains (sep x : string) (l : list string) :
  In x l -> PyStr.contains x (PyStr.join sep l) = true.
Proof.
  intros Hin. destruct (join_In sep x l Hin) as (before & after & ->).
  apply contains_infix.
Qed.

Lemma join_contains_tail (sep lead x : string) (l : list string) :
  In (lead ++ x) l -> PyStr.contains x (PyStr.join sep l) = true.
Proof.
  intros Hin. destruct (join_In sep _ l Hin) as (before & after & ->).
  rewrite append_assoc, <- (append_assoc before lead).
  apply contains_infix.
Qed.

Lemma join_prefix (sep : string) (l1 l2 : list string) :
  l1 <> [] ->
  String.prefix (PyStr.join sep l1) (PyStr.join sep (l1 ++ l2)) = true.
Proof.
  induction l1 as [|a l1 IH]; [contradiction|]. intros _.
  destruct l1 as [|b l1].
  - destruct l2 as [|c l2]; simpl app.
    + apply prefix_refl.
    + rewrite join_cons2. simpl PyStr.join at 1. apply prefix_app_self.
  - simpl app. rewrite !join_cons2. apply prefix_app_cancel, prefix_app_cancel.
    apply IH. discriminate.
Qed.

(** X18: the summary of a trace opens with the title, the rule, the step
    count, the line count and the success flag, in this order; it contains
    the error message when the trace has no success, the output when there
    is some, and one line of name, printable representation and type name
    for every final variable; and for a successful trace without output
    and without final variables it is the opening alone. *)
Theorem summary_reports_outcome (self : ExecutionTrace) :
  let nl := String PyStr.newline EmptyString in
  let opening :=
    "Execution Summary" ++ nl ++ PyStr.times "=" 40 ++ nl
    ++ "Total steps: " ++ PyStr.of_int (__len__ self) ++ nl
    ++ "Lines in code: " ++ PyStr.of_int (total_lines self) ++ nl
    ++ "Success: " ++ str_of_bool (success self) in
  String.prefix opening (summary self) = true /\
  (success self = false ->
   PyStr.contains ("Error: " ++ error_message self) (summary self) = true) /\
  (final_output self <> EmptyString ->
   PyStr.contains ("Output:" ++ nl ++ final_output self) (summary self) = true) /\
  (forall var,
     In var (Dict.values (final_variables self)) ->
     PyStr.contains (summary_variable var) (summary self) = true) /\
  (success self = true -> final_output self = EmptyString ->
   final_variables self = Dict.empty ->
   summary self = opening).
Proof.
  cbv zeta.
  set (nl := String PyStr.newline EmptyString).
  set (header :=
         ["Execution Summary"; PyStr.times "=" 40;
          "Total steps: " ++ PyStr.of_int (Z.of_nat (List.length (Models.steps self)));
          "Lines in code: " ++ PyStr.of_int (total_lines self);
          "Success: " ++ str_of_bool (success self)]).
  assert (Hshape :
    exists rest,
      summary self = PyStr.join nl (header ++ rest) /\
      (success self = false -> In (nl ++ "Error: " ++ error_message self) rest) /\
      (final_output self <> EmptyString ->
       In (nl ++ "Output:" ++ nl ++ final_output self) rest) /\
      (forall var, In var (Dict.values (final_variables self)) ->
                   In (summary_variable var) rest) /\
      (success self = true -> final_output self = EmptyString ->
       final_variables self = Dict.empty -> rest = [])).
  { unfold summary. cbv zeta. fold nl. fold header.
    pose (out_line := nl ++ "Output:" ++ nl ++ final_output self).
    pose (err_line := nl ++ "Error: " ++ error_message self).
    pose (vars_line := nl ++ "Final Variables:").
    exists (List.app
              (if negb (String.eqb (final_output self) EmptyString)
               then [out_line] else [])
              (List.app
                 (if negb (success self) then [err_line] else [])
                 match final_variables self with
                 | [] => []
                 | _ => vars_line
                        :: map summary_variable (Dict.values (final_variables self))
                 end)).
    split; [|split; [|split; [|split]]].
    - destruct (negb (String.eqb (final_output self) EmptyString));
        destruct (negb (success self));
        destruct (final_variables self);
        rewrite <- ?app_assoc, ?app_nil_r; reflexivity.
    - intros ->. simpl negb. cbv iota.
      apply in_or_app. right. apply in_or_app. left. now left.
    - intros Hout. destruct (String.eqb (final_output self) EmptyString) eqn:E;
        [apply String.eqb_eq in E; contradiction|].
      apply in_or_app. left. now left.
    - intros var Hin. apply in_or_app. right. apply in_or_app. right.
      destruct (final_variables self) as [|entry more]; [destruct Hin|].
      right. now apply in_map.
    - intros -> -> ->. reflexivity. }
  destruct Hshape as (rest & Hsum & Herr & Hout & Hvars & Hnone).
  assert (Hopening : PyStr.join nl header
                     = "Execution Summary" ++ nl ++ PyStr.times "=" 40 ++ nl
                       ++ "Total steps: " ++ PyStr.of_int (__len__ self) ++ nl
                       ++ "Lines in code: " ++ PyStr.of_int (total_lines self)
                       ++ nl ++ "Success: " ++ str_of_bool (success self)).
  { unfold header, __len__. rewrite !join_cons2. simpl PyStr.join.
    rewrite !append_assoc. reflexivity. }
  rewrite <- Hopening, Hsum. split; [|split; [|split; [|split]]].
  - apply join_prefix. discriminate.
  - intros Hs. apply (join_contains_tail nl nl).
    apply in_or_app. right. auto.
  - intros Ho. apply (join_contains_tail nl nl).
    apply in_or_app. right. auto.
  - intros var Hin. apply join_contains. apply in_or_app. right. auto.
  - intros Hs Ho Hv. rewrite (Hnone Hs Ho Hv), app_nil_r. reflexivity.
Qed.

Lemma summary_reports_outcome_witness :
  exists t,
    result (trace (Scenario.compiles_to Scenario.failing_run)
                  (__init__ 1000) Scenario.failing_code) = Returns t /\
    success t = false /\
    PyStr.contains "Total steps: 6" (summary t) = true /\
    PyStr.contains ("Error: " ++ error_message t) (summary t) = true.
Proof.
  eexists. run_returns H. do 2 (split; [reflexivity|]).
  apply (proj1 (proj2 (summary_reports_outcome _))). reflexivity.
Defined.

(** X19: the variable summary of a step without variables is the text
    [No variables]; otherwise it contains, for every variable of the step,
    its name, an equals sign and its printable representation. *)
Theorem variable_summary_lists_variables (arrow_marker : string)
    (self : ExecutionStep) :
  (variables self = Dict.empty ->
   get_variable_summary arrow_marker self = "No variables") /\
  (forall var,
     In var (Dict.values (variables self)) ->
     PyStr.contains (name var ++ " = " ++ repr_value var)
                    (get_variable_summary arrow_marker self) = true).
Proof.
  unfold get_variable_summary. split.
  - intros ->. reflexivity.
  - intros var Hin. destruct (variables self) as [|entry rest] eqn:E;
      [destruct Hin|].
    apply (join_contains_tail _ (if changed var then arrow_marker else "  ")).
    apply in_map_iff. exists var. split; [reflexivity | exact Hin].
Qed.

Lemma variable_summary_lists_variables_witness :
  let x :=
    {| name := "x"; value := PyInt 5; type_name := "int";
       repr_value := "5"; changed := false |} in
  let step :=
    {| step_number := 1; line_number := 1; line_content := "x = 5";
       step_type := ASSIGNMENT;
       variables := [("x", x)];
       output := EmptyString; return_value := PyNone; exception := None;
       function_name := None; Models.call_depth := 0;
       explanation := EmptyString |} in
  from_value "x" (PyInt 5) PyNone = Some x /\
  PyStr.contains "x = 5" (get_variable_summary "> " step) = true.
Proof.
  cbv zeta. split; [reflexivity|].
  apply (proj2 (variable_summary_lists_variables "> " _)
           {| name := "x"; value := PyInt 5; type_name := "int";
              repr_value := "5"; changed := false |}).
  left. reflexivity.
Defined.

(** ** The ceiling, once reached *)

(** X20: once the step count has reached the ceiling, the rest of the run
    records nothing, whatever events it still delivers. *)
Theorem events_after_ceiling_are_dropped (self : Tracer) (program : Execution) :
  max_steps self <= step_count self ->
  Tracer.steps (fst (fst (exec_traced self program))) = Tracer.steps self /\
  step_count (fst (fst (exec_traced self program))) = step_count self.
Proof.
  intros Hceil.
  enough (Hinv : Tracer.steps (fst (fst (exec_traced self program)))
                 = Tracer.steps self /\
                 step_count (fst (fst (exec_traced self program)))
                 = step_count self /\
                 max_steps (fst (fst (exec_traced self program)))
                 <= step_count (fst (fst (exec_traced self program))))
    by (split; apply Hinv).
  apply (exec_traced_invariant
           (fun s => Tracer.steps s = Tracer.steps self /\
                     step_count s = step_count self /\
                     max_steps s <= step_count s));
    [ intros s c H; exact H | | repeat split; lia ].
  intros s frame event arg (Hsteps & Hcount & Hmax).
  by_effect s frame event arg; try lia.
  repeat split; assumption.
Qed.

Lemma events_after_ceiling_are_dropped_witness :
  Tracer.steps (fst (fst (exec_traced (__init__ 0) Scenario.branch_run))) = [] /\
  step_count (fst (fst (exec_traced (__init__ 0) Scenario.branch_run))) = 0.
Proof.
  apply (events_after_ceiling_are_dropped (__init__ 0) Scenario.branch_run).
  vm_compute. discriminate.
Defined.

(** ** visualizer.py *)

Lemma length_take_min (n : nat) (s : string) :
  String.length (PyStr.take n s) = Nat.min n (String.length s).
Proof.
  unfold PyStr.take. revert s. induction n as [|n IH]; intros s.
  - destruct s; reflexivity.
  - destruct s as [|c s]; simpl; [reflexivity|]. now rewrite IH.
Qed.

(** X21: [format_value] leaves a value of at most [max_length] characters
    as it is.  With [max_length] at least 3, a longer value becomes its
    first [max_length - 3] characters and three dots, [max_length]
    characters in all, so the result never exceeds [max_length] and
    formatting twice changes nothing more.  With [max_length] below 3, a
    longer value is formatted to more than [max_length] characters. *)
Theorem format_value_fits (value : string) (max_length : Z) :
  (PyStr.len value <= max_length ->
   Visualizer.format_value value max_length = value) /\
  (3 <= max_length -> max_length < PyStr.len value ->
   Visualizer.format_value value max_length
   = PyStr.take (Z.to_nat (max_length - 3)) value ++ "..." /\
   PyStr.len (Visualizer.format_value value max_length) = max_length) /\
  (3 <= max_length ->
   PyStr.len (Visualizer.format_value value max_length) <= max_length /\
   Visualizer.format_value (Visualizer.format_value value max_length) max_length
   = Visualizer.format_value value max_length) /\
  (max_length < 3 -> max_length < PyStr.len value ->
   max_length < PyStr.len (Visualizer.format_value value max_length)).
Proof.
  assert (Hshort : forall v, PyStr.len v <= max_length ->
                             Visualizer.format_value v max_length = v).
  { intros v Hv. unfold Visualizer.format_value.
    destruct (max_length <? PyStr.len v) eqn:E; [|reflexivity].
    apply Z.ltb_lt in E. lia. }
  assert (Hlong : 3 <= max_length -> max_length < PyStr.len value ->
                  Visualizer.format_value value max_length
                  = PyStr.take (Z.to_nat (max_length - 3)) value ++ "..." /\
                  PyStr.len (Visualizer.format_value value max_length) = max_length).
  { intros H3 Hv. unfold Visualizer.format_value, PyStr.slice_to.
    replace (max_length <? PyStr.len value) with true
      by (symmetry; apply Z.ltb_lt; lia).
    replace (0 <=? max_length - 3) with true by (symmetry; apply Z.leb_le; lia).
    split; [reflexivity|].
    unfold PyStr.len in *. rewrite length_append, length_take_min. simpl. lia. }
  split; [apply Hshort|]. split; [exact Hlong|]. split.
  - intros H3.
    assert (Hfit : PyStr.len (Visualizer.format_value value max_length)
                   <= max_length).
    { destruct (Z.lt_ge_cases max_length (PyStr.len value)) as [Hv|Hv].
      - destruct (Hlong H3 Hv) as [_ ->]. lia.
      - rewrite Hshort by lia. lia. }
    split; [exact Hfit | now apply Hshort].
  - intros H3 Hv. unfold Visualizer.format_value, PyStr.slice_to.
    replace (max_length <? PyStr.len value) with true
      by (symmetry; apply Z.ltb_lt; lia).
    replace (0 <=? max_length - 3) with false by (symmetry; apply Z.leb_gt; lia).
    unfold PyStr.len. rewrite length_append. simpl. lia.
Qed.

Lemma format_value_fits_witness :
  Visualizer.format_value "a long value" 8 = "a lon..." /\
  PyStr.len (Visualizer.format_value "a long value" 8) = 8 /\
  Visualizer.format_value "short" 8 = "short" /\
  2 < PyStr.len (Visualizer.format_value "abcd" 2).
Proof.
  split; [|split; [|split]].
  - apply (proj1 (proj1 (proj2 (format_value_fits "a long value" 8))
                    ltac:(lia) ltac:(vm_compute; reflexivity))).
  - apply (proj2 (proj1 (proj2 (format_value_fits "a long value" 8))
                    ltac:(lia) ltac:(vm_compute; reflexivity))).
  - apply (proj1 (format_value_fits "short" 8)). vm_compute. discriminate.
  - apply (proj2 (proj2 (proj2 (format_value_fits "abcd" 2))));
      [lia | vm_compute; reflexivity].
Defined.

(** X22: whatever theme name a [Visualizer] is made with, its theme has
    the sixteen colour keys of the dark theme, in the same order; a name
    that is not one of [dark], [light] and [colorblind] gives the dark
    theme itself. *)
Theorem visualizer_theme_is_complete (theme : string) (show_types : bool) :
  Dict.keys (Visualizer.theme (Visualizer.__init__ theme show_types))
  = Dict.keys Visualizer.theme_dark /\
  (theme <> "dark" -> theme <> "light" -> theme <> "colorblind" ->
   Visualizer.theme (Visualizer.__init__ theme show_types)
   = Visualizer.theme_dark) /\
  Visualizer.theme_name (Visualizer.__init__ theme show_types) = theme.
Proof.
  unfold Visualizer.__init__, Visualizer.THEMES; cbn [Visualizer.theme Dict.get].
  split; [|split; [|reflexivity]].
  - destruct (String.eqb "dark" theme); [reflexivity|].
    destruct (String.eqb "light" theme); [reflexivity|].
    destruct (String.eqb "colorblind" theme); reflexivity.
  - intros Hd Hl Hc.
    destruct (String.eqb "dark" theme) eqn:E1;
      [apply String.eqb_eq in E1; congruence|].
    destruct (String.eqb "light" theme) eqn:E2;
      [apply String.eqb_eq in E2; congruence|].
    destruct (String.eqb "colorblind" theme) eqn:E3;
      [apply String.eqb_eq in E3; congruence|].
    reflexivity.
Qed.

Lemma visualizer_theme_is_complete_witness :
  Visualizer.theme (Visualizer.__init__ "nonexistent" true)
  = Visualizer.theme_dark.
Proof.
  apply (proj1 (proj2 (visualizer_theme_is_complete "nonexistent" true)));
    discriminate.
Defined.

(** ** Explanations of the other kinds *)

Lemma recorded_step_told (self : Tracer) (frame : Frame) (event : Event)
    (arg : pyvalue) (vars : Dict.t Variable_) (text out : string) :
  explanation_of self frame event arg vars = Some text ->
  told (recorded_step self frame event arg vars text out).
Proof.
  unfold explanation_of, told, recorded_step.
  cbn [step_type line_content explanation return_value].
  set (line := line_at (code_lines self) (f_lineno frame)).
  intros Hexpl. unfold _generate_explanation in Hexpl.
  destruct (kind_of event line) eqn:Ek; try exact I.
  - (* LINE *)
    destruct (negb (String.eqb (PyStr.strip line) EmptyString));
      now injection Hexpl as <-.
  - (* CALL *)
    now injection Hexpl as <-.
  - (* RETURN *)
    apply kind_of_RETURN in Ek. subst event. intros ->. simpl in Hexpl.
    now injection Hexpl as <-.
  - (* LOOP_START *)
    destruct (PyStr.startswith (PyStr.strip line) "for ");
      now injection Hexpl as <-.
Qed.

Lemma told_kept_trace_callback (self : Tracer) (frame : Frame) (event : Event)
    (arg : pyvalue) :
  told_kept self -> told_kept (fst (_trace_callback self frame event arg)).
Proof.
  unfold told_kept. intros Hsteps. by_effect self frame event arg;
    try assumption.
  apply Forall_app. split; [assumption|].
  constructor; [|constructor]. now apply recorded_step_told.
Qed.

(** X23: in a returned trace a CALL step is explained by [Calling
    function], a LOOP_START step by [Starting loop: <line>] when the
    trimmed line starts with [for ] and by [Checking loop condition:
    <line>] otherwise, a LINE step by [Executing: <line>], or by [Empty
    line] when the trimmed line is empty, and a RETURN step without a value
    by [Returning from function]. *)
Theorem explanations_of_other_kinds (compile : Compiler) (self : Tracer)
    (code : string) (t : ExecutionTrace) (step : ExecutionStep) :
  result (trace compile self code) = Returns t ->
  In step (Models.steps t) ->
  let stripped := PyStr.strip (line_content step) in
  (step_type step = CALL -> explanation step = "Calling function") /\
  (step_type step = LOOP_START ->
   explanation step
   = if PyStr.startswith stripped "for "
     then "Starting loop: " ++ stripped
     else "Checking loop condition: " ++ stripped) /\
  (step_type step = LINE ->
   explanation step
   = if negb (String.eqb stripped EmptyString)
     then "Executing: " ++ stripped
     else "Empty line") /\
  (step_type step = RETURN -> return_value step = PyNone ->
   explanation step = "Returning from function").
Proof.
  intros H Hstep. cbv zeta.
  assert (Htold : told step).
  { apply trace_returned in H
      as [(e & _ & Hnil) | (program & _ & _ & _ & _ & Hsteps)].
    - rewrite Hnil in Hstep. contradiction.
    - assert (Hall : told_kept
                       (fst (fst (exec_traced (reset self code) program)))).
      { apply (exec_traced_invariant told_kept
                 (fun _ _ H => H) told_kept_trace_callback).
        constructor. }
      unfold told_kept in Hall. rewrite Forall_forall in Hall.
      destruct Hsteps as [E | (final & E & _ & Hkind & _)];
        rewrite E in Hstep; [apply Hall, Hstep|].
      apply in_app_or in Hstep as [Hstep | [<- | []]]; [apply Hall, Hstep|].
      unfold told. now rewrite Hkind. }
  unfold told in Htold. cbv zeta in Htold.
  repeat split; intros Hkind; rewrite Hkind in Htold; exact Htold.
Qed.

Lemma explanations_of_other_kinds_witness :
  exists t calling line returning,
    result (trace (Scenario.compiles_to Scenario.branch_run)
                  (__init__ 1000) Scenario.branch_code) = Returns t /\
    nth_error (Models.steps t) 6 = Some calling /\
    nth_error (Models.steps t) 8 = Some line /\
    nth_error (Models.steps t) 10 = Some returning /\
    explanation calling = "Calling function" /\
    explanation line = "Executing: return a + 1" /\
    explanation returning = "Returning from function".
Proof.
  do 4 eexists. run_returns H. do 3 (split; [reflexivity|]).
  pose proof (fun step => explanations_of_other_kinds _ _ _ _ step H) as Hsteps.
  split; [|split].
  - edestruct Hsteps as (Hcall & _); [do 6 right; left; reflexivity|].
    exact (Hcall eq_refl).
  - edestruct Hsteps as (_ & _ & Hline & _); [do 8 right; left; reflexivity|].
    exact (Hline eq_refl).
  - edestruct Hsteps as (_ & _ & _ & Hret); [do 10 right; left; reflexivity|].
    exact (Hret eq_refl eq_refl).
Defined.

(** ** Steps and the events they record *)

Lemma chosen_all {A : Type} (l : list A) : chosen l l.
Proof. induction l; constructor; assumption. Qed.






(** ** Frames for export: [Visualizer.to_frames] *)






(** ** Lines executed *)



(** ** Indentation *)

Lemma lstrip_starts (s : string) :
  match PyStr.lstrip s with
  | String c _ => PyStr.is_space c = false
  | EmptyString => True
  end.
Proof.
  induction s as [|c s IH]; simpl; [exact I|].
  destruct (PyStr.is_space c) eqn:E; [exact IH | exact E].
Qed.

Lemma lstrip_fixed (s : string) :
  match s with
  | String c _ => PyStr.is_space c = false
  | EmptyString => True
  end ->
  PyStr.lstrip s = s.
Proof. destruct s as [|c s]; simpl; [reflexivity | now intros ->]. Qed.

Lemma rstrip_starts (s : string) :
  match s with
  | String c _ => PyStr.is_space c = false
  | EmptyString => True
  end ->
  match PyStr.rstrip s with
  | String c _ => PyStr.is_space c = false
  | EmptyString => True
  end.
Proof.
  destruct s as [|c s]; simpl; [trivial|]. intros Hc.
  destruct (PyStr.rstrip s); [rewrite Hc|]; exact Hc.
Qed.

Lemma rstrip_idempotent (s : string) :
  PyStr.rstrip (PyStr.rstrip s) = PyStr.rstrip s.
Proof.
  induction s as [|c s IH]; simpl; [reflexivity|].
  destruct (PyStr.rstrip s) as [|d r] eqn:E.
  - destruct (PyStr.is_space c) eqn:Ec; simpl; [reflexivity | now rewrite Ec].
  - change (PyStr.rstrip (String c (String d r)))
      with (match PyStr.rstrip (String d r) with
            | EmptyString =>
                if PyStr.is_space c then EmptyString else String c EmptyString
            | String a rest => String c (String a rest)
            end).
    rewrite IH. reflexivity.
Qed.

Lemma strip_idempotent (s : string) :
  PyStr.strip (PyStr.strip s) = PyStr.strip s.
Proof.
  unfold PyStr.strip.
  rewrite (lstrip_fixed (PyStr.rstrip (PyStr.lstrip s)))
    by apply rstrip_starts, lstrip_starts.
  apply rstrip_idempotent.
Qed.

Lemma lstrip_spaces (n : nat) (s : string) :
  PyStr.lstrip (PyStr.times " " n ++ s) = PyStr.lstrip s.
Proof. induction n as [|n IH]; simpl; [reflexivity | exact IH]. Qed.

(** X27: the kind and the explanation of a line depend on the trimmed line
    only: they do not change when the line is trimmed beforehand, nor when
    it is indented by any number of spaces. *)
Theorem classification_ignores_indentation (line_content : string) (indent : nat)
    (step_type : StepType) (variables : Dict.t Variable_) (arg : pyvalue) :
  _determine_line_type (PyStr.strip line_content)
  = _determine_line_type line_content /\
  _determine_line_type (PyStr.times " " indent ++ line_content)
  = _determine_line_type line_content /\
  _generate_explanation step_type (PyStr.strip line_content) variables arg
  = _generate_explanation step_type line_content variables arg /\
  _generate_explanation step_type (PyStr.times " " indent ++ line_content)
                        variables arg
  = _generate_explanation step_type line_content variables arg.
Proof.
  assert (Hindent : PyStr.strip (PyStr.times " " indent ++ line_content)
                    = PyStr.strip line_content)
    by (unfold PyStr.strip; now rewrite lstrip_spaces).
  unfold _determine_line_type, _generate_explanation.
  rewrite strip_idempotent, Hindent. repeat split.
Qed.
